(** * DRA-OFK-Financial-Reports: the XML generators AIF.py, AIFM.py and
    OFKReport.py, embedded as functions over an explicit element store.

    The three scripts read a spreadsheet into a table of cells, walk the
    table section by section, build an [xml.etree.ElementTree] document by
    side effect and write it to disk.  The embedding keeps that shape:

    - a cell is a Python value ([value]): text, int, float, bool or timestamp;
    - the builder runs in a small monad ([M]) that threads the Python local
      variables that outlive a loop iteration, raises Python exceptions and
      records every [ElementTree] call as an [op];
    - replaying the recorded calls on a [heap] of nodes gives the document;
    - the drivers ([convert_to_xml], [aif_xml], [generateXML]) loop over the
      batch and produce the list of observable [event]s (log lines, prints,
      files written).

    Cell text is taken to be ASCII; spreadsheet loading ([pd.read_excel]) is
    outside the embedding, a file being given as its table of rows after
    [df.replace(np.nan, '')] and [df.xmlTags.str.strip('<>')]. *)

From Stdlib Require Import ZArith List String Ascii Bool Lia QArith DecimalString.
Import ListNotations.
Close Scope Q_scope.
Set Warnings "-register-all".
Open Scope string_scope.
Open Scope list_scope.

(* ================================================================= *)
(** ** Python values *)

Module Py.

(** [datetime.datetime] / [pandas.Timestamp], to the second. *)
Record datetime := mkDatetime {
  year : Z; month : Z; day : Z; hour : Z; minute : Z; second : Z }.

(** A Python float: its value and the text [str] prints for it. *)
Record pyfloat := mkFloat { float_val : Q; float_str : string }.

Inductive value :=
| VStr (s : string)
| VInt (n : Z)
| VFloat (f : pyfloat)
| VBool (b : bool)
| VDate (d : datetime).

(** The exceptions of the three modules, and the built-in ones the code can
    run into.  User exceptions carry their message. *)
Inductive exn :=
| EmptyValueError (msg : string)
| DomainValueError (msg : string)
| LengthValueRequiredError (msg : string)
| NoFilesFoundError (msg : string)
| UnassinedIntegerError (msg : string)
| ConditionalError (msg : string)
| NotImplementedError (msg : string)
| KeyError (key : string)
| IndexError
| AttributeError
| TypeError
| UnboundLocalError (var : string).

Definition z2s (z : Z) : string := NilZero.string_of_int (Z.to_int z).

Fixpoint zeros (n : nat) : string :=
  match n with O => "" | S k => String "0" (zeros k) end.

(** [%02d], [%04d] of a non-negative number. *)
Definition pad (width : nat) (z : Z) : string :=
  let s := z2s z in zeros (width - String.length s) ++ s.

Definition isoformat_date (d : datetime) : string :=
  pad 4 (year d) ++ "-" ++ pad 2 (month d) ++ "-" ++ pad 2 (day d).

Definition isoformat_time (d : datetime) : string :=
  pad 2 (hour d) ++ ":" ++ pad 2 (minute d) ++ ":" ++ pad 2 (second d).

(** [str(v)] *)
Definition str (v : value) : string :=
  match v with
  | VStr s => s
  | VInt n => z2s n
  | VFloat f => float_str f
  | VBool true => "True"
  | VBool false => "False"
  | VDate d => isoformat_date d ++ " " ++ isoformat_time d
  end.

(** [bool(v)], the test an [if v] or [v and ...] performs. *)
Definition truthy (v : value) : bool :=
  match v with
  | VStr s => negb (String.eqb s "")
  | VInt n => negb (Z.eqb n 0)
  | VFloat f => negb (Qeq_bool (float_val f) (inject_Z 0))
  | VBool b => b
  | VDate _ => true
  end.

Definition datetime_eqb (a b : datetime) : bool :=
  Z.eqb (year a) (year b) && Z.eqb (month a) (month b) && Z.eqb (day a) (day b)
  && Z.eqb (hour a) (hour b) && Z.eqb (minute a) (minute b)
  && Z.eqb (second a) (second b).

Definition b2z (b : bool) : Z := if b then 1%Z else 0%Z.

(** [a == b] *)
Definition eq (a b : value) : bool :=
  match a, b with
  | VStr s, VStr t => String.eqb s t
  | VStr _, _ | _, VStr _ => false
  | VDate d, VDate e => datetime_eqb d e
  | VDate _, _ | _, VDate _ => false
  | VInt n, VInt m => Z.eqb n m
  | VInt n, VBool b | VBool b, VInt n => Z.eqb n (b2z b)
  | VBool b, VBool c => Bool.eqb b c
  | VInt n, VFloat f | VFloat f, VInt n => Qeq_bool (float_val f) (inject_Z n)
  | VBool b, VFloat f | VFloat f, VBool b =>
      Qeq_bool (float_val f) (inject_Z (b2z b))
  | VFloat f, VFloat g => Qeq_bool (float_val f) (float_val g)
  end.

(** [v == s] and [v != s] against a string literal. *)
Definition eqs (v : value) (s : string) : bool := eq v (VStr s).
Definition nes (v : value) (s : string) : bool := negb (eqs v s).

(** [v in [s1, s2, ...]] for a list of string literals. *)
Definition in_strs (v : value) (l : list string) : bool :=
  existsb (eqs v) l.

(** [type(v) != int] *)
Definition type_is_not_int (v : value) : bool :=
  match v with VInt _ => false | _ => true end.

(** [type(v) != str] *)
Definition type_is_not_str (v : value) : bool :=
  match v with VStr _ => false | _ => true end.

(** [str.strip()]: the ASCII characters for which [str.isspace] holds. *)
Definition is_space (c : ascii) : bool :=
  let n := nat_of_ascii c in
  ((9 <=? n) && (n <=? 13) || (28 <=? n) && (n <=? 32))%nat.

Fixpoint lstrip (s : string) : string :=
  match s with
  | String c r => if is_space c then lstrip r else s
  | EmptyString => EmptyString
  end.

Fixpoint rstrip (s : string) : string :=
  match s with
  | String c r =>
      match rstrip r with
      | EmptyString => if is_space c then EmptyString else String c EmptyString
      | r' => String c r'
      end
  | EmptyString => EmptyString
  end.

Definition strip (s : string) : string := rstrip (lstrip s).

Definition upper_char (c : ascii) : ascii :=
  let n := nat_of_ascii c in
  if ((97 <=? n) && (n <=? 122))%nat then ascii_of_nat (n - 32) else c.

Definition lower_char (c : ascii) : ascii :=
  let n := nat_of_ascii c in
  if ((65 <=? n) && (n <=? 90))%nat then ascii_of_nat (n + 32) else c.

Fixpoint smap (f : ascii -> ascii) (s : string) : string :=
  match s with
  | String c r => String (f c) (smap f r)
  | EmptyString => EmptyString
  end.

Definition upper : string -> string := smap upper_char.
Definition lower : string -> string := smap lower_char.

(** [s * n] *)
Fixpoint repeat_str (s : string) (n : nat) : string :=
  match n with O => "" | S k => s ++ repeat_str s k end.

End Py.

Import Py.

(* ================================================================= *)
(** ** The element store and the calls made on it *)

Module ET.

(** One [xml.etree.ElementTree.Element] object.  [attrib] keeps the
    insertion order of a Python dict; [children] are object identities. *)
Record node := mkNode {
  tag : string;
  text : option string;
  attrib : list (string * string);
  children : list nat }.

(** The heap of element objects; an object's identity is its index. *)
Definition heap := list node.

(** The calls the scripts make, with [PrintOut] for the one [print] inside
    the AIF builder. *)
Inductive op :=
| NewElement (tg : string)                  (* ET.Element(tag) *)
| NewSubElement (parent : nat) (tg : string)  (* ET.SubElement(parent, tag) *)
| SetText (id : nat) (s : string)           (* elem.text = s *)
| SetAttr (id : nat) (k v : string)         (* elem.set(k, v) *)
| PrintOut (s : string).

(** [d[k] = v] on an insertion-ordered dict. *)
Fixpoint dict_set {V : Type} (d : list (string * V)) (k : string) (v : V)
  : list (string * V) :=
  match d with
  | [] => [(k, v)]
  | (k', v') :: r =>
      if String.eqb k' k then (k', v) :: r else (k', v') :: dict_set r k v
  end.

Fixpoint update (h : heap) (id : nat) (f : node -> node) : heap :=
  match h, id with
  | [], _ => []
  | n :: r, O => f n :: r
  | n :: r, S i => n :: update r i f
  end.

Definition add_child (c : nat) (n : node) : node :=
  mkNode (tag n) (text n) (attrib n) (children n ++ [c]).
Definition put_text (s : string) (n : node) : node :=
  mkNode (tag n) (Some s) (attrib n) (children n).
Definition put_attr (k v : string) (n : node) : node :=
  mkNode (tag n) (text n) (dict_set (attrib n) k v) (children n).

Definition fresh (tg : string) : node := mkNode tg None [] [].

Definition apply_op (h : heap) (o : op) : heap :=
  match o with
  | NewElement tg => h ++ [fresh tg]
  | NewSubElement p tg => update h p (add_child (List.length h)) ++ [fresh tg]
  | SetText id s => update h id (put_text s)
  | SetAttr id k v => update h id (put_attr k v)
  | PrintOut _ => h
  end.

Definition replay (h : heap) (ops : list op) : heap :=
  fold_left apply_op ops h.

(** The document as a tree, what [ET.ElementTree(root).write] serialises. *)
Inductive xml :=
| Elem (tg : string) (attrs : list (string * string)) (txt : option string)
       (kids : list xml).

(** [fuel] bounds the depth; a child is always allocated after its parent,
    so the number of objects in the heap is enough. *)
Fixpoint tree_of (fuel : nat) (h : heap) (id : nat) : xml :=
  match fuel with
  | O => Elem "" [] None []
  | S n =>
      match nth_error h id with
      | Some nd =>
          Elem (tag nd) (attrib nd) (text nd) (map (tree_of n h) (children nd))
      | None => Elem "" [] None []
      end
  end.

Definition document (h : heap) (root : nat) : xml :=
  tree_of (List.length h) h root.

End ET.

Import ET.

(* ================================================================= *)
(** ** The builder monad *)

(** The Python locals that survive from one loop iteration (and one file)
    to the next: the next object identity, and the variables that are only
    bound on some paths and read on others. *)
Record locals := mkLocals {
  next_id : nat;
  vars : list (string * nat) }.

Definition M (A : Type) : Type := locals -> (exn + A) * locals * list op.

Definition ret {A} (a : A) : M A := fun s => (inr a, s, []).

Definition raise {A} (e : exn) : M A := fun s => (inl e, s, []).

Definition bind {A B} (m : M A) (k : A -> M B) : M B :=
  fun s =>
    match m s with
    | (inl e, s1, o1) => (inl e, s1, o1)
    | (inr a, s1, o1) =>
        match k a s1 with
        | (r, s2, o2) => (r, s2, o1 ++ o2)
        end
    end.

Declare Scope py_scope.
Delimit Scope py_scope with py.
Notation "x <- m ;; k" := (bind m (fun x => k))
  (at level 61, m at next level, right associativity) : py_scope.
Notation "m ;; k" := (bind m (fun _ => k))
  (at level 61, right associativity) : py_scope.
Open Scope py_scope.

Definition emit (o : op) : M unit := fun s => (inr tt, s, [o]).

(** [ET.Element(tag)] *)
Definition Element (tg : string) : M nat :=
  fun s => (inr (next_id s), mkLocals (S (next_id s)) (vars s), [NewElement tg]).

(** [ET.SubElement(parent, tag)] *)
Definition SubElement (parent : nat) (tg : string) : M nat :=
  fun s => (inr (next_id s), mkLocals (S (next_id s)) (vars s),
            [NewSubElement parent tg]).

Definition set_text (id : nat) (s : string) : M unit := emit (SetText id s).
Definition set_attr (id : nat) (k v : string) : M unit := emit (SetAttr id k v).
Definition print (s : string) : M unit := emit (PrintOut s).

(** [x = ET.SubElement(parent, tag); x.text = s] *)
Definition leaf (parent : nat) (tg s : string) : M unit :=
  x <- SubElement parent tg ;; set_text x s.

(** Reading and binding a Python local that holds an element. *)
Definition get_var (name : string) : M nat :=
  fun s =>
    match find (fun kv => String.eqb (fst kv) name) (vars s) with
    | Some kv => (inr (snd kv), s, [])
    | None => (inl (UnboundLocalError name), s, [])
    end.

Definition set_var (name : string) (id : nat) : M unit :=
  fun s => (inr tt, mkLocals (next_id s) (dict_set (vars s) name id), []).

Definition when (b : bool) (m : M unit) : M unit := if b then m else ret tt.

(** [for x in l: body] *)
Fixpoint for_each {A} (l : list A) (body : A -> M unit) : M unit :=
  match l with
  | [] => ret tt
  | x :: r => body x ;; for_each r body
  end.

(** [d[k]] on a dict of cells. *)
Definition dict := list (string * value).

Definition getitem (d : dict) (k : string) : M value :=
  match find (fun kv => String.eqb (fst kv) k) d with
  | Some kv => ret (snd kv)
  | None => raise (KeyError k)
  end.

(** [l[i]] *)
Definition index {A} (l : list A) (i : nat) : M A :=
  match nth_error l i with
  | Some x => ret x
  | None => raise IndexError
  end.

(** [v.date()], [len(v)], [v.upper()], [v.strip()] on a cell. *)
Definition date_of (v : value) : M string :=
  match v with VDate d => ret (isoformat_date d) | _ => raise AttributeError end.

Definition len (v : value) : M nat :=
  match v with VStr s => ret (String.length s) | _ => raise TypeError end.

Definition as_str (v : value) : M string :=
  match v with VStr s => ret s | _ => raise AttributeError end.

(** {i[0]: i[1] for i in pairs} *)
Definition dict_of (pairs : list (string * value)) : dict :=
  fold_left (fun d kv => dict_set d (fst kv) (snd kv)) pairs [].

(** [[str(i) for i in range(a, b)]] *)
Definition str_range (a b : nat) : list value :=
  map (fun i => VStr (z2s (Z.of_nat i))) (seq a (b - a)).

(** [df.Id.isin(ids)] on one cell. *)
Definition isin (v : value) (ids : list value) : bool := existsb (Py.eq v) ids.

(** [type(v) != int or v < 0]; the comparison is only reached for an int. *)
Definition lt0 (v : value) : bool :=
  match v with VInt n => (n <? 0)%Z | _ => false end.
Definition not_unsigned (v : value) : bool := type_is_not_int v || lt0 v.

Definition nl : string := String (ascii_of_nat 10) EmptyString.

(** [os.path.splitext(p)[0]] for a POSIX path. *)
Module Path.

Fixpoint rfind_from (c : ascii) (s : string) (i : nat) : option nat :=
  match s with
  | EmptyString => None
  | String d r =>
      match rfind_from c r (S i) with
      | Some j => Some j
      | None => if Ascii.eqb c d then Some i else None
      end
  end.

Definition rfind (c : ascii) (s : string) : option nat := rfind_from c s 0.

(** Is there a character other than "." in [s[a:b]]? *)
Fixpoint has_non_dot (s : string) (a b : nat) : bool :=
  match s with
  | EmptyString => false
  | String d r =>
      match b with
      | O => false
      | S b' =>
          match a with
          | O => negb (Ascii.eqb d ".") || has_non_dot r 0 b'
          | S a' => has_non_dot r a' b'
          end
      end
  end.

Definition splitext (p : string) : string :=
  match rfind "." p with
  | None => p
  | Some dotIndex =>
      let filenameIndex :=
        match rfind "/" p with Some sepIndex => S sepIndex | None => 0 end in
      if (filenameIndex <=? dotIndex)%nat && has_non_dot p filenameIndex dotIndex
      then substring 0 dotIndex p else p
  end.

End Path.

(** What a run of a script leaves behind. *)
Inductive event :=
| Debug (msg : string)              (* logger.debug(msg) *)
| LogError (e : exn)                (* logger.error(e) *)
| LogErrorMsg (msg : string)        (* logger.error(msg) *)
| Printed (s : string)              (* print(s) *)
| PrintedExn (e : exn)              (* print(e) *)
| Written (path : string) (doc : xml).  (* tree.write(path, ...) *)

Definition is_written (e : event) : bool :=
  match e with Written _ _ => true | _ => false end.

Definition written (evs : list event) : list event := filter is_written evs.

Fixpoint prints_of (ops : list op) : list event :=
  match ops with
  | [] => []
  | PrintOut s :: r => Printed s :: prints_of r
  | _ :: r => prints_of r
  end.

(** [datetime.today()] at the i-th file of the batch. *)
Definition clock := nat -> datetime.

Definition init_locals : locals := mkLocals 0 [].

(* ================================================================= *)
(** ** AIFM.py *)

Module AIFM.

(** One row of the sheet, columns
    ['xmlTags', 'Id', 'XMLDescription', 'Input_1', 'Input_2']. *)
Record Row := mkRow {
  xmlTags : string;
  Id : value;
  XMLDescription : value;
  Input_1 : value;
  Input_2 : value }.

Definition table := list Row.

Record File := mkFile { path : string; df : table }.

(** [df[df.Id.isin(ids)]] *)
Definition rows_with_id (ids : list value) (t : table) : table :=
  filter (fun r => isin (Id r) ids) t.

(** [[['xmlTags', 'Input_1']].values.tolist()] *)
Definition tag_input (t : table) : list (string * value) :=
  map (fun r => (xmlTags r, Input_1 r)) t.

(** ['%Y-%m-%dT%H:%M:%S'] *)
Definition strftime (d : datetime) : string :=
  isoformat_date d ++ "T" ++ isoformat_time d.

(** Lines 134-148: the header check and the root element. *)
Definition header (t : table) (now : datetime) : M nat :=
  let headerFileKeys := tag_input (rows_with_id (str_range 1 4) t) in
  h0 <- index headerFileKeys 0 ;;
  (if truthy (snd h0) then
     h1 <- index headerFileKeys 1 ;;
     when (eqs (snd h1) "")
       (raise (EmptyValueError
          (" " ++ fst h0 ++ " and " ++ fst h1 ++ " fields cannot be empty! ")))
   else ret tt) ;;
  let generated_on := strftime now in
  root <- Element "AIFMReportingInfo" ;;
  set_attr root "xsi:noNamespaceSchemaLocation" "AIFMD_DATMAN_V1.2.xsd" ;;
  set_attr root "CreationDateAndTime" generated_on ;;
  set_attr root (fst h0) (strip (str (snd h0))) ;;
  h1 <- index headerFileKeys 1 ;;
  set_attr root (fst h1) (strip (str (snd h1))) ;;
  set_attr root "xmlns:xsi" "http://www.w3.org/2001/XMLSchema-instance" ;;
  ret root.

Definition date_tags : list string :=
  ["ReportingPeriodStartDate"; "ReportingPeriodEndDate"].

(** Lines 156-165: rows 4-9, every one required. *)
Definition record_info_fields (AIFMRecordInfo : nat) (headerSectionKeys : dict)
  : M unit :=
  for_each headerSectionKeys (fun kv =>
    let k := fst kv in
    let v := snd kv in
    if nes v "" then
      if negb (existsb (String.eqb k) date_tags) then
        leaf AIFMRecordInfo k (strip (str v))
      else
        e <- SubElement AIFMRecordInfo k ;;
        d <- date_of v ;;
        set_text e (strip d)
    else raise (EmptyValueError (k ++ " field cannot be empty!"))).

(** Lines 167-215: rows 10-15. *)
Definition obligation_change (AIFMRecordInfo : nat) (headerSectionKeys : dict)
  : M unit :=
  freq <- getitem headerSectionKeys "AIFMReportingObligationChangeFrequencyCode" ;;
  when (nes freq "")
    (leaf AIFMRecordInfo "AIFMReportingObligationChangeFrequencyCode"
       (strip (str freq))) ;;
  cont <- getitem headerSectionKeys "AIFMReportingObligationChangeContentsCode" ;;
  when (nes cont "")
    (leaf AIFMRecordInfo "AIFMReportingObligationChangeContentsCode"
       (strip (str cont))) ;;
  when (truthy freq || nes cont "")
    (q <- getitem headerSectionKeys "AIFMReportingObligationChangeQuarter" ;;
     if nes q "" then
       leaf AIFMRecordInfo "AIFMReportingObligationChangeQuarter" (strip (str q))
     else
       raise (EmptyValueError
                "AIFMReportingObligationChangeQuarter field cannot be empty!")) ;;
  flag <- getitem headerSectionKeys "LastReportingFlag" ;;
  (if nes flag "" then
     leaf AIFMRecordInfo "LastReportingFlag" (strip (lower (str flag)))
   else raise (EmptyValueError "LastReportingFlag field cannot be empty!")).

(** Lines 203-215: the assumption block. *)
Definition assumption (AIFMRecordInfo : nat) (headerSectionKeys : dict)
  : M unit :=
  qn <- getitem headerSectionKeys "QuestionNumber" ;;
  if truthy qn then
    ad <- getitem headerSectionKeys "AssumptionDescription" ;;
    if eqs ad "" then
      n <- len ad ;;
      when (300 <? n)%nat
        (raise (LengthValueRequiredError
           "AssumptionDescription string required in this field should not be greater 300!")) ;;
      leaf AIFMRecordInfo "QuestionNumber" (strip (str qn)) ;;
      leaf AIFMRecordInfo "AssumptionDescription" (strip (str ad))
    else ret tt
  else ret tt.

(** Lines 217-226: rows 16-21, every one required. *)
Definition required_fields (parent : nat) (headerSectionKeys : dict) : M unit :=
  for_each headerSectionKeys (fun kv =>
    let k := fst kv in
    let v := snd kv in
    if nes v "" then leaf parent k (strip (str v))
    else raise (EmptyValueError (k ++ " field cannot be empty!"))).

(** Lines 228-260: rows 22-25. *)
Definition identifiers (AIFMCompleteDescription : nat) (AIMFIdentifiers : dict)
  : M unit :=
  match AIMFIdentifiers with
  | [] => ret tt
  | _ =>
      AIFMIdentifier <- SubElement AIFMCompleteDescription "AIFMIdentifier" ;;
      lei <- getitem AIMFIdentifiers "AIFMIdentifierLEI" ;;
      when (nes lei "")
        (leaf AIFMIdentifier "AIFMIdentifierLEI" (strip (str lei))) ;;
      bic <- getitem AIMFIdentifiers "AIFMIdentifierBIC" ;;
      when (nes bic "")
        (leaf AIFMIdentifier "AIFMIdentifierBIC" (strip (str bic))) ;;
      rms <- getitem AIMFIdentifiers "ReportingMemberState" ;;
      when (truthy rms && nes rms "")
        (leaf AIFMIdentifier "ReportingMemberState" (strip (str rms)) ;;
         AIFMNationalCode <- SubElement AIFMIdentifier "AIFMNationalCode" ;;
         nc <- getitem AIMFIdentifiers "AIFMNationalCode" ;;
         set_text AIFMNationalCode (strip (str nc)))
  end.

Definition ranks : list Z := [1; 2; 3; 4; 5]%Z.
Definition principalMRows : list value :=
  [VStr "1st"; VStr "2nd"; VStr "3rd"; VStr "4th"; VStr "5th"].
Definition market_codes : list string := ["MIC"; "XXX"; "OTC"; "NOT"].

(** [[['XMLDescription', 'Input_1', 'Input_2']].values.tolist()] *)
Definition market_cells (t : table) : list (value * value * value) :=
  map (fun r => (XMLDescription r, Input_1 r, Input_2 r)) t.

(** Lines 272-311: the body of the loop over the principal markets. *)
Definition market_row (AIFMPrincipalMarkets : nat)
  (principalMarket : value * value * value) (counter : nat) : M unit :=
  let '(pm0, pm1, pm2) := principalMarket in
  if in_strs pm0 market_codes then
    AIFMFivePrincipalMarket <-
      SubElement AIFMPrincipalMarkets "AIFMFivePrincipalMarket" ;;
    Ranking <- SubElement AIFMFivePrincipalMarket "Ranking" ;;
    rank <- index ranks counter ;;
    set_text Ranking (strip (z2s rank)) ;;
    MarketIdentification <-
      SubElement AIFMFivePrincipalMarket "MarketIdentification" ;;
    leaf MarketIdentification "MarketCodeType" (strip (str pm0)) ;;
    when (eqs pm0 "MIC" && eqs pm1 "")
      (raise (EmptyValueError "MarketCode is required for MIC market codes!")) ;;
    (if eqs pm0 "MIC" then
       n <- len pm1 ;;
       when (4 <? n)%nat
         (raise (LengthValueRequiredError
                   "Maximum length of 4 is required for MarketCode!"))
     else ret tt) ;;
    when (eqs pm0 "MIC")
      (leaf MarketIdentification "MarketCode" (strip (str pm1))) ;;
    when (nes pm0 "NOT")
      (if not_unsigned pm2 then
         raise (UnassinedIntegerError
           "AggregatedValueAmount must be not contain decimals & should not be a negative number. Check value in row 32-36 column D")
       else
         leaf AIFMFivePrincipalMarket "AggregatedValueAmount" (strip (str pm2)))
  else
    raise (DomainValueError
      "Required principal market values in for AIFM trades are 'MIC', 'XXX', 'OTC' & 'NOT'. Check values in rows 32-36, column C of template").

(** Lines 267-311: [counter = 0; for principalMarket in principalMarkets:
    ...; counter += 1]. *)
Fixpoint markets_loop (AIFMPrincipalMarkets : nat)
  (principalMarkets : list (value * value * value)) (counter : nat) : M unit :=
  match principalMarkets with
  | [] => ret tt
  | pm :: rest =>
      market_row AIFMPrincipalMarkets pm counter ;;
      markets_loop AIFMPrincipalMarkets rest (S counter)
  end.

Definition principalIRow : list value :=
  [VInt 1; VInt 2; VInt 3; VInt 4; VInt 5].

(** [[['Id', 'XMLDescription', 'Input_1']].values.tolist()] *)
Definition instrument_cells (t : table) : list (value * value * value) :=
  map (fun r => (Id r, XMLDescription r, Input_1 r)) t.

(** Lines 321-346: the body of the loop over the principal instruments. *)
Definition instrument_row (AIFMPrincipalInstruments : nat)
  (principalInstrument : value * value * value) : M unit :=
  let '(pi0, pi1, pi2) := principalInstrument in
  when (eqs pi1 "")
    (raise (EmptyValueError
       "SubAssetType field cannot be empty! Check values in rows 40-44, column C of template")) ;;
  when (eqs pi2 "")
    (raise (EmptyValueError
       "AggregatedValueAmount field cannot be empty! Check values in rows 40-44, column C of template")) ;;
  AIFMPrincipalInstrument <-
    SubElement AIFMPrincipalInstruments "AIFMPrincipalInstrument" ;;
  leaf AIFMPrincipalInstrument "Ranking" (strip (str pi0)) ;;
  leaf AIFMPrincipalInstrument "SubAssetType" (strip (str pi1)) ;;
  when (nes pi1 "NTA_NTA_NOTA")
    (if not_unsigned pi2 then
       raise (UnassinedIntegerError
         "AggregatedValueAmount must be UnassigneIinteger (not contain decimals & not negative). Check value in row 40-44 column D")
     else
       leaf AIFMPrincipalInstrument "AggregatedValueAmount" (strip (str pi2))).

(** Lines 353-364: AUMAmountInEuro. *)
Definition aum_euro (AIFMCompleteDescription : nat) (principalValues : dict)
  : M unit :=
  aum <- getitem principalValues "AUMAmountInEuro" ;;
  if nes aum "" then
    when (not_unsigned aum)
      (raise (UnassinedIntegerError
         "AUMAmountInEuro must be UnassigneIinteger (not contain decimals and not negative). Check value in row 46 column D")) ;;
    leaf AIFMCompleteDescription "AUMAmountInEuro" (strip (str aum))
  else
    raise (EmptyValueError
      "AUMAmountInEuro field cannot be empty! Check value in row 46 column D").

(** Lines 366-402: the base-currency block. *)
Definition base_currency (AIFMCompleteDescription : nat) (principalValues : dict)
  : M unit :=
  AIFMBaseCurrencyDescription <-
    SubElement AIFMCompleteDescription "AIFMBaseCurrencyDescription" ;;
  aum <- getitem principalValues "AUMAmountInBaseCurrency" ;;
  if truthy aum then
    bc <- getitem principalValues "BaseCurrency" ;;
    if nes bc "" then
      when (not_unsigned aum)
        (raise (UnassinedIntegerError
           "AUMAmountInBaseCurrency must be UnassigneIinteger (not contain decimals & not negative). Check value in row 47 column D")) ;;
      leaf AIFMBaseCurrencyDescription "BaseCurrency" (strip (upper (str bc))) ;;
      leaf AIFMBaseCurrencyDescription "AUMAmountInBaseCurrency"
        (strip (str aum)) ;;
      when (negb (String.eqb (strip (upper (str bc))) "EUR"))
        (rrt <- getitem principalValues "FXEURReferenceRateType" ;;
         ok <- (if truthy rrt then
                  rate <- getitem principalValues "FXEURRate" ;;
                  ret (nes rate "")
                else ret false) ;;
         if ok : bool then
           leaf AIFMBaseCurrencyDescription "FXEURReferenceRateType"
             (strip (str rrt)) ;;
           FXEURRate <- SubElement AIFMBaseCurrencyDescription "FXEURRate" ;;
           rate <- getitem principalValues "FXEURRate" ;;
           set_text FXEURRate (strip (str rate))
         else
           raise (EmptyValueError
             "FXEURReferenceRateType or FXEURRate fields cannot be empty! Check value in rows 49-50 column D")) ;;
      cond <- (if negb (String.eqb (strip (upper (str bc))) "") then ret true
               else
                 d <- getitem principalValues "FXEUROtherReferenceRateDescription" ;;
                 ret (eqs d "OTH")) ;;
      when cond
        (FXEUROtherReferenceRateDescription <-
           SubElement AIFMBaseCurrencyDescription
             "FXEUROtherReferenceRateDescription" ;;
         d <- getitem principalValues "FXEUROtherReferenceRateDescription" ;;
         set_text FXEUROtherReferenceRateDescription (strip (str d)))
    else ret tt
  else ret tt.

(** Lines 150-402: everything below the root element. *)
Definition body (t : table) (root : nat) : M unit :=
  let headerSectionKeys := dict_of (tag_input (rows_with_id (str_range 4 10) t)) in
  AIFMRecordInfo <- SubElement root "AIFMRecordInfo" ;;
  record_info_fields AIFMRecordInfo headerSectionKeys ;;
  let headerSectionKeys := dict_of (tag_input (rows_with_id (str_range 10 16) t)) in
  obligation_change AIFMRecordInfo headerSectionKeys ;;
  assumption AIFMRecordInfo headerSectionKeys ;;
  let headerSectionKeys := dict_of (tag_input (rows_with_id (str_range 16 22) t)) in
  required_fields AIFMRecordInfo headerSectionKeys ;;
  let AIMFIdentifiers := dict_of (tag_input (rows_with_id (str_range 22 26) t)) in
  AIFMCompleteDescription <- SubElement AIFMRecordInfo "AIFMCompleteDescription" ;;
  identifiers AIFMCompleteDescription AIMFIdentifiers ;;
  let principalMarkets := market_cells (rows_with_id principalMRows t) in
  AIFMPrincipalMarkets <-
    SubElement AIFMCompleteDescription "AIFMPrincipalMarkets" ;;
  markets_loop AIFMPrincipalMarkets principalMarkets 0 ;;
  let principalInstruments := instrument_cells (rows_with_id principalIRow t) in
  AIFMPrincipalInstruments <-
    SubElement AIFMCompleteDescription "AIFMPrincipalInstruments" ;;
  for_each principalInstruments (instrument_row AIFMPrincipalInstruments) ;;
  let principalValues := dict_of (tag_input (rows_with_id (str_range 33 39) t)) in
  aum_euro AIFMCompleteDescription principalValues ;;
  base_currency AIFMCompleteDescription principalValues.

(** Lines 127-403: one iteration of [for file in files], up to the tree. *)
Definition build (t : table) (now : datetime) : M nat :=
  root <- header t now ;;
  body t root ;;
  ret root.

(** Lines 125-407: the loop over the batch.  The result is the events of the
    files processed and the exception that ended the loop, if any. *)
Fixpoint convert_loop (files : list File) (today : clock) (i : nat)
  (st : locals) (h : heap) : list event * option exn :=
  match files with
  | [] => ([], None)
  | file :: rest =>
      let output_file := Path.splitext (path file) in
      let start := Debug ("Generating xml for --> " ++ path file ++ nl) in
      match build (df file) (today i) st with
      | (inl e, _, ops) => (start :: prints_of ops, Some e)
      | (inr root, st', ops) =>
          let h' := replay h ops in
          let (evs, e) := convert_loop rest today (S i) st' h' in
          (start :: prints_of ops
             ++ Written (output_file ++ ".xml") (document h' root)
             :: Debug ("Done generating xml for " ++ path file ++ nl)
             :: evs, e)
      end
  end.

(** Lines 120-410: [convert_to_xml(files)]. *)
Definition convert_to_xml (files : list File) (today : clock) : list event :=
  match files with
  | [] =>
      [LogError (NoFilesFoundError
         "No excel files selected. Specify path to excel document and try again!")]
  | _ =>
      let (evs, e) := convert_loop files today 0 init_locals [] in
      evs ++ match e with Some e => [LogError e] | None => [] end
  end.

End AIFM.

(* ================================================================= *)
(** ** AIF.py *)

Module AIF.

(** One row of the sheet, columns ['xmlTags', 'Id', 'XMLDescription',
    'Input_1', ..., 'Input_12']. *)
Record Row := mkRow {
  xmlTags : string;
  Id : value;
  XMLDescription : value;
  Input_1 : value; Input_2 : value; Input_3 : value; Input_4 : value;
  Input_5 : value; Input_6 : value; Input_7 : value; Input_8 : value;
  Input_9 : value; Input_10 : value; Input_11 : value; Input_12 : value }.

Definition table := list Row.

Record File := mkFile { path : string; df : table }.

(** [df[df.Id.isin(ids)]] and [df[df.xmlTags.isin(tags)]] *)
Definition rows_with_id (ids : list value) (t : table) : table :=
  filter (fun r => isin (Id r) ids) t.
Definition rows_with_tag (tags : list string) (t : table) : table :=
  filter (fun r => existsb (String.eqb (xmlTags r)) tags) t.

(** [[['xmlTags', 'Input_1']].values.tolist()] *)
Definition tag_input (t : table) : list (string * value) :=
  map (fun r => (xmlTags r, Input_1 r)) t.

Definition section (a b : nat) (t : table) : dict :=
  dict_of (tag_input (rows_with_id (str_range a b) t)).

(** ['%Y-%m-%dT%H:%M:%S.0Z'] *)
Definition strftime (d : datetime) : string :=
  isoformat_date d ++ "T" ++ isoformat_time d ++ ".0Z".

(** Lines 124-138: the header check and the root element. *)
Definition header (t : table) (now : datetime) : M nat :=
  let headerFileKeys := tag_input (rows_with_id (str_range 1 4) t) in
  h0 <- index headerFileKeys 0 ;;
  (if truthy (snd h0) then
     h1 <- index headerFileKeys 1 ;;
     when (eqs (snd h1) "")
       (raise (EmptyValueError
          (fst h0 ++ " and " ++ fst h1 ++ " fields cannot be empty!")))
   else ret tt) ;;
  let generated_on := strftime now in
  root <- Element "AIFReportingInfo" ;;
  set_attr root "xsi:noNamespaceSchemaLocation" "AIFMD_DATAIF_V1.2.xsd" ;;
  set_attr root "CreationDateAndTime" generated_on ;;
  set_attr root (fst h0) (strip (str (snd h0))) ;;
  h1 <- index headerFileKeys 1 ;;
  set_attr root (fst h1) (strip (str (snd h1))) ;;
  set_attr root "xmlns:xsi" "http://www.w3.org/2001/XMLSchema-instance" ;;
  ret root.

Definition date_tags : list string :=
  ["ReportingPeriodStartDate"; "ReportingPeriodEndDate"].

(** Lines 146-155: rows 4-9, every one required. *)
Definition record_info_fields (AIFRecordInfo : nat) (headerSectionKeys : dict)
  : M unit :=
  for_each headerSectionKeys (fun kv =>
    let k := fst kv in
    let v := snd kv in
    if nes v "" then
      if negb (existsb (String.eqb k) date_tags) then
        leaf AIFRecordInfo k (strip (str v))
      else
        e <- SubElement AIFRecordInfo k ;;
        d <- date_of v ;;
        set_text e (strip d)
    else raise (EmptyValueError (k ++ " field cannot be empty!"))).

(** Lines 163-192: rows 10-15. *)
Definition obligation_change (AIFRecordInfo : nat) (headerSectionKeys : dict)
  : M unit :=
  freq <- getitem headerSectionKeys "AIFReportingObligationChangeFrequencyCode" ;;
  when (nes freq "")
    (leaf AIFRecordInfo "AIFReportingObligationChangeFrequencyCode"
       (strip (str freq))) ;;
  cont <- getitem headerSectionKeys "AIFReportingObligationChangeContentsCode" ;;
  when (nes cont "")
    (leaf AIFRecordInfo "AIFReportingObligationChangeContentsCode"
       (strip (str cont))) ;;
  when (truthy freq || nes cont "")
    (q <- getitem headerSectionKeys "AIFReportingObligationChangeQuarter" ;;
     if nes q "" then
       leaf AIFRecordInfo "AIFReportingObligationChangeQuarter" (strip (str q))
     else
       raise (EmptyValueError
                "AIFReportingObligationChangeQuarter field cannot be empty!")) ;;
  flag <- getitem headerSectionKeys "LastReportingFlag" ;;
  (if nes flag "" then
     leaf AIFRecordInfo "LastReportingFlag" (strip (lower (str flag)))
   else raise (EmptyValueError "LastReportingFlag field cannot be empty!")).

(** Lines 194-205: the assumption block. *)
Definition assumption (AIFRecordInfo : nat) (headerSectionKeys : dict)
  : M unit :=
  qn <- getitem headerSectionKeys "QuestionNumber" ;;
  if truthy qn then
    ad <- getitem headerSectionKeys "AssumptionDescription" ;;
    if eqs ad "" then
      n <- len ad ;;
      when (300 <? n)%nat
        (raise (LengthValueRequiredError
           "AssumptionDescription string required in this field should not be greater 300!")) ;;
      leaf AIFRecordInfo "QuestionNumber" (strip (str qn)) ;;
      leaf AIFRecordInfo "AssumptionDescription" (strip (str ad))
    else ret tt
  else ret tt.

(** [for k, v in d.items(): if v != "": emit else: raise
    EmptyValueError(k + suffix)] (lines 212-217, 543-548, 720-725). *)
Definition required_fields (parent : nat) (d : dict) (suffix : string)
  : M unit :=
  for_each d (fun kv =>
    let k := fst kv in
    let v := snd kv in
    if nes v "" then leaf parent k (strip (str v))
    else raise (EmptyValueError (k ++ suffix))).

(** [{i[0]: i[1].strip() for i in pairs}] (line 222) *)
Fixpoint stripped (pairs : list (string * value)) : M (list (string * value)) :=
  match pairs with
  | [] => ret []
  | (k, v) :: r =>
      s <- as_str v ;;
      r' <- stripped r ;;
      ret ((k, VStr (strip s)) :: r')
  end.

(** Lines 235-244 and 317-329: the first non-empty value creates the
    container(s), later ones reuse whatever the variable [var] holds. *)
Fixpoint first_creates (create : M nat) (var : string) (items : dict)
  (counter : nat) : M unit :=
  match items with
  | [] => ret tt
  | (k, v) :: r =>
      (if nes v "" then
         match counter with
         | O =>
             c <- create ;;
             set_var var c ;;
             leaf c k (strip (str v))
         | S _ =>
             c <- get_var var ;;
             leaf c k (strip (str v))
         end
       else ret tt) ;;
      first_creates create var r (S counter)
  end.

(** Lines 229-244: rows 24-32. *)
Definition identification (AIFPrincipalInfo : nat) (AIFIdentifiers : dict)
  : M unit :=
  match AIFIdentifiers with
  | [] => ret tt
  | _ =>
      rms <- getitem AIFIdentifiers "ReportingMemberState" ;;
      anc <- getitem AIFIdentifiers "AIFNationalCode" ;;
      when ((nes rms "" && eqs anc "") || (nes anc "" && eqs rms ""))
        (raise (ConditionalError
           " Value required for ReportingMemberState if AIFNationalCode is filled and vice versa")) ;;
      first_creates (SubElement AIFPrincipalInfo "AIFIdentification")
        "AIFIdentification" AIFIdentifiers 0
  end.

(** Lines 251-266: rows 33-40. *)
Definition share_class (AIFPrincipalInfo : nat) (shareClass : dict) : M unit :=
  ShareClassFlag <- SubElement AIFPrincipalInfo "ShareClassFlag" ;;
  flag <- getitem shareClass "ShareClassFlag" ;;
  if String.eqb (strip (lower (str flag))) "false" then
    set_text ShareClassFlag (strip (str flag))
  else
    name <- getitem shareClass "ShareClassName" ;;
    when (eqs name "" && String.eqb (strip (lower (str flag))) "true")
      (raise (EmptyValueError "Share class name field is required")) ;;
    ShareClassIdentification <-
      SubElement AIFPrincipalInfo "ShareClassIdentification" ;;
    for_each shareClass (fun kv =>
      ShareClassIdentifier <-
        SubElement ShareClassIdentification "ShareClassIdentifier" ;;
      when (nes (snd kv) "")
        (leaf ShareClassIdentifier (fst kv) (strip (str (snd kv))))).

(** Lines 273-307: rows 41-44. *)
Definition master_feeder (AIFDescription : nat) (masterFeeder : dict) : M unit :=
  AIFMasterFeederStatus <- SubElement AIFDescription "AIFMasterFeederStatus" ;;
  status <- getitem masterFeeder "AIFMasterFeederStatus" ;;
  set_text AIFMasterFeederStatus (strip (upper (str status))) ;;
  s <- as_str status ;;
  when (String.eqb (strip (upper s)) "FEEDER")
    (name <- getitem masterFeeder "AIFName" ;;
     when (eqs name "") (raise (EmptyValueError "Value required for AIFName field")) ;;
     MasterAIFsIdentification <-
       SubElement AIFDescription "MasterAIFsIdentification" ;;
     MasterAIFIdentification <-
       SubElement MasterAIFsIdentification "MasterAIFIdentification" ;;
     leaf MasterAIFIdentification "AIFName" (strip (str name)) ;;
     rms <- getitem masterFeeder "ReportingMemberState" ;;
     (if nes rms "" then
        anc <- getitem masterFeeder "AIFNationalCode" ;;
        when (eqs anc "")
          (raise (EmptyValueError "Value is required for AIFNationalCode field"))
      else ret tt) ;;
     AIFIdentifierNCA <- SubElement MasterAIFIdentification "AIFIdentifierNCA" ;;
     when (nes rms "")
       (leaf AIFIdentifierNCA "ReportingMemberState" (strip (str rms))) ;;
     anc <- getitem masterFeeder "AIFNationalCode" ;;
     when (nes anc "")
       (leaf AIFIdentifierNCA "AIFNationalCode" (strip (str anc)))).

(** Lines 314-329: rows 45-47; the loop runs over [AIFIdentifiers]. *)
Definition prime_brokers (AIFDescription : nat) (primeBrokers AIFIdentifiers : dict)
  : M unit :=
  match primeBrokers with
  | [] => ret tt
  | _ =>
      first_creates
        (PrimeBrokers <- SubElement AIFDescription "PrimeBrokers" ;;
         SubElement PrimeBrokers "PrimeBrokerIdentification")
        "PrimeBrokerIdentification" AIFIdentifiers 0
  end.

(** Lines 336-379: rows 48-53. *)
Definition base_currency (AIFDescription : nat) (principalValues : dict)
  : M unit :=
  bc <- getitem principalValues "BaseCurrency" ;;
  (if truthy bc then
     nav <- getitem principalValues "AIFNetAssetValue" ;;
     if truthy nav then
       aum <- getitem principalValues "AUMAmountInBaseCurrency" ;;
       when (eqs aum "")
         (raise (EmptyValueError
            " AUMAmountInBaseCurrency, BaseCurrency & AIFNetAssetValue cannot be empty"))
     else ret tt
   else ret tt) ;;
  AIFBaseCurrencyDescription <-
    SubElement AIFDescription "AIFBaseCurrencyDescription" ;;
  leaf AIFBaseCurrencyDescription "BaseCurrency" (strip (upper (str bc))) ;;
  AUMAmountInBaseCurrency <-
    SubElement AIFBaseCurrencyDescription "AUMAmountInBaseCurrency" ;;
  aum <- getitem principalValues "AUMAmountInBaseCurrency" ;;
  set_text AUMAmountInBaseCurrency (strip (str aum)) ;;
  bcs <- as_str bc ;;
  when (negb (String.eqb (strip (upper bcs)) "EUR"))
    (rate <- getitem principalValues "FXEURRate" ;;
     ok <- (if truthy rate then
              rrt <- getitem principalValues "FXEURReferenceRateType" ;;
              ret (nes rrt "")
            else ret false) ;;
     if ok : bool then
       FXEURReferenceRateType <-
         SubElement AIFBaseCurrencyDescription "FXEURReferenceRateType" ;;
       rrt <- getitem principalValues "FXEURReferenceRateType" ;;
       set_text FXEURReferenceRateType (strip (upper (str rrt))) ;;
       leaf AIFBaseCurrencyDescription "FXEURRate" (strip (str rate))
     else
       raise (EmptyValueError
                " FXEURRate & FXEURReferenceRateType cannot be empty")) ;;
  rrt <- getitem principalValues "FXEURReferenceRateType" ;;
  rrts <- as_str rrt ;;
  when (String.eqb (strip (upper rrts)) "OTH")
    (d <- getitem principalValues "FXEUROtherReferenceRateDescription" ;;
     if nes d "" then
       leaf AIFBaseCurrencyDescription "FXEUROtherReferenceRateDescription"
         (strip (str d))
     else
       raise (EmptyValueError
                "FXEUROthReferenceRateDescription cannot be empty")) ;;
  AIFNetAssetValue <- SubElement AIFDescription "AIFNetAssetValue" ;;
  nav <- getitem principalValues "AIFNetAssetValue" ;;
  set_text AIFNetAssetValue (strip (str nav)).

(** Lines 386-394: rows 54-57. *)
Definition jurisdiction (AIFDescription : nat) (jurisdictionValues : dict)
  : M value :=
  pat <- getitem jurisdictionValues "PredominantAIFType" ;;
  when (eqs pat "")
    (raise (EmptyValueError "PredominantAIFType field cannot be empty")) ;;
  for_each jurisdictionValues (fun kv =>
    when (nes (snd kv) "")
      (leaf AIFDescription (fst kv) (strip (str (snd kv))))) ;;
  ret pat.

(** Lines 401-425: rows 58-60. *)
Definition strategies (AIFDescription : nat) (pat : value)
  (investmentValues : dict) : M unit :=
  if eqs pat "HFND" then
    HedgeFundInvestmentStrategies <-
      SubElement AIFDescription "HedgeFundInvestmentStrategies" ;;
    HedgeFundInvestmentStrategy <-
      SubElement HedgeFundInvestmentStrategies "HedgeFundInvestmentStrategy" ;;
    for_each investmentValues (fun kv =>
      leaf HedgeFundInvestmentStrategy (fst kv) (strip (str (snd kv))))
  else if eqs pat "PEQF" then
    PrivateEquityFundInvestmentStrategies <-
      SubElement AIFDescription "PrivateEquityFundInvestmentStrategies" ;;
    PrivateEquityFundInvestmentStrategy <-
      SubElement PrivateEquityFundInvestmentStrategies
        "PrivateEquityFundInvestmentStrategy" ;;
    required_fields PrivateEquityFundInvestmentStrategy investmentValues
      " field cannot be empty"
  else
    v <- getitem investmentValues "PrivateEquityFundStrategyType" ;;
    raise (NotImplementedError
             ("Script has not been implemented for this " ++ str v ++ " yet")).

(** Lines 431-436: rows 62-63. *)
Definition hft (AIFDescription : nat) (hFTTransactionNumber : list (string * value))
  : M unit :=
  for_each hFTTransactionNumber (fun FTTransactionNumber =>
    when (nes (snd FTTransactionNumber) "")
      (leaf AIFDescription (fst FTTransactionNumber)
         (strip (str (snd FTTransactionNumber))))).

Definition tags (prefix : string) (a b : nat) : list string :=
  map (fun i => (prefix ++ z2s (Z.of_nat i))%string) (seq a (b - a)).

(** [if cell == "": raise EmptyValueError(msg)], then the leaf. *)
Definition required_leaf (parent : nat) (tg : string) (cell : value)
  (msg : string) : M unit :=
  when (eqs cell "") (raise (EmptyValueError msg)) ;;
  leaf parent tg (strip (str cell)).

(** Lines 444-534: the body of the loop over rows m1..m5.  Cell [i] of
    [principalExValue] is [Id], [XMLDescription], [Input_1], ...;
    [principalExValues] is the whole list, which line 449 indexes. *)
Definition main_instrument (MainInstrumentsTraded : nat)
  (principalExValues : table) (principalExValue : Row) : M unit :=
  let pev := principalExValue in
  MainInstrumentTraded <- SubElement MainInstrumentsTraded "MainInstrumentTraded" ;;
  leaf MainInstrumentTraded "Ranking" (strip (str (Id pev))) ;;
  _ <- index principalExValues 1 ;;   (* a row never equals "" *)
  leaf MainInstrumentTraded "SubAssetType" (strip (str (XMLDescription pev))) ;;
  when (nes (XMLDescription pev) "NTA_NTA_NOTA")
    (required_leaf MainInstrumentTraded "InstrumentCodeType" (Input_1 pev)
       "InstrumentCodeType field cannot empty" ;;
     required_leaf MainInstrumentTraded "InstrumentName" (Input_2 pev)
       "InstrumentName field cannot empty") ;;
  when (eqs (Input_1 pev) "ISIN")
    (required_leaf MainInstrumentTraded "ISINInstrumentIdentification"
       (Input_3 pev) "ISINInstrumentIdentification field cannot empty") ;;
  when (eqs (Input_1 pev) "AII")
    (AIIInstrumentIdentification <-
       SubElement MainInstrumentTraded "AIIInstrumentIdentification" ;;
     print (str (Input_8 pev)) ;;
     required_leaf AIIInstrumentIdentification "AIIExchangeCode" (Input_4 pev)
       "AIIExchangeCode field cannot empty" ;;
     required_leaf AIIInstrumentIdentification "AIIDerivativeType" (Input_5 pev)
       "AIIDerivativeType field cannot empty" ;;
     required_leaf AIIInstrumentIdentification "AIIPutCallIdentifier"
       (Input_6 pev) "AIIPutCallIdentifier field cannot empty" ;;
     required_leaf AIIInstrumentIdentification "AIIExpiryDate" (Input_7 pev)
       "AIIExpiryDate field cannot empty" ;;
     required_leaf AIIInstrumentIdentification "AIIStrikePrice" (Input_8 pev)
       "AIIStrikePrice field cannot empty") ;;
  when (nes (XMLDescription pev) "NTA_NTA_NOTA")
    (leaf MainInstrumentTraded "PositionValue" (strip (str (Input_11 pev))) ;;
     leaf MainInstrumentTraded "PositionType"
       (strip (upper (str (Input_10 pev))))) ;;
  when (String.eqb (strip (upper (str (Input_10 pev)))) "S")
    (leaf MainInstrumentTraded "ShortPositionHedgingRate"
       (strip (str (Input_12 pev)))).

(** Lines 567-609: the body of the loop over rows p1..p10. *)
Definition principal_exposure (PrincipalExposures : nat)
  (principalEx2Value : Row) : M unit :=
  let pe := principalEx2Value in
  PrincipalExposure <- SubElement PrincipalExposures "PrincipalExposure" ;;
  leaf PrincipalExposure "Ranking" (strip (str (Id pe))) ;;
  leaf PrincipalExposure "AssetMacroType" (strip (str (XMLDescription pe))) ;;
  when (nes (XMLDescription pe) "NTA")
    (leaf PrincipalExposure "SubAssetType" (strip (str (Input_1 pe))) ;;
     leaf PrincipalExposure "PositionType" (strip (str (Input_2 pe))) ;;
     leaf PrincipalExposure "AggregatedValueAmount" (strip (str (Input_3 pe))) ;;
     leaf PrincipalExposure "AggregatedValueRate" (strip (str (Input_4 pe))) ;;
     when (nes (Input_5 pe) "")
       (CounterpartyIdentification <-
          SubElement PrincipalExposure "CounterpartyIdentification" ;;
        set_var "CounterpartyIdentification" CounterpartyIdentification ;;
        leaf CounterpartyIdentification "EntityName" (strip (str (Input_5 pe)))) ;;
     when (nes (Input_7 pe) "")
       (CounterpartyIdentification <- get_var "CounterpartyIdentification" ;;
        leaf CounterpartyIdentification "EntityIdentificationBIC"
          (strip (str (Input_7 pe)))) ;;
     when (nes (Input_6 pe) "")
       (CounterpartyIdentification <- get_var "CounterpartyIdentification" ;;
        leaf CounterpartyIdentification "EntityIdentificationLEI"
          (strip (str (Input_6 pe))))).

(** Lines 619-666: the body of the loop over rows q1..q5. *)
Definition portfolio_concentration (PortfolioConcentrations : nat)
  (value : Row) : M unit :=
  PortfolioConcentration <-
    SubElement PortfolioConcentrations "PortfolioConcentration" ;;
  leaf PortfolioConcentration "Ranking" (strip (str (Id value))) ;;
  leaf PortfolioConcentration "AssetType" (strip (str (XMLDescription value))) ;;
  when (nes (XMLDescription value) "NTA_NTA")
    (leaf PortfolioConcentration "PositionType" (strip (str (Input_1 value))) ;;
     MarketIdentification <-
       SubElement PortfolioConcentration "MarketIdentification" ;;
     set_var "MarketIdentification" MarketIdentification ;;
     leaf MarketIdentification "MarketCodeType" (strip (str (Input_2 value)))) ;;
  when (eqs (Input_2 value) "MIC")
    (MarketIdentification <- get_var "MarketIdentification" ;;
     leaf MarketIdentification "MarketCode" (strip (str (Input_3 value)))) ;;
  leaf PortfolioConcentration "AggregatedValueAmount"
    (strip (str (Input_4 value))) ;;
  leaf PortfolioConcentration "AggregatedValueRate"
    (strip (str (Input_5 value))) ;;
  when (eqs (Input_2 value) "OTC" && nes (Input_6 value) "")
    (CounterpartyIdentification <-
       SubElement PortfolioConcentration "CounterpartyIdentification" ;;
     set_var "CounterpartyIdentification" CounterpartyIdentification ;;
     leaf CounterpartyIdentification "EntityName" (strip (str (Input_6 value)))) ;;
  when (nes (Input_8 value) "")
    (CounterpartyIdentification <- get_var "CounterpartyIdentification" ;;
     leaf CounterpartyIdentification "EntityIdentificationBIC"
       (strip (str (Input_8 value)))) ;;
  when (nes (Input_7 value) "")
    (CounterpartyIdentification <- get_var "CounterpartyIdentification" ;;
     leaf CounterpartyIdentification "EntityIdentificationLEI"
       (strip (str (Input_7 value)))).

(** Lines 681-710: the body of the loop over rows r1..r3. *)
Definition principal_market (AIFPrincipalMarkets : nat) (market : Row)
  : M unit :=
  let code := strip (upper (str (XMLDescription market))) in
  AIFPrincipalMarket <- SubElement AIFPrincipalMarkets "AIFPrincipalMarket" ;;
  leaf AIFPrincipalMarket "Ranking" (strip (str (Id market))) ;;
  when (eqs (XMLDescription market) "")
    (raise (EmptyValueError "MarketIdentification cannot be empty")) ;;
  MarketIdentification <- SubElement AIFPrincipalMarket "MarketIdentification" ;;
  set_var "MarketIdentification" MarketIdentification ;;
  leaf MarketIdentification "MarketCodeType" code ;;
  when (String.eqb code "MIC" && eqs (Input_1 market) "")
    (raise (EmptyValueError "MarketCode cannot be empty")) ;;
  when (String.eqb code "MIC")
    (leaf MarketIdentification "MarketCode" (strip (str (Input_1 market)))) ;;
  when (negb (String.eqb code "NOT") && eqs (Input_2 market) "")
    (raise (EmptyValueError "MarketCode cannot be empty")) ;;
  when (negb (String.eqb code "NOT"))
    (leaf AIFPrincipalMarket "AggregatedValueAmount"
       (strip (str (Input_2 market)))).

(** Lines 140-725: everything below the root element. *)
Definition body (t : table) (root : nat) : M unit :=
  AIFRecordInfo <- SubElement root "AIFRecordInfo" ;;
  record_info_fields AIFRecordInfo (section 4 10 t) ;;
  obligation_change AIFRecordInfo (section 10 16 t) ;;
  assumption AIFRecordInfo (section 10 16 t) ;;
  required_fields AIFRecordInfo (section 16 24 t) " field cannot be empty!" ;;
  pairs <- stripped (tag_input (rows_with_id (str_range 24 33) t)) ;;
  let AIFIdentifiers := dict_of pairs in
  AIFCompleteDescription <- SubElement AIFRecordInfo "AIFCompleteDescription" ;;
  AIFPrincipalInfo <- SubElement AIFCompleteDescription "AIFPrincipalInfo" ;;
  identification AIFPrincipalInfo AIFIdentifiers ;;
  share_class AIFPrincipalInfo (section 33 41 t) ;;
  AIFDescription <- SubElement AIFPrincipalInfo "AIFDescription" ;;
  master_feeder AIFDescription (section 41 45 t) ;;
  prime_brokers AIFDescription (section 45 48 t) AIFIdentifiers ;;
  base_currency AIFDescription (section 48 54 t) ;;
  pat <- jurisdiction AIFDescription (section 54 58 t) ;;
  strategies AIFDescription pat (section 58 61 t) ;;
  hft AIFDescription (tag_input (rows_with_id (str_range 62 64) t)) ;;
  let principalExValues := rows_with_tag (tags "m" 1 6) t in
  MainInstrumentsTraded <- SubElement AIFPrincipalInfo "MainInstrumentsTraded" ;;
  for_each principalExValues
    (main_instrument MainInstrumentsTraded principalExValues) ;;
  NAVGeographicalFocus <- SubElement AIFPrincipalInfo "NAVGeographicalFocus" ;;
  required_fields NAVGeographicalFocus (section 78 86 t) " cannot be empty" ;;
  (match section 86 94 t with
   | [] => ret tt
   | aumGeographicalFocus =>
       AUMGeographicalFocus <- SubElement AIFPrincipalInfo "AUMGeographicalFocus" ;;
       for_each aumGeographicalFocus (fun kv =>
         leaf AUMGeographicalFocus (fst kv) (strip (str (snd kv))))
   end) ;;
  PrincipalExposures <- SubElement AIFPrincipalInfo "PrincipalExposures" ;;
  for_each (rows_with_tag (tags "p" 1 11) t)
    (principal_exposure PrincipalExposures) ;;
  MostImportantConcentration <-
    SubElement AIFPrincipalInfo "MostImportantConcentration" ;;
  PortfolioConcentrations <-
    SubElement MostImportantConcentration "PortfolioConcentrations" ;;
  for_each (rows_with_tag (tags "q" 1 6) t)
    (portfolio_concentration PortfolioConcentrations) ;;
  typicalPositionSize <-
    index (map Input_1 (filter (fun r => eqs (Id r) "113") t)) 0 ;;
  when (eqs pat "PEQF")
    (leaf MostImportantConcentration "TypicalPositionSize"
       (strip (str typicalPositionSize))) ;;
  AIFPrincipalMarkets <-
    SubElement MostImportantConcentration "AIFPrincipalMarkets" ;;
  for_each (rows_with_tag (tags "r" 1 4) t)
    (principal_market AIFPrincipalMarkets) ;;
  InvestorConcentration <-
    SubElement MostImportantConcentration "InvestorConcentration" ;;
  required_fields InvestorConcentration (section 118 121 t) " cannot be empty".

(** Lines 113-725: one iteration of [for file in files]. *)
Definition build (t : table) (now : datetime) : M nat :=
  root <- header t now ;;
  body t root ;;
  ret root.

(** Lines 112-725: the loop over the batch.  It returns the events, the
    heap and the [root] and [output] of the last iteration, or the
    exception that ended it. *)
Fixpoint aif_loop (files : list File) (today : clock) (i : nat)
  (st : locals) (h : heap) (last : option (string * nat))
  : list event * (exn + (heap * option (string * nat))) :=
  match files with
  | [] => ([], inr (h, last))
  | file :: rest =>
      let output := Path.splitext (path file) in
      let start := Debug ("Generating xml for --> " ++ path file ++ nl) in
      match build (df file) (today i) st with
      | (inl e, _, ops) => (start :: prints_of ops, inl e)
      | (inr root, st', ops) =>
          let (evs, r) :=
            aif_loop rest today (S i) st' (replay h ops) (Some (output, root)) in
          (start :: prints_of ops ++ evs, r)
      end
  end.

(** Lines 107-731: [aif_xml(files)]; [tree.write] comes after the loop. *)
Definition aif_xml (files : list File) (today : clock) : list event :=
  match files with
  | [] =>
      [PrintedExn (NoFilesFoundError
         "No excel files selected. Specify path to excel document and try again!")]
  | _ =>
      match aif_loop files today 0 init_locals [] None with
      | (evs, inl e) => evs ++ [PrintedExn e]
      | (evs, inr (h, Some (output, root))) =>
          evs ++ [Written (output ++ ".xml") (document h root)]
      | (evs, inr (_, None)) => evs ++ [PrintedExn (UnboundLocalError "root")]
      end
  end.

End AIF.

(* ================================================================= *)
(** ** OFKReport.py *)

Module OFK.

(** One worksheet as [generateXML] holds it at line 301: the form tag, the
    sheet name, the Kolomtag columns kept for validation
    ([columns_to_validate[sheet]]) and the transposed frame, one record of
    (column tag, cell) per data row.  The pandas reshaping of lines 197-299
    is not part of the embedding. *)
Record Sheet := mkSheet {
  formName : string;
  sheet : string;
  cols : list string;
  frame : list (list (string * value)) }.

Record File := mkFile { path : string; sheets : list Sheet }.

Definition subformRegeltag : list (string * string) := [
  ("AD-A", "AlgDeeln"); ("AD-C", "DeelnAct"); ("ADO-C", "OnrGoed");
   ("AEB-A", "Aandelen"); ("AEB-AI", "Aandelen"); ("AEBB-A", "Aandelen");
   ("AEBB-AI", "Aandelen"); ("AEBB-G", "GeldmarktPap");
   ("AEBB-K", "KapitaalmarktPap"); ("AEBB-KGI", "Schuldpapier");
   ("AEB-G", "GeldmarktPap"); ("AEB-K", "KapitaalmarktPap");
   ("AEB-KGI", "Schuldpapier"); ("AEI-A", "Aandelen");
   ("AEI-AI", "Aandelen"); ("AEI-G", "GeldmarktPap");
   ("AEI-K", "KapitaalmarktPap"); ("AEI-KGI", "Schuldpapier");
   ("AEL-A", "Aandelen"); ("AEL-AI", "Aandelen"); ("AEL-G", "GeldmarktPap");
   ("AEL-K", "KapitaalmarktPap"); ("AEL-KGI", "Schuldpapier");
   ("AEN-A", "Aandelen"); ("AEN-AI", "Aandelen"); ("AENB-A", "Aandelen");
   ("AENB-AI", "Aandelen"); ("AENB-G", "GeldmarktPap");
   ("AENB-K", "KapitaalmarktPap"); ("AENB-KGI", "Schuldpapier");
   ("AENL-A", "Aandelen"); ("AENL-AI", "Aandelen");
   ("AENL-G", "GeldmarktPap"); ("AENL-K", "KapitaalmarktPap");
   ("AENL-KGI", "Schuldpapier"); ("AEN-G", "GeldmarktPap");
   ("AEN-K", "KapitaalmarktPap"); ("AEN-KGI", "Schuldpapier");
   ("AEU-A", "Aandelen"); ("AEU-AI", "Aandelen"); ("AEU-G", "GeldmarktPap");
   ("AEU-K", "KapitaalmarktPap"); ("AEU-KGI", "Schuldpapier");
   ("ANF-C", "ActivaNietFin"); ("ANF-CGM", "ActivaNietFin");
   ("ANF-CGJ", "ActivaNietFin"); ("AO-DI", "DeelnIntInst");
   ("AOE-A", "Aandelen"); ("AOE-AI", "Aandelen"); ("AOE-G", "GeldmarktPap");
   ("AOE-K", "KapitaalmarktPap"); ("AOE-KGI", "Schuldpapier");
   ("AO-FL", "LeasesUG"); ("AO-HK", "HandUGK"); ("AO-HL", "HandUGL");
   ("AO-HY", "HypoUG"); ("AO-LK", "LeningUGK"); ("AO-LL", "LeningUGL");
   ("AO-OK", "OverigeUGK"); ("AO-OL", "OverigeUGL"); ("AO-RC", "RecCourant");
   ("AO-RP", "RepoUG"); ("AR", "StichKap"); ("AV-LP", "TechVoorz");
   ("AV-VV", "LopenAanspr"); ("BENB-A", "Aandelen"); ("BENB-AI", "Aandelen");
   ("BENB-G", "GeldmarktPap"); ("BENB-K", "KapitaalmarktPap");
   ("BENB-KGI", "Schuldpapier"); ("BT", "BalansTotaal"); ("D-FB", "Futures");
   ("D-FN", "Futures"); ("DO-FB", "Futures"); ("D-OK", "OptiesGekocht");
   ("DO-OK", "OptiesGekocht"); ("DO-OS", "OptiesGeschr");
   ("DO-OTR", "OTCDerivaten"); ("DO-OTV", "OTVDerivaten");
   ("D-OS", "OptiesGeschr"); ("D-OTR", "OTCDerivaten");
   ("D-OTV", "OTVDerivaten"); ("IO-GO", "OntwHulpGebond");
   ("IO-OO", "OntwHulpSchenk"); ("IO-XH", "InkomOverdracht");
   ("GD-ECM", "DienstExtraConcern"); ("GD-ICM", "DienstIntraConcern");
   ("GD-GLM", "RandLGebruiksLicent"); ("GD-RLM", "RandLReprodLicent");
   ("GD-ECJ", "DienstExtraConcern"); ("GD-ICJ", "DienstIntraConcern");
   ("GD-GLJ", "RandLGebruiksLicent"); ("GD-RLJ", "RandLReprodLicent");
   ("IWB", "IntrWaarde"); ("KO-KW", "SchuldKwijtSch");
   ("KO-OG", "OnrGoedBtlOv"); ("KO-SR", "Stamrechten");
   ("KO-VO", "OverKapitOverdr"); ("PD-A", "AlgDeeln"); ("PD-C", "DeelnPass");
   ("PEN-A", "Aandelen"); ("PEN-AI", "Aandelen"); ("PENB-A", "Aandelen");
   ("PENB-AI", "Aandelen"); ("PENB-G", "GeldmarktPap");
   ("PENB-K", "KapitaalmarktPap"); ("PENB-KGI", "Schuldpapier");
   ("PENL-A", "Aandelen"); ("PENL-AI", "Aandelen");
   ("PENL-G", "GeldmarktPap"); ("PENL-K", "KapitaalmarktPap");
   ("PENL-KGI", "Schuldpapier"); ("PEN-G", "GeldmarktPap");
   ("PEN-K", "KapitaalmarktPap"); ("PEN-KGI", "Schuldpapier");
   ("PN-OS", "NedTegenpartij"); ("PO-FL", "LeasesOG"); ("PO-HK", "HandOGK");
   ("PO-HL", "HandOGL"); ("PO-LK", "LeningOGK"); ("PO-LL", "LeningOGL");
   ("PO-OK", "OverigeOGK"); ("PO-OL", "OverigeOGL"); ("PO-RP", "RepoOG");
   ("PV-LP", "TechVoorz"); ("PV-OV", "OverVoorz"); ("PV-VV", "LopenAanspr");
   ("SB-K", "ParticipatieUGK"); ("SB-L", "ParticipatieUGL");
   ("SN-K", "ParticipatieOGK"); ("SN-L", "ParticipatieOGL");
   ("WE-A", "Aandelen"); ("WE-AI", "Aandelen"); ("WE-G", "GeldmarktPap");
   ("WE-K", "KapitaalmarktPap"); ("WE-KGI", "Schuldpapier");
   ("WI-A", "Aandelen"); ("WI-AI", "Aandelen"); ("WI-G", "GeldmarktPap");
   ("WI-K", "KapitaalmarktPap"); ("WI-KGI", "Schuldpapier");
   ("WVA-B", "Bestemming"); ("WVA-R", "Resulaten"); ("WVA-Z", "Resulaten");
   ("WVB-B", "Baten"); ("WVB-L", "Bedrijfskosten");
   ("WVB-O", "Bedrijfskosten"); ("WVB-S", "Loonkosten");
   ("WVP", "WinstVerlPremUitk"); ("WVP-ZA", "AanvZorg");
   ("WVP-ZZ", "ZorgZvw"); ("WVT-BL", "TotBatenLasten");
   ("WVU-B", "WinstVerlBuiten"); ("WVU-L", "LatenUitz")
].

(** A Python slice [l[a:b]]; [None] is an omitted bound. *)
Definition norm (n : Z) (i : Z) : Z :=
  if (i <? 0)%Z then Z.max 0 (i + n) else Z.min i n.

Definition slice {A} (a b : option Z) (l : list A) : list A :=
  let n := Z.of_nat (List.length l) in
  let lo := match a with Some i => norm n i | None => 0%Z end in
  let hi := match b with Some i => norm n i | None => n end in
  firstn (Z.to_nat (hi - lo)) (skipn (Z.to_nat lo) l).

(** Which columns a test of the validation chain selects:
    [k in c[a:b] + c[a':b'] + ...] or [k == c[i]]. *)
Inductive selector :=
| Among (slices : list (option Z * option Z))
| At (i : nat).

Definition selected (k : string) (s : selector) (c : list string) : exn + bool :=
  match s with
  | Among slices =>
      inr (existsb (String.eqb k)
             (flat_map (fun ab => slice (fst ab) (snd ab) c) slices))
  | At i =>
      match nth_error c i with
      | Some x => inr (String.eqb k x)
      | None => inl IndexError
      end
  end.

(** One [if]/[elif] arm of lines 310-751: the sheets it applies to, the
    columns that must hold an int, those of them asserted non-negative (if
    the arm has the assertion), the columns that must hold a string (if the
    arm has the [elif]), and whether that [elif] checks the length of
    'Land'. *)
Record rule := mkRule {
  applies : list string;
  int_cols : selector;
  nonneg_cols : option selector;
  str_cols : option selector;
  land : bool }.

Notation "[: a , b :]" := (Some a%Z, Some b%Z).
Notation "[: a , :]" := (Some a%Z, @None Z).

Definition rules : list rule := [
  mkRule ["AD-C"; "PD-C"]
    (Among [[:3,-1:]]) (Some (Among [[:4,6:]; [:7,8:]]))
    (Some (Among [[:1,3:]])) true;
  mkRule ["AD-A"; "PD-A"]
    (Among [[:3,4:]]) None
    (Some (Among [[:1,3:]; [:-1,:]])) true;
  mkRule ["ADO-C"]
    (Among [[:2,:]]) (Some (Among [[:2,5:]; [:-2,-1:]]))
    (Some (At 1)) true;
  mkRule ["AEB-A"; "AEN-A"]
    (Among [[:4,11:]; [:-1,:]]) (Some (Among [[:5,7:]]))
    (Some (Among [[:2,4:]])) true;
  mkRule ["AEB-AI"]
    (Among [[:4,7:]; [:9,11:]; [:-1,:]]) (Some (Among [[:5,7:]]))
    (Some (At 1)) false;
  mkRule ["AEB-G"; "AEB-K"; "AEN-G"; "AEN-K"]
    (Among [[:4,-1:]]) (Some (Among [[:5,7:]; [:13,15:]]))
    (Some (Among [[:2,4:]])) true;
  mkRule ["AEB-KGI"]
    (Among [[:4,7:]; [:9,11:]; [:13,15:]]) (Some (Among [[:5,7:]; [:13,15:]]))
    (Some (At 1)) false;
  mkRule ["AEN-AI"]
    (Among [[:4,7:]; [:9,11:]; [:-1,:]]) (Some (Among [[:5,7:]]))
    (Some (Among [[:1,3:]])) true;
  mkRule ["AEN-KGI"]
    (Among [[:4,7:]; [:9,11:]; [:13,15:]]) (Some (Among [[:5,7:]; [:13,15:]]))
    (Some (Among [[:1,3:]])) true;
  mkRule ["ANF-C"]
    (Among [[:1,:]]) (Some (Among [[:2,4:]]))
    None false;
  mkRule ["AO-FL"; "AO-HL"; "AO-LK"; "AO-LL"; "AO-RP"]
    (Among [[:3,13:]; [:-2,:]]) (Some (Among [[:3,6:]; [:9,13:]; [:-1,:]]))
    (Some (Among [[:1,3:]])) true;
  mkRule ["AO-HY"]
    (Among [[:3,13:]; [:-2,:]]) (Some (Among [[:3,6:]; [:9,13:]; [:-1,:]]))
    (Some (At 1)) true;
  mkRule ["AO-OK"; "AO-OL"]
    (Among [[:3,10:]; [:12,13:]]) (Some (Among [[:3,6:]; [:9,10:]; [:12,13:]]))
    (Some (Among [[:1,3:]])) true;
  mkRule ["AO-RC"]
    (Among [[:3,10:]; [:12,14:]]) (Some (Among [[:4,6:]; [:12,14:]]))
    (Some (Among [[:1,3:]])) true;
  mkRule ["D-FB"]
    (Among [[:5,7:]]) (Some (Among [[:5,7:]]))
    (Some (At 2)) true;
  mkRule ["D-OK"; "D-OS"]
    (Among [[:4,7:]; [:-2,:]]) (Some (Among [[:4,7:]; [:-2,:]]))
    (Some (Among [[:2,4:]])) true;
  mkRule ["D-OTR"; "D-OTV"]
    (Among [[:4,8:]; [:-3,:]]) (Some (Among [[:4,8:]; [:-2,:]]))
    (Some (Among [[:2,4:]])) true;
  mkRule ["GD-ECM"; "GD-ICM"]
    (Among [[:2,4:]]) (Some (Among [[:2,4:]]))
    (Some (Among [[:1,2:]; [:-1,:]])) true;
  mkRule ["PEN-A"]
    (Among [[:3,10:]; [:-1,:]]) (Some (Among [[:4,6:]; [:9,10:]; [:-1,:]]))
    (Some (At 2)) true;
  mkRule ["PEN-AI"]
    (Among [[:3,6:]; [:8,10:]; [:-1,:]]) (Some (Among [[:3,6:]; [:9,10:]; [:-1,:]]))
    (Some (Among [[:1,3:]])) true;
  mkRule ["PEN-KGI"]
    (Among [[:3,6:]; [:8,10:]; [:13,15:]])
    (Some (Among [[:3,6:]; [:9,10:]; [:13,15:]]))
    (Some (Among [[:1,3:]])) true;
  mkRule ["PEN-G"; "PEN-K"]
    (Among [[:3,-1:]]) (Some (Among [[:3,6:]; [:9,14:]; [:-2,-1:]]))
    (Some (At 2)) true;
  mkRule ["PO-OK"; "PO-OL"]
    (Among [[:3,10:]; [:-3,-2:]]) (Some (Among [[:3,6:]; [:9,10:]; [:-3,-2:]]))
    (Some (Among [[:1,3:]])) true;
  mkRule ["PV-OV"]
    (Among [[:3,:]]) (Some (Among [[:4,6:]]))
    None false;
  mkRule ["PO-FL"; "PO-HL"; "PO-LK"; "PO-LL"; "PO-RP"]
    (Among [[:3,12:]; [:-3,:]])
    (Some (Among [[:3,6:]; [:9,12:]; [:-3,-2:]; [:-1,:]]))
    (Some (Among [[:1,3:]])) true;
  mkRule ["WVA-B"]
    (At 2) None
    None false;
  mkRule ["WVB-B"; "WVB-L"; "WVB-S"]
    (At 2) (Some (At 2))
    None false;
  mkRule ["WVU-B"; "WVU-L"]
    (At 2) (Some (At 2))
    (Some (At 1)) false;
  mkRule ["WVA-R"]
    (At 1) None
    None false
].

(** The exceptions the validation raises and [generateXML] handles. *)
Inductive failure :=
| IntegerValueError
| AssertionError (msg : string)
| EmptyValueError
| StringValueError
| LengthValueRequiredError.

Inductive outcome :=
| Pass
| Caught (f : failure) (k : string) (sheetname : string)
| Uncaught (e : exn).

Definition ge0 (v : value) : bool :=
  match v with VInt n => (0 <=? n)%Z | _ => true end.

(** f"Non-negative value required at {k,data[1]}" *)
Definition assert_msg (k sheetname : string) : string :=
  "Non-negative value required at ('" ++ k ++ "', '" ++ sheetname ++ "')".

(** The body of an [if k.strip() in <int columns>:] arm. *)
Definition int_cell (r : rule) (c : list string) (sheetname k : string)
  (v : value) : outcome :=
  if eqs v "" then Caught EmptyValueError k sheetname
  else if type_is_not_int v then Caught IntegerValueError k sheetname
  else
    match nonneg_cols r with
    | None => Pass
    | Some s =>
        match selected k s c with
        | inl e => Uncaught e
        | inr true =>
            if ge0 v then Pass
            else Caught (AssertionError (assert_msg k sheetname)) k sheetname
        | inr false => Pass
        end
    end.

(** The body of an [elif k.strip() in <string columns>:] arm. *)
Definition str_cell (r : rule) (sheetname k : string) (v : value) : outcome :=
  if eqs v "" then Caught EmptyValueError k sheetname
  else
    match v with
    | VStr s =>
        if land r && String.eqb (strip k) "Land"
           && negb (Nat.eqb (String.length s) 2)
        then Caught LengthValueRequiredError k sheetname
        else Pass
    | _ => Caught StringValueError k sheetname
    end.

(** Lines 310-751 for one cell, under the arm [r] that applies to the
    sheet. *)
Definition check_cell (r : rule) (c : list string) (sheetname k : string)
  (v : value) : outcome :=
  match selected (strip k) (int_cols r) c with
  | inl e => Uncaught e
  | inr true => int_cell r c sheetname k v
  | inr false =>
      match str_cols r with
      | None => Pass
      | Some s =>
          match selected (strip k) s c with
          | inl e => Uncaught e
          | inr true => str_cell r sheetname k v
          | inr false => Pass
          end
      end
  end.

Definition rule_for (sheetname : string) : option rule :=
  find (fun r => existsb (String.eqb sheetname) (applies r)) rules.

(** [for k, v in values.items()] *)
Fixpoint check_record (r : rule) (c : list string) (sheetname : string)
  (values : list (string * value)) : outcome :=
  match values with
  | [] => Pass
  | (k, v) :: rest =>
      match check_cell r c sheetname k v with
      | Pass => check_record r c sheetname rest
      | o => o
      end
  end.

(** [for key, values in data[2].items()] *)
Fixpoint check_frame (r : rule) (c : list string) (sheetname : string)
  (fr : list (list (string * value))) : outcome :=
  match fr with
  | [] => Pass
  | values :: rest =>
      match check_record r c sheetname values with
      | Pass => check_frame r c sheetname rest
      | o => o
      end
  end.

(** [columns_to_validate[name]]: the columns of the first sheet of that
    name (line 233 keeps the first). *)
Definition columns_to_validate (dataframes : list Sheet) (name : string)
  : list string :=
  match find (fun d => String.eqb (sheet d) name) dataframes with
  | Some d => cols d
  | None => []
  end.

(** Lines 307-751 for one sheet: the arm of the chain that names it, if
    any, applied to every cell. *)
Definition check_sheet (all : list Sheet) (data : Sheet) : outcome :=
  match rule_for (sheet data) with
  | Some r =>
      check_frame r (columns_to_validate all (sheet data)) (sheet data)
        (frame data)
  | None => Pass
  end.

(** Lines 305-751: [for data in dataframes]. *)
Fixpoint validate_from (all : list Sheet) (dataframes : list Sheet) : outcome :=
  match dataframes with
  | [] => Pass
  | data :: rest =>
      match check_sheet all data with
      | Pass => validate_from all rest
      | o => o
      end
  end.

Definition validate (dataframes : list Sheet) : outcome :=
  validate_from dataframes dataframes.

(** Lines 777-782 and 788-793: the records of one sheet. *)
Definition emit_records (subformName : nat) (data : Sheet) : M unit :=
  for_each (frame data) (fun values =>
    control_tag <-
      match find (fun kv => String.eqb (fst kv) (sheet data)) subformRegeltag with
      | Some kv => ret (snd kv)
      | None => raise (KeyError (sheet data))
      end ;;
    control_tag <- SubElement subformName control_tag ;;
    for_each values (fun kv =>
      leaf control_tag (fst kv) (strip (str (snd kv))))).

(** Lines 773-794.  [formName] is the variable of that name: the element of
    the form created last. *)
Fixpoint emit_forms (root : nat) (dataframes : list Sheet)
  (existing_subForms : list string) (formName : option nat) : M unit :=
  match dataframes with
  | [] => ret tt
  | data :: rest =>
      if existsb (String.eqb (OFK.formName data)) existing_subForms then
        match formName with
        | Some f =>
            subformName <- SubElement f (sheet data) ;;
            emit_records subformName data ;;
            emit_forms root rest existing_subForms formName
        | None => raise TypeError
        end
      else
        f <- SubElement root (OFK.formName data) ;;
        subformName <- SubElement f (sheet data) ;;
        emit_records subformName data ;;
        emit_forms root rest (existing_subForms ++ [OFK.formName data]) (Some f)
  end.

(** [datetime.today().strftime('%Y-') + '0' +
     str(int(datetime.today().strftime('%m')) - 1)] *)
Definition file_date (t1 t2 : datetime) : string :=
  pad 4 (year t1) ++ "-" ++ "0" ++ z2s (month t2 - 1).

(** Lines 173-187: the root element and the remark line. *)
Definition header (t1 t2 t3 t4 : datetime) : M nat :=
  let generated_file_date := file_date t1 t2 in
  root <- Element "OFK-K" ;;
  set_attr root "xmlns" "bb.dnb.nl" ;;
  set_attr root "xmlns:xsi" "http://www.w3.org/2001/XMLSchema-instance" ;;
  let xsi_value :=
    ("bb.dnb.nl " ++ "OFK-K." ++ generated_file_date ++ ".xsd")%string in
  set_attr root "xsi:schemaLocation" xsi_value ;;
  let generated_file_date := file_date t3 t4 in
  leaf root "rappOpmerkingen" ("OFK " ++ generated_file_date) ;;
  ret root.

Definition dq : string := String (ascii_of_nat 34) EmptyString.

(** Lines 753-771: what each handler logs. *)
Definition handler (file : string) (f : failure) (k sheetname : string)
  : list event :=
  match f with
  | IntegerValueError =>
      [LogErrorMsg ("Error Ocurred in " ++ file ++ "!!!");
       LogErrorMsg ("Integer value is required in Column " ++ dq ++ k ++ dq
                    ++ " of worksheet " ++ dq ++ sheetname ++ dq)]
  | AssertionError msg =>
      [LogErrorMsg "Error Ocurred in {file}!!!"; LogErrorMsg msg]
  | EmptyValueError =>
      [LogErrorMsg ("Error Ocurred in " ++ file ++ "!!!");
       LogErrorMsg ("Column " ++ dq ++ k ++ dq ++ " value of worksheet "
                    ++ dq ++ sheetname ++ dq ++ " cannot be empty")]
  | StringValueError =>
      [LogErrorMsg ("Error Ocurred in " ++ file ++ "!!!");
       LogErrorMsg ("String value is required in Column " ++ dq ++ k ++ dq
                    ++ " of worksheet " ++ dq ++ sheetname ++ dq)]
  | LengthValueRequiredError =>
      [LogErrorMsg "Error Ocurred in {file}!!!";
       LogErrorMsg ("Example of accept values required column " ++ dq ++ "Land"
                    ++ dq ++ " are " ++ dq ++ "BE, NL, AZ" ++ dq ++ " etc.")]
  end.

(** [datetime.today()] is read four times for each file. *)
Definition header_at (today : clock) (i : nat) : M nat :=
  header (today (4 * i)%nat) (today (4 * i + 1)%nat)
         (today (4 * i + 2)%nat) (today (4 * i + 3)%nat).

(** Lines 167-799: the loop over the batch.  The second component is the
    exception that escapes [generateXML], if one does. *)
Fixpoint generate_loop (files : list File) (today : clock) (i : nat)
  (st : locals) (h : heap) : list event * option exn :=
  match files with
  | [] => ([], None)
  | file :: rest =>
      let start := Debug ("Generating xml for --> " ++ path file ++ nl) in
      let output := Path.splitext (path file) in
      let dataframes :=
        filter (fun d => negb (String.eqb (sheet d) "Formulierenoverzicht"))
          (sheets file) in
      match header_at today i st with
      | (inl e, _, _) => ([start], Some e)
      | (inr root, st1, ops1) =>
          let h1 := replay h ops1 in
          match validate dataframes with
          | Uncaught e => ([start], Some e)
          | Caught f k sheetname =>
              let (evs, e) := generate_loop rest today (S i) st1 h1 in
              (start :: handler (path file) f k sheetname ++ evs, e)
          | Pass =>
              match emit_forms root dataframes [] None st1 with
              | (inl e, _, _) => ([start], Some e)
              | (inr _, st2, ops2) =>
                  let h2 := replay h1 ops2 in
                  let (evs, e) := generate_loop rest today (S i) st2 h2 in
                  (start
                     :: Written (output ++ ".xml") (document h2 root)
                     :: Debug ("Done generating xml for " ++ path file ++ nl)
                     :: evs, e)
              end
          end
      end
  end.

(** Lines 79-799: [generateXML(files)]. *)
Definition generateXML (files : list File) (today : clock)
  : list event * option exn :=
  generate_loop files today 0 init_locals [].

End OFK.

(* ================================================================= *)
(** ** Observing a run *)

Definition result {A} (r : (exn + A) * locals * list op) : exn + A := fst (fst r).
Definition final {A} (r : (exn + A) * locals * list op) : locals := snd (fst r).
Definition calls {A} (r : (exn + A) * locals * list op) : list op := snd r.

(** The locals after one allocation. *)
Definition alloc (st : locals) : locals := mkLocals (S (next_id st)) (vars st).

(** An exception reported by the handler of a batch: logged by AIFM.py,
    printed by AIF.py. *)
Definition is_report (e : event) : bool :=
  match e with LogError _ | PrintedExn _ => true | _ => false end.

Definition written_paths (evs : list event) : list string :=
  flat_map (fun e => match e with Written p _ => [p] | _ => [] end) evs.

(** Reading a written document: the parts of a node, its first child with
    a given tag, the node at the end of a path of tags, an attribute. *)
Definition xtag (x : xml) : string := match x with Elem t _ _ _ => t end.
Definition xattrs (x : xml) : list (string * string) :=
  match x with Elem _ a _ _ => a end.
Definition xtext (x : xml) : option string := match x with Elem _ _ s _ => s end.
Definition xkids (x : xml) : list xml := match x with Elem _ _ _ k => k end.

Definition child (tg : string) (x : xml) : option xml :=
  find (fun c => String.eqb (xtag c) tg) (xkids x).

Fixpoint descend (path : list string) (x : xml) : option xml :=
  match path with
  | [] => Some x
  | tg :: rest =>
      match child tg x with
      | Some c => descend rest c
      | None => None
      end
  end.

Definition attr (k : string) (x : xml) : option string :=
  option_map snd (find (fun kv => String.eqb (fst kv) k) (xattrs x)).

(** ** Comparing documents up to the creation timestamp *)

Definition timestamp_attr : string := "CreationDateAndTime".

Definition erase_attrs (a : list (string * string)) : list (string * string) :=
  filter (fun kv => negb (String.eqb (fst kv) timestamp_attr)) a.

Definition erase_node (n : node) : node :=
  mkNode (tag n) (text n) (erase_attrs (attrib n)) (children n).

Fixpoint erase_xml (x : xml) : xml :=
  match x with
  | Elem t a s k => Elem t (erase_attrs a) s (map erase_xml k)
  end.

Definition erase_event (e : event) : event :=
  match e with
  | Written p d => Written p (erase_xml d)
  | _ => e
  end.

(** Two calls that differ at most in the value given to the timestamp
    attribute. *)
Definition blind (o : op) : op :=
  match o with
  | SetAttr id k v =>
      if String.eqb k timestamp_attr then SetAttr id k "" else o
  | _ => o
  end.

(** Two runs of a builder agree up to the timestamp. *)
Definition agree {A} (r1 r2 : (exn + A) * locals * list op) : Prop :=
  result r1 = result r2 /\ final r1 = final r2
  /\ map blind (calls r1) = map blind (calls r2).

(** Every attribute removed: what is left of a document when no attribute
    at all is compared. *)
Fixpoint strip_attrs (x : xml) : xml :=
  match x with
  | Elem t _ s k => Elem t [] s (map strip_attrs k)
  end.

(** The documents of a run. *)
Definition docs (evs : list event) : list xml :=
  flat_map (fun e => match e with Written _ d => [d] | _ => [] end) evs.

Definition reports (evs : list event) : list event := filter is_report evs.

(** ** Reading the recorded calls *)

(** Does the run create an element with this tag? *)
Definition creates (tg : string) (ops : list op) : bool :=
  existsb (fun o => match o with
                    | NewElement t | NewSubElement _ t => String.eqb t tg
                    | _ => false
                    end) ops.

(** The calls a principal-market row of AIFM.py starts with once its code
    is accepted: the market element, its Ranking, the MarketIdentification
    and in it the MarketCodeType. *)
Definition market_row_prefix (PM : nat) (pm0 : value) (counter : nat)
  (st : locals) : list op :=
  [NewSubElement PM "AIFMFivePrincipalMarket";
   NewSubElement (next_id st) "Ranking";
   SetText (S (next_id st)) (strip (z2s (Z.of_nat counter + 1)));
   NewSubElement (next_id st) "MarketIdentification";
   NewSubElement (S (S (next_id st))) "MarketCodeType";
   SetText (S (S (S (next_id st)))) (strip (str pm0))].

(** The MarketCode checks of lines 284-290 pass: the code type is not MIC,
    or the market code is a non-empty string of at most 4 characters. *)
Definition market_code_ok (pm0 pm1 : value) : bool :=
  if eqs pm0 "MIC" then
    match pm1 with
    | VStr s => negb (String.eqb s "") && (String.length s <=? 4)%nat
    | _ => false
    end
  else true.

(** The document [build] produces for one sheet on its own. *)
Definition document_of (r : (exn + nat) * locals * list op) : option xml :=
  match r with
  | (inr root, _, ops) => Some (document (replay [] ops) root)
  | (inl _, _, _) => None
  end.

(** (Ranking, MarketCodeType) of the principal markets of an AIFM
    document, in document order. *)
Definition market_rankings (doc : xml) : list (option string * option string) :=
  match descend ["AIFMRecordInfo"; "AIFMCompleteDescription";
                 "AIFMPrincipalMarkets"] doc with
  | Some pm =>
      map (fun x =>
             (match child "Ranking" x with Some c => xtext c | None => None end,
              match descend ["MarketIdentification"; "MarketCodeType"] x with
              | Some c => xtext c
              | None => None
              end))
          (xkids pm)
  | None => []
  end.


(** [d.get(k)] as an option, for stating what a dict holds. *)
Definition lookup (d : dict) (k : string) : option value :=
  option_map snd (find (fun kv => String.eqb (fst kv) k) d).

(** The run ends in UnassinedIntegerError without having created [tg]. *)
Definition rejects_unsigned {A} (r : (exn + A) * locals * list op) (tg : string)
  : Prop :=
  (exists msg, result r = inl (UnassinedIntegerError msg))
  /\ creates tg (calls r) = false.

(** The run creates element [tg] under [parent] and gives it text [s]. *)
Definition emits {A} (r : (exn + A) * locals * list op) (parent : nat)
  (tg s : string) : Prop :=
  exists before id after,
    calls r = before ++ NewSubElement parent tg :: SetText id s :: after.

(** The run succeeds without creating [tg]. *)
Definition skips (r : (exn + unit) * locals * list op) (tg : string) : Prop :=
  result r = inr tt /\ creates tg (calls r) = false.

(** Tag and the three declared attributes of the root of a document. *)
Definition root_summary (doc : xml)
  : string * option string * option string * option string :=
  (xtag doc, attr "xsi:noNamespaceSchemaLocation" doc, attr "xmlns:xsi" doc,
   attr "CreationDateAndTime" doc).

(** ** The shape of the heap *)

(** Children are allocated after their parent and are in the heap. *)
Definition well_formed (h : heap) : Prop :=
  forall i nd, nth_error h i = Some nd ->
               Forall (fun c => (i < c < List.length h)%nat) (children nd).

(* ================================================================= *)
(** ** Sample sheets *)

Module Samples.


Definition E : value := VStr "".
Definition jan1 : datetime := mkDatetime 2020 1 1 0 0 0.
Definition mar31 : datetime := mkDatetime 2020 3 31 0 0 0.
Definition noon : clock := fun _ => mkDatetime 2020 4 15 12 0 0.
Definition later : clock := fun _ => mkDatetime 2020 5 2 9 30 0.

Definition m (tg id : string) (v : value) : AIFM.Row :=
  AIFM.mkRow tg (VStr id) E v E.

Definition market (id code : string) (mc amount : value) : AIFM.Row :=
  AIFM.mkRow "PrincipalMarket" (VStr id) (VStr code) mc amount.

Definition five_markets : list AIFM.Row :=
  [market "1st" "MIC" (VStr "XAMS") (VInt 100);
   market "2nd" "XXX" E (VInt 50);
   market "3rd" "OTC" E (VInt 20);
   market "4th" "NOT" E E;
   market "5th" "NOT" E E].

(** An AIFM sheet, with the cells the properties below vary left open:
    the two header values, the assumption block, the market rows and the
    base-currency block. *)
Definition aifm (h0 h1 qn ad : value) (markets : list AIFM.Row)
  (aum_base bc rrt rate descr : value) : AIFM.table :=
  [m "ReportingMemberState" "1" h0;
   m "Version" "2" h1;
   m "CreationDateAndTime" "3" E;
   m "FilingType" "4" (VStr "INIT");
   m "AIFMContentType" "5" (VInt 1);
   m "ReportingPeriodStartDate" "6" (VDate jan1);
   m "ReportingPeriodEndDate" "7" (VDate mar31);
   m "ReportingPeriodType" "8" (VStr "Q1");
   m "ReportingPeriodYear" "9" (VInt 2020);
   m "AIFMReportingObligationChangeFrequencyCode" "10" E;
   m "AIFMReportingObligationChangeContentsCode" "11" E;
   m "AIFMReportingObligationChangeQuarter" "12" E;
   m "LastReportingFlag" "13" (VStr "FALSE");
   m "QuestionNumber" "14" qn;
   m "AssumptionDescription" "15" ad;
   m "AIFMReportingCode" "16" (VInt 1);
   m "AIFMJurisdiction" "17" (VStr "NL");
   m "AIFMNationalCode" "18" (VStr "12345");
   m "AIFMName" "19" (VStr "Manager");
   m "AIFMEEAFlag" "20" (VStr "true");
   m "AIFMNoReportingFlag" "21" (VStr "false");
   m "AIFMIdentifierLEI" "22" (VStr "LEI123");
   m "AIFMIdentifierBIC" "23" E;
   m "ReportingMemberState" "24" E;
   m "AIFMNationalCode" "25" E]
  ++ markets ++
  [AIFM.mkRow "PrincipalInstrument" (VInt 1) (VStr "SEC_CSH_CODP") (VInt 10) E;
   AIFM.mkRow "PrincipalInstrument" (VInt 2) (VStr "NTA_NTA_NOTA") (VInt 0) E;
   m "AUMAmountInEuro" "33" (VInt 1000);
   m "AUMAmountInBaseCurrency" "34" aum_base;
   m "BaseCurrency" "35" bc;
   m "FXEURReferenceRateType" "36" rrt;
   m "FXEURRate" "37" rate;
   m "FXEUROtherReferenceRateDescription" "38" descr].

(** A sheet that builds: euro fund, no assumption. *)
Definition aifm_ok : AIFM.table :=
  aifm (VStr "NL") (VStr "1.2") E E five_markets
       (VInt 1000) (VStr "EUR") E E E.

(** The same sheet with an empty FilingType (row 4). *)
Definition aifm_bad : AIFM.table :=
  map (fun r => if Py.eq (AIFM.Id r) (VStr "4")
                then AIFM.mkRow (AIFM.xmlTags r) (AIFM.Id r) E E E else r)
      aifm_ok.

Definition a (tg id : string) (v : value) : AIF.Row :=
  AIF.mkRow tg (VStr id) E v E E E E E E E E E E E.

Definition ranked (tg : string) (rank : Z) (descr : string) : AIF.Row :=
  AIF.mkRow tg (VInt rank) (VStr descr) E E E E E E E E E E E E.

(** An AIF sheet; the cells of rows 4 and 5 and the SubAssetType of row
    m2 are left open. *)
Definition aif (filing content : value) (sub2 : value) : AIF.table :=
  [a "ReportingMemberState" "1" (VStr "NL");
   a "Version" "2" (VStr "1.2");
   a "CreationDateAndTime" "3" E;
   a "FilingType" "4" filing;
   a "AIFContentType" "5" content;
   a "ReportingPeriodStartDate" "6" (VDate jan1);
   a "ReportingPeriodEndDate" "7" (VDate mar31);
   a "ReportingPeriodType" "8" (VStr "Q1");
   a "ReportingPeriodYear" "9" (VInt 2020);
   a "AIFReportingObligationChangeFrequencyCode" "10" E;
   a "AIFReportingObligationChangeContentsCode" "11" E;
   a "AIFReportingObligationChangeQuarter" "12" E;
   a "LastReportingFlag" "13" (VStr "FALSE");
   a "QuestionNumber" "14" E;
   a "AssumptionDescription" "15" E;
   a "AIFMNationalCode" "16" (VStr "123");
   a "AIFNationalCode" "17" (VStr "456");
   a "AIFName" "18" (VStr "Fund");
   a "AIFEEAFlag" "19" (VStr "true");
   a "AIFReportingCode" "20" (VInt 1);
   a "AIFDomicile" "21" (VStr "NL");
   a "InceptionDate" "22" (VStr "2010-01-01");
   a "AIFNoReportingFlag" "23" (VStr "false");
   a "AIFIdentifierLEI" "24" (VStr "LEI1");
   a "AIFIdentifierISIN" "25" E;
   a "ReportingMemberState" "31" E;
   a "AIFNationalCode" "32" E;
   a "ShareClassFlag" "33" (VStr "false");
   a "ShareClassName" "40" E;
   a "AIFMasterFeederStatus" "41" (VStr "none");
   a "AIFName" "42" E;
   a "ReportingMemberState" "43" E;
   a "AIFNationalCode" "44" E;
   a "BaseCurrency" "48" (VStr "eur");
   a "AUMAmountInBaseCurrency" "49" (VInt 1000);
   a "FXEURReferenceRateType" "50" E;
   a "FXEURRate" "51" E;
   a "FXEUROtherReferenceRateDescription" "52" E;
   a "AIFNetAssetValue" "53" (VInt 900);
   a "FirstFundingSourceCountry" "54" (VStr "NL");
   a "PredominantAIFType" "57" (VStr "HFND");
   a "HedgeFundStrategyType" "58" (VStr "EQTY_LGBS");
   a "PrimaryStrategyFlag" "59" (VStr "true");
   a "StrategyNAVRate" "60" (VInt 100);
   AIF.mkRow "m1" (VInt 1) (VStr "SEC_CSH_CODP") (VStr "ISIN") (VStr "Name")
     (VStr "NL0000000001") E E E E E E (VStr "L") (VInt 10) E;
   AIF.mkRow "m2" (VInt 2) sub2 E E E E E E E E E E E E;
   a "AfricaNAVRate" "78" (VInt 0);
   a "AfricaAUMRate" "86" (VInt 0);
   ranked "p1" 1 "NTA";
   ranked "q1" 1 "NTA_NTA";
   a "TypicalPositionSize" "113" E;
   ranked "r1" 1 "NOT";
   a "MainBeneficialOwnersRate" "118" (VInt 50)].

Definition aif_ok : AIF.table :=
  aif (VStr "INIT") (VInt 1) (VStr "NTA_NTA_NOTA").

(** One OFK workbook: sheet AD-C of form AD, one data row. *)
Definition ofk_cols : list string :=
  ["Regel"; "Naam"; "Land"; "Dlnperc"; "Waarde"; "Aankoop"; "Verkoop";
   "Dividend"; "Blok"].

Definition ofk_sheet (naam : value) : OFK.Sheet :=
  OFK.mkSheet "AD" "AD-C" ofk_cols
    [[("Regel", VInt 1); ("Naam", naam); ("Land", VStr "NL");
      ("Dlnperc", VInt 100); ("Waarde", VInt 4); ("Aankoop", VInt 3);
      ("Verkoop", VInt 2); ("Dividend", VInt 4)]].

Definition ofk_ok : OFK.File := OFK.mkFile "ofk.xlsx" [ofk_sheet (VStr "Dochter")].
Definition ofk_bad : OFK.File := OFK.mkFile "leeg.xlsx" [ofk_sheet E].

Definition january : clock := fun _ => mkDatetime 2020 1 31 23 59 0.
Definition february : clock := fun _ => mkDatetime 2020 2 1 0 1 0.

(** The five market rows with the first two exchanged in the sheet. *)
Definition swapped_markets : list AIFM.Row :=
  [market "2nd" "XXX" E (VInt 50);
   market "1st" "MIC" (VStr "XAMS") (VInt 100);
   market "3rd" "OTC" E (VInt 20);
   market "4th" "NOT" E E;
   market "5th" "NOT" E E].

Definition aifm_swapped : AIFM.table :=
  aifm (VStr "NL") (VStr "1.2") E E swapped_markets
       (VInt 1000) (VStr "EUR") E E E.

(** A dollar fund whose reference rate is OTH and whose description of it
    is left empty. *)
Definition aifm_usd_oth : AIFM.table :=
  aifm (VStr "NL") (VStr "1.2") E E five_markets
       (VInt 1100) (VStr "USD") (VStr "OTH") (VStr "1.1") E.

(** A dollar fund with no reference-rate type and a zero amount. *)
Definition aifm_usd_zero : AIFM.table :=
  aifm (VStr "NL") (VStr "1.2") E E five_markets
       (VInt 0) (VStr "USD") E E E.

(** [AssumptionDescription] of 301 and of 300 characters. *)
Definition text301 : string := repeat_str "x" 301.
Definition text300 : string := repeat_str "x" 300.

Definition aifm_long : AIFM.table :=
  aifm (VStr "NL") (VStr "1.2") (VStr "7") (VStr text301) five_markets
       (VInt 1000) (VStr "EUR") E E E.
Definition aifm_exact : AIFM.table :=
  aifm (VStr "NL") (VStr "1.2") (VStr "7") (VStr text300) five_markets
       (VInt 1000) (VStr "EUR") E E E.

(** [t] with the Input_1 cell of the rows of identifier [id] replaced. *)
Definition aif_with (id : string) (v : value) (t : AIF.table) : AIF.table :=
  map (fun r =>
         if Py.eq (AIF.Id r) (VStr id) then
           AIF.mkRow (AIF.xmlTags r) (AIF.Id r) (AIF.XMLDescription r) v
             (AIF.Input_2 r) (AIF.Input_3 r) (AIF.Input_4 r) (AIF.Input_5 r)
             (AIF.Input_6 r) (AIF.Input_7 r) (AIF.Input_8 r) (AIF.Input_9 r)
             (AIF.Input_10 r) (AIF.Input_11 r) (AIF.Input_12 r)
         else r) t.

Definition aif_long : AIF.table :=
  aif_with "14" (VStr "7") (aif_with "15" (VStr text301) aif_ok).
Definition aif_exact : AIF.table :=
  aif_with "14" (VStr "7") (aif_with "15" (VStr text300) aif_ok).

(** An AIF sheet with rows 4 and 5 both empty. *)
Definition aif_two_empty : AIF.table := aif E E (VStr "NTA_NTA_NOTA").

(** An AIF sheet with row 5 empty. *)
Definition aif_second_empty : AIF.table :=
  aif (VStr "INIT") E (VStr "NTA_NTA_NOTA").

(** The arm of the validation chain for sheet AD-C. *)
Definition ad_c_rule : OFK.rule :=
  match OFK.rule_for "AD-C" with
  | Some r => r
  | None => OFK.mkRule [] (OFK.Among []) None None false
  end.

(** Rows 33-35 of an AIFM sheet as a dict. *)
Definition amounts : dict :=
  [("AUMAmountInEuro", VInt 1000);
   ("AUMAmountInBaseCurrency", VInt (-7));
   ("BaseCurrency", VStr "USD")].

Definition good : AIFM.File := AIFM.mkFile "good.xlsx" aifm_ok.
Definition bad : AIFM.File := AIFM.mkFile "bad.xlsx" aifm_bad.

(** An AIF sheet whose row m2 has no SubAssetType but has an instrument
    code type, a name and a position. *)
Definition aif_no_subasset : AIF.table :=
  map (fun r =>
         if String.eqb (AIF.xmlTags r) "m2" then
           AIF.mkRow "m2" (VInt 2) E (VStr "NONE") (VStr "Name") E E E E E E E
             (VStr "L") (VInt 5) E
         else r) aif_ok.


(** An AIF sheet of a dollar fund whose reference rate is OTH and whose
    description of it is left empty. *)
Definition aif_usd_oth : AIF.table :=
  aif_with "48" (VStr "USD")
    (aif_with "50" (VStr "OTH") (aif_with "51" (VStr "1.1") aif_ok)).

End Samples.

(* ================================================================= *)
(** ** Statements under examination *)

(** The header check as "first value non-empty and second value empty". *)
Definition header_check_on_emptiness : Prop :=
  forall (t : AIFM.table) now st tag0 v0 tag1 v1 more,
    AIFM.tag_input (AIFM.rows_with_id (str_range 1 4) t)
      = (tag0, v0) :: (tag1, v1) :: more ->
    ((exists msg, result (AIFM.header t now st) = inl (EmptyValueError msg))
     <-> (v0 <> VStr "" /\ v1 = VStr "")).

(** What the header lines do with the two header rows [h0] and [h1], [r]
    being the run of [header] from locals [st]. *)
Definition header_behaviour (r : (exn + nat) * locals * list op)
  (h0 h1 : string * value) (st : locals) : Prop :=
  ((exists msg, result r = inl (EmptyValueError msg))
   <-> (truthy (snd h0) = true /\ snd h1 = VStr ""))
  /\ (truthy (snd h0) = false ->
      result r = inr (next_id st)
      /\ In (SetAttr (next_id st) (fst h0) (strip (str (snd h0)))) (calls r)
      /\ In (SetAttr (next_id st) (fst h1) (strip (str (snd h1)))) (calls r)).

(** Ranking by row identifier: the element generated for the row whose
    identifier is the k-th of '1st'..'5th' carries Ranking k. *)
Definition ranked_by_identifier : Prop :=
  forall (t : AIFM.table) (now : datetime) (doc : xml) (r : AIFM.Row) (k : nat),
    document_of (AIFM.build t now init_locals) = Some doc ->
    In r (AIFM.rows_with_id AIFM.principalMRows t) ->
    nth_error AIFM.principalMRows k = Some (AIFM.Id r) ->
    In (Some (z2s (Z.of_nat k + 1)), Some (strip (str (AIFM.XMLDescription r))))
       (market_rankings doc).

(** The unsigned-integer check as applying to every principal-market row
    that reaches it. *)
Definition unsigned_always_checked : Prop :=
  forall PM pm0 pm1 pm2 counter st,
    in_strs pm0 AIFM.market_codes = true ->
    (counter < 5)%nat ->
    market_code_ok pm0 pm1 = true ->
    not_unsigned pm2 = true ->
    exists msg,
      result (AIFM.market_row PM (pm0, pm1, pm2) counter st)
      = inl (UnassinedIntegerError msg).

(** What AIFM.py does with the amount of a principal-market row. *)
Definition market_amount_rule (PM : nat) (pm0 pm1 pm2 : value) (counter : nat)
  (st : locals) : Prop :=
  let r := AIFM.market_row PM (pm0, pm1, pm2) counter st in
  (pm0 <> VStr "NOT" ->
     (not_unsigned pm2 = true -> rejects_unsigned r "AggregatedValueAmount")
     /\ (forall n, pm2 = VInt n -> (0 <= n)%Z ->
         result r = inr tt
         /\ emits r (next_id st) "AggregatedValueAmount" (strip (z2s n))))
  /\ (pm0 = VStr "NOT" -> skips r "AggregatedValueAmount").

(** What AIFM.py does with the amount of a principal-instrument row. *)
Definition instrument_amount_rule (PI : nat) (pi0 pi1 pi2 : value)
  (st : locals) : Prop :=
  let r := AIFM.instrument_row PI (pi0, pi1, pi2) st in
  (pi1 <> VStr "NTA_NTA_NOTA" ->
     (not_unsigned pi2 = true -> rejects_unsigned r "AggregatedValueAmount")
     /\ (forall n, pi2 = VInt n -> (0 <= n)%Z ->
         result r = inr tt
         /\ emits r (next_id st) "AggregatedValueAmount" (strip (z2s n))))
  /\ (pi1 = VStr "NTA_NTA_NOTA" -> skips r "AggregatedValueAmount").

(** What AIFM.py does with a non-empty AUMAmountInEuro. *)
Definition aum_euro_rule (CD : nat) (d : dict) (aum : value) (st : locals)
  : Prop :=
  let r := AIFM.aum_euro CD d st in
  (not_unsigned aum = true -> rejects_unsigned r "AUMAmountInEuro")
  /\ (forall n, aum = VInt n -> (0 <= n)%Z ->
      r = (inr tt, alloc st,
           [NewSubElement CD "AUMAmountInEuro";
            SetText (next_id st) (strip (z2s n))])).

(** What AIFM.py does with AUMAmountInBaseCurrency, [bc] being the base
    currency. *)
Definition aum_base_rule (CD : nat) (d : dict) (aum bc : value) (st : locals)
  : Prop :=
  let r := AIFM.base_currency CD d st in
  (truthy aum = true -> bc <> VStr "" ->
     (not_unsigned aum = true -> rejects_unsigned r "AUMAmountInBaseCurrency")
     /\ (forall n, aum = VInt n -> (0 < n)%Z ->
         emits r (next_id st) "AUMAmountInBaseCurrency" (strip (z2s n))))
  /\ (aum = VStr "" \/ bc = VStr "" ->
      skips r "AUMAmountInBaseCurrency").

(** Per-file isolation in [convert_to_xml]: whatever file fails, a later
    file that builds on its own is written. *)
Definition per_file_isolation : Prop :=
  forall (before after : list AIFM.File) (bad good : AIFM.File) (today : clock)
         (e : exn),
    (forall st now, result (AIFM.build (AIFM.df bad) now st) = inl e) ->
    In good after ->
    (forall st now, exists root,
        result (AIFM.build (AIFM.df good) now st) = inr root) ->
    In (Path.splitext (AIFM.path good) ++ ".xml")%string
       (written_paths (AIFM.convert_to_xml (before ++ bad :: after) today)).

(** What a batch does when the file after [before] fails with [e]: [evs]
    are the events of the files before it, [run] the events of the whole
    batch, [report] how the script reports [e]. *)
Definition stops_at_failure (evs run : list event) (report : event) : Prop :=
  exists dbg,
    run = evs ++ dbg ++ [report]
    /\ written dbg = []
    /\ filter is_report (evs ++ dbg) = [].

(** Two runs of [generateXML] on the same workbooks give the same documents
    once the creation-timestamp attribute is left out of the comparison. *)
Definition rerun_equal_up_to_timestamp : Prop :=
  forall (files : list OFK.File) (today1 today2 : clock),
    map erase_event (fst (OFK.generateXML files today1))
    = map erase_event (fst (OFK.generateXML files today2)).

(** The two clocks show the same year and month at every reading. *)
Definition same_month (today1 today2 : clock) : Prop :=
  forall n, year (today1 n) = year (today2 n)
            /\ month (today1 n) = month (today2 n).

(** Every empty field of rows 4-9 named: whichever of them is empty, the
    build of the AIF sheet ends in the EmptyValueError of that field. *)
Definition every_empty_field_named : Prop :=
  forall (t : AIF.table) (now : datetime) (st : locals) (k : string),
    (exists root, result (AIF.header t now st) = inr root) ->
    In (k, VStr "") (AIF.section 4 10 t) ->
    result (AIF.build t now st)
    = inl (EmptyValueError (k ++ " field cannot be empty!")).

(** A cell of rows 4-9 that is filled in and does not stop the loop: it is
    not the empty string and, under a date tag, it is a timestamp. *)
Definition filled (kv : string * value) : Prop :=
  snd kv <> VStr ""
  /\ (existsb (String.eqb (fst kv)) AIF.date_tags = true ->
      exists d, snd kv = VDate d).

(** Column [k] is one the arm [r] validates, given the columns [c] of the
    sheet. *)
Definition validated (r : OFK.rule) (c : list string) (k : string) : Prop :=
  OFK.selected (strip k) (OFK.int_cols r) c = inr true
  \/ (OFK.selected (strip k) (OFK.int_cols r) c = inr false
      /\ exists s, OFK.str_cols r = Some s
                   /\ OFK.selected (strip k) s c = inr true).

(** All cells of a record pass the arm [r]. *)
Definition record_passes (r : OFK.rule) (c : list string) (sheetname : string)
  (values : list (string * value)) : Prop :=
  OFK.check_record r c sheetname values = OFK.Pass.

(** In workbook [file], the cell of column [k] on sheet [sheetname] is
    empty, its column is validated, and it is the first cell at which the
    validation can stop: the sheets before its sheet pass, the records
    before its record pass, and so do the cells before it in its record. *)
Definition first_empty_cell (sheets : list OFK.Sheet) (k sheetname : string)
  : Prop :=
  exists pre_sheets data post_sheets r pre_recs pre_cells post_cells post_recs,
    sheets = pre_sheets ++ data :: post_sheets
    /\ sheetname = OFK.sheet data
    /\ Forall (fun d => OFK.check_sheet sheets d = OFK.Pass) pre_sheets
    /\ OFK.rule_for sheetname = Some r
    /\ OFK.frame data
       = pre_recs ++ (pre_cells ++ (k, VStr "") :: post_cells) :: post_recs
    /\ Forall (record_passes r (OFK.columns_to_validate sheets sheetname)
                 sheetname) pre_recs
    /\ record_passes r (OFK.columns_to_validate sheets sheetname) sheetname
         pre_cells
    /\ validated r (OFK.columns_to_validate sheets sheetname) k.

(** The two log lines of the EmptyValueError handler of OFKReport.py. *)
Definition empty_value_lines (file k sheetname : string) : list event :=
  [LogErrorMsg ("Error Ocurred in " ++ file ++ "!!!");
   LogErrorMsg ("Column " ++ OFK.dq ++ k ++ OFK.dq ++ " value of worksheet "
                ++ OFK.dq ++ sheetname ++ OFK.dq ++ " cannot be empty")].

(** The header check of a sheet passes: two header rows, and not "first
    value truthy, second empty". *)
Definition header_passes (rows : list (string * value)) : Prop :=
  exists h0 h1 more,
    rows = h0 :: h1 :: more /\ truthy (snd h0) && eqs (snd h1) "" = false.

(** The sheets of a workbook that [generateXML] validates and emits. *)
Definition dataframes (file : OFK.File) : list OFK.Sheet :=
  filter (fun d => negb (String.eqb (OFK.sheet d) "Formulierenoverzicht"))
    (OFK.sheets file).
(* ----------------------------------------------------------------- *)
(** ** The exceptions a builder can end in *)

(** Every exception the builder [m] can end in is accepted by [P]. *)
Definition raises_only {A} (P : exn -> bool) (m : M A) : Prop :=
  forall st e, result (m st) = inl e -> P e = true.



(* ----------------------------------------------------------------- *)
(** ** The batch drivers *)

(** The path [convert_to_xml] writes the document of a workbook to. *)
Definition AIFM_output (f : AIFM.File) : string :=
  (Path.splitext (AIFM.path f) ++ ".xml")%string.

Definition no_files : exn :=
  NoFilesFoundError
    "No excel files selected. Specify path to excel document and try again!".

(** The path [generateXML] writes the document of a workbook to. *)
Definition OFK_output (f : OFK.File) : string :=
  (Path.splitext (OFK.path f) ++ ".xml")%string.

(** The workbook passes the validation of lines 304-751. *)
Definition passes (f : OFK.File) : bool :=
  match OFK.validate (dataframes f) with OFK.Pass => true | _ => false end.

(** The sheet has a control tag in [subformRegeltag]. *)
Definition known_sheet (d : OFK.Sheet) : bool :=
  existsb (fun kv => String.eqb (fst kv) (OFK.sheet d)) OFK.subformRegeltag.

Definition is_log_line (e : event) : bool :=
  match e with LogErrorMsg _ => true | _ => false end.

(** The index of an [At] selector is below [n]. *)
Definition selector_below (n : nat) (s : OFK.selector) : bool :=
  match s with OFK.At i => (i <? n)%nat | OFK.Among _ => true end.

Definition rule_below (n : nat) (r : OFK.rule) : bool :=
  selector_below n (OFK.int_cols r)
  && match OFK.nonneg_cols r with Some s => selector_below n s | None => true end
  && match OFK.str_cols r with Some s => selector_below n s | None => true end.

(** The builder never raises. *)
Definition never_raises {A} (m : M A) : Prop := raises_only (fun _ => false) m.

(** A workbook with one sheet of a name [subformRegeltag] does not hold. *)
Definition ofk_unknown : OFK.File :=
  OFK.mkFile "nieuw.xlsx"
    [OFK.mkSheet "ZZ" "ZZ-NEW" ["Regel"; "Naam"; "Waarde"]
       [[("Regel", VInt 1); ("Naam", VStr "x"); ("Waarde", VInt 3)]]].

(* ----------------------------------------------------------------- *)
(** ** What a validated OFK workbook holds *)

(** The cell [v] of column [k] is as the arm [r] of the validation chain
    wants it, [c] being the Kolomtag columns of the sheet: an int in an int
    column, not negative where the arm asserts it (the assertion tests the
    column tag as it is, the other tests the tag stripped); a non-empty
    string in a string column, of two characters in column Land where the
    arm checks that. *)
Definition cell_ok (r : OFK.rule) (c : list string) (k : string) (v : value)
  : Prop :=
  (OFK.selected (strip k) (OFK.int_cols r) c = inr true ->
   exists n, v = VInt n
     /\ (forall s, OFK.nonneg_cols r = Some s ->
                   OFK.selected k s c = inr true -> (0 <= n)%Z))
  /\ (OFK.selected (strip k) (OFK.int_cols r) c = inr false ->
      forall s, OFK.str_cols r = Some s ->
                OFK.selected (strip k) s c = inr true ->
      exists t, v = VStr t /\ t <> ""
                /\ (OFK.land r = true -> strip k = "Land" ->
                    String.length t = 2%nat)).

(** Every cell of every sheet that an arm of the chain names is as the arm
    wants it. *)
Definition all_cells_ok (sheets : list OFK.Sheet) : Prop :=
  forall data r values k v,
    In data sheets ->
    OFK.rule_for (OFK.sheet data) = Some r ->
    In values (OFK.frame data) ->
    In (k, v) values ->
    cell_ok r (OFK.columns_to_validate sheets (OFK.sheet data)) k v.



(* ----------------------------------------------------------------- *)
(** ** Paths and stamps *)

(** [c in s] for a character. *)
Fixpoint contains (c : ascii) (s : string) : bool :=
  match s with
  | EmptyString => false
  | String d r => Ascii.eqb c d || contains c r
  end.

(* ----------------------------------------------------------------- *)
(** ** Section rules *)

(** Rows 10-13 of an AIF or AIFM sheet, [r] being the run of the block,
    [tag_q] the tag of the quarter and [freq], [cont], [q], [flag] the cells
    of the frequency code, the contents code, the quarter and the
    last-reporting flag.  The quarter is asked for when the frequency code
    is truthy or the contents code is not the empty string. *)
Definition quarter_rule (r : (exn + unit) * locals * list op) (RI : nat)
  (tag_q : string) (freq cont q flag : value) : Prop :=
  let announced := truthy freq || nes cont "" in
  (announced = true -> q = VStr "" ->
   result r = inl (EmptyValueError (tag_q ++ " field cannot be empty!")))
  /\ (announced = true -> q <> VStr "" -> emits r RI tag_q (strip (str q)))
  /\ (announced = false -> creates tag_q (calls r) = false)
  /\ (announced = false \/ q <> VStr "" ->
      (flag = VStr "" ->
       result r = inl (EmptyValueError "LastReportingFlag field cannot be empty!"))
      /\ (flag <> VStr "" ->
          result r = inr tt
          /\ emits r RI "LastReportingFlag" (strip (lower (str flag))))).

(** The calls that put the non-empty cells of [items] as leaves under [c],
    in order, [id] being the identity of the first element created. *)
Fixpoint leaves (c : nat) (items : dict) (id : nat) : list op :=
  match items with
  | [] => []
  | (k, v) :: r =>
      if nes v "" then
        NewSubElement c k :: SetText id (strip (str v)) :: leaves c r (S id)
      else leaves c r id
  end.

(** What the Python local [name] holds, if it is bound. *)
Definition bound_to (name : string) (st : locals) : option nat :=
  option_map snd (find (fun kv => String.eqb (fst kv) name) (vars st)).

(** ReportingMemberState and AIFNationalCode are both given or both
    left empty. *)
Definition state_and_code_agree (d : dict) : Prop :=
  exists rms anc,
    lookup d "ReportingMemberState" = Some rms
    /\ lookup d "AIFNationalCode" = Some anc
    /\ (rms = VStr "" <-> anc = VStr "").

(** Rows 48-53 of an AIF sheet, [r] being the run of the block from locals
    [st] and [b], [nav], [aum], [rate], [rt], [descr] the cells BaseCurrency
    (a text), AIFNetAssetValue, AUMAmountInBaseCurrency, FXEURRate,
    FXEURReferenceRateType (a text) and
    FXEUROtherReferenceRateDescription. *)
Definition AIF_currency_rule (r : (exn + unit) * locals * list op) (AD : nat)
  (st : locals) (b : string) (nav aum rate : value) (rt : string)
  (descr : value) : Prop :=
  let amount_missing := truthy (VStr b) && truthy nav && eqs aum "" in
  let euro := String.eqb (strip (upper b)) "EUR" in
  let rate_given := truthy rate && negb (String.eqb rt "") in
  let other := String.eqb (strip (upper rt)) "OTH" in
  (amount_missing = true ->
   r = (inl (EmptyValueError
               " AUMAmountInBaseCurrency, BaseCurrency & AIFNetAssetValue cannot be empty"),
        st, []))
  /\ (amount_missing = false ->
      emits r (next_id st) "BaseCurrency" (strip (upper b))
      /\ emits r (next_id st) "AUMAmountInBaseCurrency" (strip (str aum))
      /\ (euro = false -> rate_given = false ->
          result r = inl (EmptyValueError
                            " FXEURRate & FXEURReferenceRateType cannot be empty"))
      /\ (euro = true ->
          creates "FXEURRate" (calls r) = false
          /\ creates "FXEURReferenceRateType" (calls r) = false)
      /\ (euro = true \/ rate_given = true ->
          (other = true -> descr = VStr "" ->
           result r = inl (EmptyValueError
                             "FXEUROthReferenceRateDescription cannot be empty"))
          /\ (other = false \/ descr <> VStr "" ->
              result r = inr tt
              /\ (exists before id,
                     calls r = before ++ [NewSubElement AD "AIFNetAssetValue";
                                          SetText id (strip (str nav))])))).

(** Rows 41-44 of an AIF sheet, [r] being the run of the block from locals
    [st] and [status], [name], [rms], [anc] the cells
    AIFMasterFeederStatus, AIFName, ReportingMemberState and
    AIFNationalCode. *)
Definition AIF_master_rule (r : (exn + unit) * locals * list op) (AD : nat)
  (st : locals) (status name rms anc : value) : Prop :=
  ((forall s, status <> VStr s) ->
   result r = inl AttributeError
   /\ calls r = [NewSubElement AD "AIFMasterFeederStatus";
                 SetText (next_id st) (strip (upper (str status)))])
  /\ (forall s, status = VStr s ->
      let feeder := String.eqb (strip (upper s)) "FEEDER" in
      emits r AD "AIFMasterFeederStatus" (strip (upper s))
      /\ (feeder = false ->
          r = (inr tt, alloc st,
               [NewSubElement AD "AIFMasterFeederStatus";
                SetText (next_id st) (strip (upper s))]))
      /\ (feeder = true -> name = VStr "" ->
          result r = inl (EmptyValueError "Value required for AIFName field"))
      /\ (feeder = true -> name <> VStr "" -> rms <> VStr "" -> anc = VStr "" ->
          result r = inl (EmptyValueError
                            "Value is required for AIFNationalCode field"))
      /\ (feeder = true -> name <> VStr "" -> (rms = VStr "" \/ anc <> VStr "") ->
          result r = inr tt
          /\ emits r (2 + next_id st)%nat "AIFName" (strip (str name))
          /\ creates "ReportingMemberState" (calls r) = nes rms ""
          /\ creates "AIFNationalCode" (calls r) = nes anc "")).

(** One row r1..r3 of an AIF sheet, [r] being the run of the loop body from
    locals [st], [code] the code type of the row in upper case and
    stripped, and [ct], [mc], [amount] its cells XMLDescription, Input_1 and
    Input_2. *)
Definition AIF_market_rule (r : (exn + unit) * locals * list op)
  (st : locals) (ct mc amount : value) : Prop :=
  let code := strip (upper (str ct)) in
  let mic := String.eqb code "MIC" in
  let traded := negb (String.eqb code "NOT") in
  (forall msg, result r <> inl (DomainValueError msg))
  /\ (ct = VStr "" ->
      result r = inl (EmptyValueError "MarketIdentification cannot be empty"))
  /\ (ct <> VStr "" ->
      emits r (2 + next_id st)%nat "MarketCodeType" code
      /\ (mic = true -> mc = VStr "" ->
          result r = inl (EmptyValueError "MarketCode cannot be empty"))
      /\ (mic = false \/ mc <> VStr "" ->
          creates "MarketCode" (calls r) = mic
          /\ (traded = true -> amount = VStr "" ->
              result r = inl (EmptyValueError "MarketCode cannot be empty"))
          /\ (traded = true -> amount <> VStr "" ->
              result r = inr tt
              /\ emits r (next_id st) "AggregatedValueAmount"
                   (strip (str amount)))
          /\ (traded = false ->
              result r = inr tt
              /\ creates "AggregatedValueAmount" (calls r) = false))).

(* ================================================================= *)
(** ** The schema validation: [validate_XML_AIF], [validate_XML_AIFM] and
    [validate_XML_OFKFiles] *)

Module Validate.

Section Lxml.

(** The two calls into lxml: [LT.parse(file)], and
    [LT.XMLSchema(file=xsd).validate(tree)], which loads the schema anew
    for every file.  Either can raise an [error] of lxml. *)
Variables (tree error : Type).
Variable parse : string -> error + tree.
Variable schema_validate : string -> tree -> error + bool.

(** What the loop logs for a file, given the verdict of the schema. *)
Definition verdict (file : string) (is_valid : bool) : event :=
  if is_valid then Debug (file ++ " has successfully been validated!")
  else LogErrorMsg ("Validation for " ++ file ++ " was unsuccessful!").

(** The loop [for file in files]; nothing catches an error of lxml. *)
Fixpoint validate_XML (xsd : string) (files : list string)
  : list event * option error :=
  match files with
  | [] => ([], None)
  | file :: rest =>
      match parse file with
      | inl e => ([], Some e)
      | inr xml_file =>
          match schema_validate xsd xml_file with
          | inl e => ([], Some e)
          | inr is_valid =>
              let (evs, e) := validate_XML xsd rest in
              (verdict file is_valid :: evs, e)
          end
      end
  end.

(** AIF.py, lines 734-742. *)
Definition validate_XML_AIF : list string -> list event * option error :=
  validate_XML "AIFMD_DATAIF_V1.2.xsd".

(** AIFM.py, lines 413-421. *)
Definition validate_XML_AIFM : list string -> list event * option error :=
  validate_XML "AIFMD_DATMAN_V1.2.xsd".

(** OFKReport.py, lines 802-810. *)
Definition validate_XML_OFKFiles : list string -> list event * option error :=
  validate_XML "OFK-K.2020-03.xsd".

(** The verdict on a file that lxml can read, if it can. *)
Definition checked (xsd file : string) : option bool :=
  match parse file with
  | inl _ => None
  | inr xml_file =>
      match schema_validate xsd xml_file with
      | inl _ => None
      | inr is_valid => Some is_valid
      end
  end.

(** The line logged for a document lxml can read. *)
Definition logged_verdict (xsd file : string) : event :=
  verdict file (match checked xsd file with Some b => b | None => false end).

End Lxml.

End Validate.

(* ================================================================= *)
(** ** OFKReport.py, lines 238-294: the columns no value may be given for *)

Module Blocked.

(** The chain of lines 238-294: the sheets of an arm and the positions it
    hands to [df.columns[...]].  The first arm drops [df.columns[-1]], the
    others [df.columns[[...]]]. *)
Definition blocked : list (list string * list Z) := [
  (["AD-C"; "PD-C"], [-1]);
  (["AEB-A"; "AEN-A"], [1; 11; 12; 13; 14; 15; 16]);
  (["AEB-AI"], [2; 3; 7; 8; 11; 12; 13; 14; 15; 16]);
  (["AEB-G"; "AEB-K"; "AEN-G"; "AEN-K"], [1; 17]);
  (["AEB-KGI"], [2; 3; 7; 8; 11; 12; 15; 16; 17]);
  (["AEN-AI"], [3; 7; 8; 11; 12; 13; 14; 15; 16]);
  (["AEN-KGI"], [3; 7; 8; 11; 12; 15; 16; 17]);
  (["AO-FL"; "AO-HL"; "AO-LK"; "AO-LL"; "AO-RP"], [13]);
  (["AO-HY"], [2; 13]);
  (["AO-OK"; "AO-OL"], [10; 11; 13; 14; 15]);
  (["AO-RC"], [10; 11; 14; 15]);
  (["D-FB"], [1; 3; 4; 7; 8; 9; 10]);
  (["D-OK"; "D-OS"], [1; 7; 8]);
  (["D-OTR"; "D-OTV"], [1; 8; 9]);
  (["PEN-A"], [1; 10; 11; 12; 13; 14; 15]);
  (["PEN-AI"], [6; 7; 10; 11; 12; 13; 14; 15]);
  (["PEN-KGI"], [6; 7; 10; 11; 14; 15; 16]);
  (["PEN-G"; "PEN-K"], [1; 16]);
  (["PO-OK"; "PO-OL"], [10; 11; 12; 14; 15]);
  (["PV-OV"], [1; 2]);
  (["PO-FL"; "PO-HL"; "PO-LK"; "PO-LL"; "PO-RP"], [12]);
  (["WVA-B"], [1]);
  (["WVB-B"; "WVB-L"; "WVB-S"], [1; 3])
]%Z.

(** The positions of the arm that names the sheet, none if no arm does. *)
Definition positions (sheetname : string) : list Z :=
  match find (fun arm => existsb (String.eqb sheetname) (fst arm)) blocked with
  | Some arm => snd arm
  | None => []
  end.

(** [df.columns[p]]: a negative position counts from the end; a position
    outside the columns raises IndexError. *)
Definition label_at (columns : list string) (p : Z) : exn + string :=
  let n := Z.of_nat (List.length columns) in
  let i := if (p <? 0)%Z then (p + n)%Z else p in
  if ((0 <=? i) && (i <? n))%Z then
    match nth_error columns (Z.to_nat i) with
    | Some l => inr l
    | None => inl IndexError
    end
  else inl IndexError.

(** [df.columns[[p1, p2, ...]]] *)
Fixpoint labels_at (columns : list string) (ps : list Z) : exn + list string :=
  match ps with
  | [] => inr []
  | p :: rest =>
      match label_at columns p with
      | inl e => inl e
      | inr l =>
          match labels_at columns rest with
          | inl e => inl e
          | inr ls => inr (l :: ls)
          end
      end
  end.

(** [df.drop(labels, axis=1)] on one row of the frame: every cell whose
    column label is one of [labels] goes. *)
Definition drop (labels : list string) (row : list (string * value))
  : list (string * value) :=
  filter (fun kv => negb (existsb (String.eqb (fst kv)) labels)) row.

(** Lines 238-294 for one sheet: [columns] are its Kolomtag columns (what
    line 235 keeps for the validation), [rows] its data rows, a cell for
    every column.  The result is the frame of line 301. *)
Definition block (sheetname : string) (columns : list string)
  (rows : list (list (string * value))) : exn + list (list (string * value)) :=
  match labels_at columns (positions sheetname) with
  | inl e => inl e
  | inr labels => inr (map (drop labels) rows)
  end.

(** Position [p] points into [n] columns. *)
Definition in_range (n : nat) (p : Z) : bool :=
  ((- Z.of_nat n <=? p) && (p <? Z.of_nat n))%Z.

End Blocked.

(* ================================================================= *)
(** ** Reading the first two levels of a document off the calls *)

Module Outline.

(** A form element: its identity, its tag and the tags of its children so
    far. *)
Definition form : Type := nat * string * list string.

Definition id (f : form) : nat := fst (fst f).
Definition name (f : form) : string := snd (fst f).
Definition named (f : form) : string * list string := (snd (fst f), snd f).

(** One ElementTree call, [n] being the identity the next element gets: a
    child of [root] is a new form, a child of a form is added to it. *)
Definition step (root : nat) (s : nat * list form) (o : op) : nat * list form :=
  let (n, forms) := s in
  match o with
  | NewElement _ => (S n, forms)
  | NewSubElement p t =>
      if Nat.eqb p root then (S n, forms ++ [(n, t, [])])
      else (S n, map (fun f => if Nat.eqb (id f) p
                               then (fst f, snd f ++ [t]) else f) forms)
  | _ => (n, forms)
  end.

Definition from (root : nat) (s : nat * list form) (ops : list op)
  : nat * list form :=
  fold_left (step root) ops s.

(** The children of [root] in the order of their creation, each with the
    tags of its own children, for calls whose first element gets the
    identity [n]. *)
Definition outline (root n : nat) (ops : list op)
  : list (string * list string) :=
  map named (snd (from root (n, []) ops)).

(** Adding a sheet to the form that was created last. *)
Fixpoint add_to_last (acc : list (string * list string)) (s : string)
  : list (string * list string) :=
  match acc with
  | [] => []
  | [(n, ss)] => [(n, ss ++ [s])]
  | x :: rest => x :: add_to_last rest s
  end.

(** Where lines 773-794 of OFKReport.py put the sheets, by name: a form
    name seen for the first time opens a form, a form name seen before adds
    the sheet to the form opened last. *)
Fixpoint grouped (acc : list (string * list string)) (dataframes : list OFK.Sheet)
  : list (string * list string) :=
  match dataframes with
  | [] => acc
  | data :: rest =>
      grouped
        (if existsb (String.eqb (OFK.formName data)) (map fst acc)
         then add_to_last acc (OFK.sheet data)
         else acc ++ [(OFK.formName data, [OFK.sheet data])])
        rest
  end.

(** The identity of the form created last. *)
Definition last_id (forms : list form) : option nat :=
  match rev forms with
  | [] => None
  | f :: _ => Some (id f)
  end.

(** A computation that leaves the forms as they are: whatever it creates
    is below the second level, when it starts with identities from [bound]
    on. *)
Definition quiet {A} (root : nat) (forms : list form) (bound : nat) (m : M A)
  : Prop :=
  forall st, bound <= next_id st ->
    next_id st <= next_id (final (m st))
    /\ from root (next_id st, forms) (calls (m st))
       = (next_id (final (m st)), forms).

End Outline.


(* ================================================================= *)
(** * Properties *)

(** ** The monad *)

Lemma bind_ok {A B} (m : M A) (k : A -> M B) st a st1 o1 :
  m st = (inr a, st1, o1) ->
  bind m k st = (result (k a st1), final (k a st1), o1 ++ calls (k a st1)).
Proof.
  intros H. unfold bind. rewrite H. destruct (k a st1) as [[r s2] o2].
  reflexivity.
Qed.

Lemma bind_raise {A B} (m : M A) (k : A -> M B) st e st1 o1 :
  m st = (inl e, st1, o1) -> bind m k st = (inl e, st1, o1).
Proof. intros H. unfold bind. rewrite H. reflexivity. Qed.

Lemma bind_result_raise {A B} (m : M A) (k : A -> M B) st e :
  result (m st) = inl e -> result (bind m k st) = inl e.
Proof.
  unfold bind, result. destruct (m st) as [[[e'|a] s1] o1]; simpl.
  - intros H; inversion H; reflexivity.
  - intros H; discriminate H.
Qed.

Lemma bind_result_ok {A B} (m : M A) (k : A -> M B) st a :
  result (m st) = inr a ->
  result (bind m k st) = result (k a (final (m st))).
Proof.
  unfold bind, result, final. destruct (m st) as [[[e'|a'] s1] o1]; simpl.
  - intros H; discriminate H.
  - intros H. inversion H. subst. destruct (k a s1) as [[r s2] o2]. reflexivity.
Qed.

Ltac run :=
  cbv [bind ret raise when leaf emit Element SubElement set_text set_attr print
       index getitem get_var set_var date_of len as_str result final calls alloc];
  cbn [fst snd app nth_error find next_id vars].

(** ** Python comparisons *)

Lemma eqs_true (v : value) (s : string) : eqs v s = true <-> v = VStr s.
Proof.
  unfold eqs. destruct v; simpl; split; intros H; try discriminate.
  - apply String.eqb_eq in H. congruence.
  - inversion H. apply String.eqb_refl.
Qed.

Lemma nes_true (v : value) (s : string) : nes v s = true <-> v <> VStr s.
Proof.
  unfold nes. rewrite negb_true_iff. split.
  - intros H E. apply eqs_true in E. congruence.
  - intros H. destruct (eqs v s) eqn:E; [|reflexivity].
    apply eqs_true in E. contradiction.
Qed.

Lemma nes_false (v : value) (s : string) : nes v s = false <-> v = VStr s.
Proof. unfold nes. rewrite negb_false_iff. apply eqs_true. Qed.

Lemma truthy_str (s : string) : truthy (VStr s) = true <-> s <> "".
Proof.
  simpl. rewrite negb_true_iff. split.
  - intros H E. subst. discriminate.
  - intros H. destruct (String.eqb s "") eqn:E; [|reflexivity].
    apply String.eqb_eq in E. contradiction.
Qed.


(** ** Stepping through a builder *)

Lemma run_eta {A} (r : (exn + A) * locals * list op) :
  r = (result r, final r, calls r).
Proof. destruct r as [[x s] o]. reflexivity. Qed.

Lemma bind_ret {A B} (a : A) (k : A -> M B) st : bind (ret a) k st = k a st.
Proof.
  unfold bind, ret. destruct (k a st) as [[r s] o]. reflexivity.
Qed.

Lemma bind_SubElement {B} p tg (k : nat -> M B) st :
  bind (SubElement p tg) k st
  = (result (k (next_id st) (alloc st)), final (k (next_id st) (alloc st)),
     NewSubElement p tg :: calls (k (next_id st) (alloc st))).
Proof.
  unfold bind, SubElement, alloc.
  destruct (k (next_id st) _) as [[r s] o]. reflexivity.
Qed.

Lemma bind_leaf {B} p tg s (k : unit -> M B) st :
  bind (leaf p tg s) k st
  = (result (k tt (alloc st)), final (k tt (alloc st)),
     NewSubElement p tg :: SetText (next_id st) s :: calls (k tt (alloc st))).
Proof.
  unfold leaf, bind, SubElement, set_text, emit, alloc. cbn [app].
  destruct (k tt _) as [[r s'] o]. reflexivity.
Qed.

Lemma bind_getitem {B} (d : dict) key v (k : value -> M B) st :
  option_map snd (find (fun kv => String.eqb (fst kv) key) d) = Some v ->
  bind (getitem d key) k st = k v st.
Proof.
  intros H. unfold bind, getitem.
  destruct (find (fun kv => String.eqb (fst kv) key) d) as [kv|];
    [|discriminate H].
  simpl in H. inversion H; subst. unfold ret.
  destruct (k (snd kv) st) as [[r s] o]. reflexivity.
Qed.

Lemma bind_when_false {B} (m : M unit) (k : unit -> M B) st :
  bind (when false m) k st = k tt st.
Proof. unfold when. apply bind_ret. Qed.

(* ----------------------------------------------------------------- *)
(** ** The heap is a forest, and [document] reads whole trees *)

Lemma update_length h id f : List.length (update h id f) = List.length h.
Proof.
  revert id. induction h as [|n h IH]; intros [|id]; cbn [update List.length];
    try reflexivity.
  rewrite IH. reflexivity.
Qed.

Lemma nth_error_update h id f i :
  nth_error (update h id f) i
  = if Nat.eqb i id then option_map f (nth_error h i) else nth_error h i.
Proof.
  revert id i. induction h as [|n h IH]; intros id i.
  - destruct i, id; cbn [update nth_error option_map];
      try reflexivity; destruct (Nat.eqb _ _); reflexivity.
  - destruct id as [|id], i as [|i]; cbn [update nth_error Nat.eqb option_map];
      try reflexivity.
    apply IH.
Qed.

Lemma well_formed_nil : well_formed [].
Proof. intros [|i] nd H; discriminate H. Qed.

Lemma well_formed_weaken h i nd extra :
  well_formed h -> nth_error h i = Some nd ->
  Forall (fun c => (i < c < List.length h + extra)%nat) (children nd).
Proof.
  intros W H. eapply Forall_impl; [|exact (W i nd H)].
  cbn. intros c Hc. lia.
Qed.

Lemma well_formed_snoc h nd :
  well_formed h -> children nd = [] -> well_formed (h ++ [nd]).
Proof.
  intros W Hc i nd' H. rewrite length_app. cbn [List.length].
  destruct (Nat.lt_ge_cases i (List.length h)) as [Hi|Hi].
  - rewrite nth_error_app1 in H by exact Hi.
    apply well_formed_weaken; assumption.
  - rewrite nth_error_app2 in H by exact Hi.
    destruct (i - List.length h)%nat as [|j]; cbn in H.
    + inversion H; subst. rewrite Hc. constructor.
    + destruct j; discriminate H.
Qed.

Lemma apply_op_well_formed h o : well_formed h -> well_formed (apply_op h o).
Proof.
  intros W. destruct o as [t|p t|id s|id k v|s]; cbn [apply_op].
  - apply well_formed_snoc; [exact W|reflexivity].
  - intros i nd H. rewrite length_app, update_length. cbn [List.length].
    destruct (Nat.lt_ge_cases i (List.length h)) as [Hi|Hi].
    + rewrite nth_error_app1 in H by (rewrite update_length; exact Hi).
      rewrite nth_error_update in H.
      destruct (Nat.eqb i p) eqn:E.
      * destruct (nth_error h i) as [n0|] eqn:E0; [|discriminate H].
        cbn in H. inversion H; subst. cbn [add_child children].
        apply Forall_app. split.
        -- apply well_formed_weaken; assumption.
        -- constructor; [lia|constructor].
      * apply well_formed_weaken; assumption.
    + rewrite nth_error_app2 in H by (rewrite update_length; exact Hi).
      rewrite update_length in H.
      destruct (i - List.length h)%nat as [|j]; cbn in H.
      * inversion H; subst. constructor.
      * destruct j; discriminate H.
  - intros i nd H. rewrite update_length. rewrite nth_error_update in H.
    destruct (Nat.eqb i id).
    + destruct (nth_error h i) as [n0|] eqn:E0; [|discriminate H].
      cbn in H. inversion H; subst. cbn [put_text children]. apply (W i n0 E0).
    + apply (W i nd H).
  - intros i nd H. rewrite update_length. rewrite nth_error_update in H.
    destruct (Nat.eqb i id).
    + destruct (nth_error h i) as [n0|] eqn:E0; [|discriminate H].
      cbn in H. inversion H; subst. cbn [put_attr children]. apply (W i n0 E0).
    + apply (W i nd H).
  - exact W.
Qed.

Lemma replay_well_formed ops : forall h,
  well_formed h -> well_formed (replay h ops).
Proof.
  induction ops as [|o ops IH]; intros h W.
  - exact W.
  - unfold replay. cbn [fold_left]. apply IH. apply apply_op_well_formed.
    exact W.
Qed.

(** In a well-formed heap the tree below [id] is reached with any fuel of
    at least [length h - id]: more fuel changes nothing. *)
Lemma tree_of_enough h :
  well_formed h ->
  forall fuel fuel' id,
    (List.length h - id <= fuel)%nat -> (List.length h - id <= fuel')%nat ->
    tree_of fuel h id = tree_of fuel' h id.
Proof.
  intros W. induction fuel as [|fuel IH]; intros fuel' id H H'.
  - assert (Hn : nth_error h id = None) by (apply nth_error_None; lia).
    destruct fuel'; cbn [tree_of]; [reflexivity|]. rewrite Hn. reflexivity.
  - destruct fuel' as [|fuel'].
    + assert (Hn : nth_error h id = None) by (apply nth_error_None; lia).
      cbn [tree_of]. rewrite Hn. reflexivity.
    + cbn [tree_of]. destruct (nth_error h id) as [nd|] eqn:E; [|reflexivity].
      f_equal. apply map_ext_in. intros c Hc.
      pose proof (W id nd E) as Hall. rewrite Forall_forall in Hall.
      specialize (Hall c Hc). apply IH; lia.
Qed.

(** The heap a batch builds is well formed, so [document] returns the whole
    tree under the root: giving it more fuel than the size of the heap
    yields the same document. *)
Lemma document_is_whole ops root extra :
  document (replay [] ops) root
  = tree_of (List.length (replay [] ops) + extra) (replay [] ops) root.
Proof.
  unfold document. apply tree_of_enough.
  - apply replay_well_formed. apply well_formed_nil.
  - lia.
  - lia.
Qed.

(* ----------------------------------------------------------------- *)
(** ** The header check (lines 124-138 of AIF.py, 134-148 of AIFM.py) *)

Section HeaderCheck.

Variables (tag0 tag1 : string) (v0 v1 : value) (more : list (string * value)).

Lemma AIFM_header_spec (t : AIFM.table) (now : datetime) (st : locals) :
  AIFM.tag_input (AIFM.rows_with_id (str_range 1 4) t)
    = (tag0, v0) :: (tag1, v1) :: more ->
  AIFM.header t now st =
    if truthy v0 && eqs v1 "" then
      (inl (EmptyValueError
              (" " ++ tag0 ++ " and " ++ tag1 ++ " fields cannot be empty! ")),
       st, [])
    else
      (inr (next_id st), alloc st,
       [NewElement "AIFMReportingInfo";
        SetAttr (next_id st) "xsi:noNamespaceSchemaLocation" "AIFMD_DATMAN_V1.2.xsd";
        SetAttr (next_id st) "CreationDateAndTime" (AIFM.strftime now);
        SetAttr (next_id st) tag0 (strip (str v0));
        SetAttr (next_id st) tag1 (strip (str v1));
        SetAttr (next_id st) "xmlns:xsi" "http://www.w3.org/2001/XMLSchema-instance"]).
Proof.
  intros H. unfold AIFM.header. rewrite H. run.
  destruct (truthy v0); destruct (eqs v1 ""); reflexivity.
Qed.

Lemma AIF_header_spec (t : AIF.table) (now : datetime) (st : locals) :
  AIF.tag_input (AIF.rows_with_id (str_range 1 4) t)
    = (tag0, v0) :: (tag1, v1) :: more ->
  AIF.header t now st =
    if truthy v0 && eqs v1 "" then
      (inl (EmptyValueError
              (tag0 ++ " and " ++ tag1 ++ " fields cannot be empty!")),
       st, [])
    else
      (inr (next_id st), alloc st,
       [NewElement "AIFReportingInfo";
        SetAttr (next_id st) "xsi:noNamespaceSchemaLocation" "AIFMD_DATAIF_V1.2.xsd";
        SetAttr (next_id st) "CreationDateAndTime" (AIF.strftime now);
        SetAttr (next_id st) tag0 (strip (str v0));
        SetAttr (next_id st) tag1 (strip (str v1));
        SetAttr (next_id st) "xmlns:xsi" "http://www.w3.org/2001/XMLSchema-instance"]).
Proof.
  intros H. unfold AIF.header. rewrite H. run.
  destruct (truthy v0); destruct (eqs v1 ""); reflexivity.
Qed.

End HeaderCheck.

(** Both header specifications have the shape [header_behaviour] asks for. *)
Lemma header_behaviour_of_spec (r : (exn + nat) * locals * list op)
  (h0 h1 : string * value) (st : locals) (msg root_tag xsd stamp : string) :
  r = (if truthy (snd h0) && eqs (snd h1) "" then
         (inl (EmptyValueError msg), st, [])
       else
         (inr (next_id st), alloc st,
          [NewElement root_tag;
           SetAttr (next_id st) "xsi:noNamespaceSchemaLocation" xsd;
           SetAttr (next_id st) "CreationDateAndTime" stamp;
           SetAttr (next_id st) (fst h0) (strip (str (snd h0)));
           SetAttr (next_id st) (fst h1) (strip (str (snd h1)));
           SetAttr (next_id st) "xmlns:xsi"
             "http://www.w3.org/2001/XMLSchema-instance"])) ->
  header_behaviour r h0 h1 st.
Proof.
  intros ->. unfold header_behaviour.
  destruct (truthy (snd h0)) eqn:T; destruct (eqs (snd h1) "") eqn:Q;
    cbn [andb result calls fst snd].
  - apply eqs_true in Q. split.
    + split; [intros _; now split | intros _; now exists msg].
    + discriminate.
  - split; [|discriminate]. split.
    + intros [m H]. discriminate H.
    + intros [_ H]. apply eqs_true in H. congruence.
  - split.
    + split; [intros [m H]; discriminate H | intros [H _]; discriminate H].
    + intros _. split; [reflexivity|]. split; simpl; tauto.
  - split.
    + split; [intros [m H]; discriminate H | intros [H _]; discriminate H].
    + intros _. split; [reflexivity|]. split; simpl; tauto.
Qed.

(** C10, as stated, fails on a numeric zero: the first header value is not
    empty, the second is, and no error is raised. *)
Lemma header_check_zero_first_value : ~ header_check_on_emptiness.
Proof.
  intros claim.
  assert (H := claim [Samples.m "ReportingMemberState" "1" (VInt 0);
                      Samples.m "Version" "2" (VStr "")]
                     Samples.jan1 init_locals
                     "ReportingMemberState" (VInt 0) "Version" (VStr "") []
                     eq_refl).
  destruct H as [_ H].
  destruct H as [msg H]; [split; [discriminate | reflexivity]|].
  vm_compute in H. discriminate H.
Qed.

(** C10 (amended): with two header rows present, the check of AIF.py and of
    AIFM.py raises EmptyValueError exactly when the first header value is
    truthy (a non-empty string, a non-zero number, True, a timestamp) and the
    second is the empty string; when the first value is falsy (the empty
    string included, whatever the second is) the root element is created and
    both values are set on it as attributes. *)
Theorem header_check_truthy :
  forall (ta : AIF.table) (tm : AIFM.table) (now : datetime) (st : locals)
         (a0 a1 m0 m1 : string * value) (amore mmore : list (string * value)),
    AIF.tag_input (AIF.rows_with_id (str_range 1 4) ta) = a0 :: a1 :: amore ->
    AIFM.tag_input (AIFM.rows_with_id (str_range 1 4) tm) = m0 :: m1 :: mmore ->
    header_behaviour (AIF.header ta now st) a0 a1 st
    /\ header_behaviour (AIFM.header tm now st) m0 m1 st.
Proof.
  intros ta tm now st [at0 av0] [at1 av1] [mt0 mv0] [mt1 mv1] amore mmore Ha Hm.
  split.
  - eapply header_behaviour_of_spec with (h0 := (at0, av0)) (h1 := (at1, av1)).
    cbn [fst snd]. exact (@AIF_header_spec at0 at1 av0 av1 amore ta now st Ha).
  - eapply header_behaviour_of_spec with (h0 := (mt0, mv0)) (h1 := (mt1, mv1)).
    cbn [fst snd]. exact (@AIFM_header_spec mt0 mt1 mv0 mv1 mmore tm now st Hm).
Qed.

Lemma header_check_truthy_witness :
  header_behaviour (AIF.header Samples.aif_ok Samples.jan1 init_locals)
    ("ReportingMemberState", VStr "NL") ("Version", VStr "1.2") init_locals
  /\ header_behaviour
       (AIFM.header
          (Samples.aifm (VStr "") (VStr "") Samples.E Samples.E
             Samples.five_markets (VInt 1000) (VStr "EUR") Samples.E Samples.E
             Samples.E)
          Samples.jan1 init_locals)
       ("ReportingMemberState", VStr "") ("Version", VStr "") init_locals.
Proof.
  apply (header_check_truthy Samples.aif_ok
           (Samples.aifm (VStr "") (VStr "") Samples.E Samples.E
              Samples.five_markets (VInt 1000) (VStr "EUR") Samples.E Samples.E
              Samples.E)
           Samples.jan1 init_locals
           ("ReportingMemberState", VStr "NL") ("Version", VStr "1.2")
           ("ReportingMemberState", VStr "") ("Version", VStr "")
           [("CreationDateAndTime", VStr "")] [("CreationDateAndTime", VStr "")]);
    reflexivity.
Defined.

(* ----------------------------------------------------------------- *)
(** ** The principal markets of AIFM.py (lines 262-311) *)



Lemma ranks_at (counter : nat) :
  (counter < 5)%nat ->
  nth_error AIFM.ranks counter = Some (Z.of_nat counter + 1)%Z.
Proof.
  intros H. do 5 (destruct counter as [|counter]; [reflexivity|]). lia.
Qed.

Lemma market_row_good_code PM pm0 pm1 pm2 counter st :
  in_strs pm0 AIFM.market_codes = true ->
  (counter < 5)%nat ->
  (forall msg, result (AIFM.market_row PM (pm0, pm1, pm2) counter st)
               <> inl (DomainValueError msg))
  /\ exists rest,
       calls (AIFM.market_row PM (pm0, pm1, pm2) counter st)
       = market_row_prefix PM pm0 counter st ++ rest.
Proof.
  intros H Hc. unfold AIFM.market_row, market_row_prefix. rewrite H.
  run. rewrite (ranks_at counter Hc). cbn [fst snd app].
  destruct (eqs pm0 "MIC") eqn:Hm; cbn [andb].
  - destruct (eqs pm1 "") eqn:H1; cbn [fst snd app].
    + split; [intros msg E; discriminate E | eexists; reflexivity].
    + destruct pm1 as [s| | | |]; cbn [fst snd app];
        try (split; [intros msg E; discriminate E | eexists; reflexivity]).
      destruct (4 <? String.length s)%nat; cbn [fst snd app];
        try (split; [intros msg E; discriminate E | eexists; reflexivity]).
      destruct (nes pm0 "NOT"); cbn [fst snd app];
        [destruct (not_unsigned pm2)|]; cbn [fst snd app];
        (split; [intros msg E; discriminate E | eexists; reflexivity]).
  - destruct (nes pm0 "NOT"); cbn [fst snd app];
      [destruct (not_unsigned pm2)|]; cbn [fst snd app];
      (split; [intros msg E; discriminate E | eexists; reflexivity]).
Qed.

Lemma not_unsigned_false (v : value) :
  not_unsigned v = false <-> exists n, v = VInt n /\ (0 <= n)%Z.
Proof.
  unfold not_unsigned. destruct v; simpl; split; intros H;
    try discriminate; try (destruct H as [n [H _]]; discriminate).
  - exists n. split; [reflexivity|]. apply Z.ltb_ge. exact H.
  - destruct H as [m [H Hm]]. inversion H; subst. apply Z.ltb_ge. exact Hm.
Qed.

(** The whole of a market row whose code is accepted and whose MarketCode
    checks pass. *)
Lemma market_row_spec PM pm0 pm1 pm2 counter st :
  in_strs pm0 AIFM.market_codes = true ->
  (counter < 5)%nat ->
  market_code_ok pm0 pm1 = true ->
  AIFM.market_row PM (pm0, pm1, pm2) counter st =
    let id := next_id st in
    let mic := eqs pm0 "MIC" in
    let code := if mic then [NewSubElement (S (S id)) "MarketCode";
                             SetText (4 + id) (strip (str pm1))] else [] in
    let n := ((if mic then 5 else 4) + id)%nat in
    if nes pm0 "NOT" then
      if not_unsigned pm2 then
        (inl (UnassinedIntegerError
           "AggregatedValueAmount must be not contain decimals & should not be a negative number. Check value in row 32-36 column D"),
         mkLocals n (vars st), market_row_prefix PM pm0 counter st ++ code)
      else
        (inr tt, mkLocals (S n) (vars st),
         market_row_prefix PM pm0 counter st ++ code
           ++ [NewSubElement id "AggregatedValueAmount";
               SetText n (strip (str pm2))])
    else
      (inr tt, mkLocals n (vars st), market_row_prefix PM pm0 counter st ++ code).
Proof.
  intros H Hc Hok. unfold AIFM.market_row, market_row_prefix, market_code_ok in *.
  rewrite H. run. rewrite (ranks_at counter Hc). cbn [fst snd app].
  destruct (eqs pm0 "MIC") eqn:Hm; cbn [andb].
  - destruct pm1 as [s| | | |]; try discriminate Hok.
    apply andb_prop in Hok. destruct Hok as [Hne Hlen].
    unfold eqs at 1. cbn [Py.eq]. apply negb_true_iff in Hne. rewrite Hne.
    cbn [fst snd app].
    replace (4 <? String.length s)%nat with false
      by (symmetry; apply Nat.ltb_ge; apply Nat.leb_le; exact Hlen).
    cbn [fst snd app].
    destruct (nes pm0 "NOT"); cbn [fst snd app];
      [destruct (not_unsigned pm2)|]; reflexivity.
  - destruct (nes pm0 "NOT"); cbn [fst snd app];
      [destruct (not_unsigned pm2)|]; reflexivity.
Qed.

Lemma markets_loop_app PM pre rest counter st :
  result (AIFM.markets_loop PM pre counter st) = inr tt ->
  let st' := final (AIFM.markets_loop PM pre counter st) in
  let r := AIFM.markets_loop PM rest (counter + List.length pre) st' in
  AIFM.markets_loop PM (pre ++ rest) counter st
  = (result r, final r, calls (AIFM.markets_loop PM pre counter st) ++ calls r).
Proof.
  revert counter st. induction pre as [|pm pre IH]; intros counter st H.
  - cbn. rewrite Nat.add_0_r.
    destruct (AIFM.markets_loop PM rest counter st) as [[r s] o]. reflexivity.
  - cbn [app AIFM.markets_loop List.length] in *.
    unfold bind in *.
    destruct (AIFM.market_row PM pm counter st) as [[[e|[]] s1] o1];
      [discriminate H|].
    specialize (IH (S counter) s1).
    destruct (AIFM.markets_loop PM pre (S counter) s1) as [[[e|[]] s2] o2] eqn:E;
      [discriminate H|].
    specialize (IH eq_refl). cbn zeta in IH. rewrite IH.
    unfold result, final, calls. cbn [fst snd].
    replace (counter + S (List.length pre))%nat
      with (S counter + List.length pre)%nat by lia.
    rewrite app_assoc. reflexivity.
Qed.






Lemma calls_bind {A B} (m : M A) (k : A -> M B) st :
  calls (bind m k st)
  = calls (m st) ++ match result (m st) with
                    | inr a => calls (k a (final (m st)))
                    | inl _ => []
                    end.
Proof.
  unfold bind, calls, result, final.
  destruct (m st) as [[[e|a] s1] o1]; cbn [fst snd].
  - rewrite app_nil_r. reflexivity.
  - destruct (k a s1) as [[r s2] o2]. reflexivity.
Qed.

(** C8, as stated, fails when the rows '1st' and '2nd' are exchanged in the
    sheet: the row '2nd' (code XXX) is written with Ranking 1. *)
Lemma ranking_ignores_identifier : ~ ranked_by_identifier.
Proof.
  intros claim.
  destruct (document_of (AIFM.build Samples.aifm_swapped Samples.jan1 init_locals))
    as [doc|] eqn:D; [|vm_compute in D; discriminate D].
  assert (H := claim Samples.aifm_swapped Samples.jan1 doc
                 (Samples.market "2nd" "XXX" Samples.E (VInt 50)) 1%nat D).
  assert (Hin : In (Samples.market "2nd" "XXX" Samples.E (VInt 50))
                   (AIFM.rows_with_id AIFM.principalMRows Samples.aifm_swapped))
    by (vm_compute; tauto).
  specialize (H Hin eq_refl).
  vm_compute in D. inversion D; subst doc. clear D.
  vm_compute in H.
  repeat (destruct H as [H|H]; [discriminate H|]). exact H.
Qed.

(** C8 (amended): the principal-market element of a row carries as Ranking
    its position among the principal-market rows of the sheet (first row
    met 1, second 2, ...): when the [length pre] rows before it pass, the
    calls of row [r] start with [market_row_prefix] at counter
    [length pre], whose Ranking text is [length pre + 1].  The identifier of
    the row only selects it; [market_cells] drops it. *)
Theorem ranking_by_position :
  forall (PM : nat) (pre post : list AIFM.Row) (r : AIFM.Row) (st : locals),
    result (AIFM.markets_loop PM (AIFM.market_cells pre) 0 st) = inr tt ->
    in_strs (AIFM.XMLDescription r) AIFM.market_codes = true ->
    (List.length pre < 5)%nat ->
    exists rest,
      calls (AIFM.markets_loop PM (AIFM.market_cells (pre ++ r :: post)) 0 st)
      = calls (AIFM.markets_loop PM (AIFM.market_cells pre) 0 st)
        ++ market_row_prefix PM (AIFM.XMLDescription r) (List.length pre)
             (final (AIFM.markets_loop PM (AIFM.market_cells pre) 0 st))
        ++ rest.
Proof.
  intros PM pre post r st Hpre Hcode Hlen.
  unfold AIFM.market_cells in *. rewrite map_app. cbn [map].
  rewrite (markets_loop_app PM _ _ 0 st Hpre). cbn [calls snd].
  rewrite length_map. cbn [Nat.add AIFM.markets_loop].
  rewrite calls_bind.
  destruct (market_row_good_code PM (AIFM.XMLDescription r) (AIFM.Input_1 r)
              (AIFM.Input_2 r) (List.length pre)
              (final (AIFM.markets_loop PM
                        (map (fun r0 => (AIFM.XMLDescription r0, AIFM.Input_1 r0,
                                         AIFM.Input_2 r0)) pre) 0 st))
              Hcode Hlen) as [_ [rest E]].
  rewrite E. eexists. rewrite <- app_assoc. reflexivity.
Qed.

Lemma ranking_by_position_witness :
  exists rest,
    calls (AIFM.markets_loop 9
             (AIFM.market_cells
                ([Samples.market "2nd" "XXX" Samples.E (VInt 50)]
                 ++ Samples.market "1st" "MIC" (VStr "XAMS") (VInt 100) :: []))
             0 init_locals)
    = calls (AIFM.markets_loop 9
               (AIFM.market_cells [Samples.market "2nd" "XXX" Samples.E (VInt 50)])
               0 init_locals)
      ++ market_row_prefix 9 (VStr "MIC") 1
           (final (AIFM.markets_loop 9
                     (AIFM.market_cells
                        [Samples.market "2nd" "XXX" Samples.E (VInt 50)])
                     0 init_locals))
      ++ rest.
Proof.
  apply (ranking_by_position 9
           [Samples.market "2nd" "XXX" Samples.E (VInt 50)] []
           (Samples.market "1st" "MIC" (VStr "XAMS") (VInt 100)) init_locals).
  - reflexivity.
  - reflexivity.
  - simpl. lia.
Defined.

(* ----------------------------------------------------------------- *)
(** ** The unsigned-integer fields of AIFM.py *)

Lemma getitem_lookup (d : dict) (k : string) (v : value) st :
  lookup d k = Some v -> getitem d k st = (inr v, st, []).
Proof.
  unfold lookup, getitem.
  destruct (find (fun kv => String.eqb (fst kv) k) d) as [kv|]; simpl.
  - intros H. inversion H. reflexivity.
  - discriminate.
Qed.

Lemma creates_app tg a b : creates tg (a ++ b) = creates tg a || creates tg b.
Proof. unfold creates. apply existsb_app. Qed.

Lemma creates_prefix PM pm0 counter st :
  creates "AggregatedValueAmount" (market_row_prefix PM pm0 counter st) = false.
Proof. reflexivity. Qed.

Lemma market_amount PM pm0 pm1 pm2 counter st :
  in_strs pm0 AIFM.market_codes = true ->
  (counter < 5)%nat ->
  market_code_ok pm0 pm1 = true ->
  market_amount_rule PM pm0 pm1 pm2 counter st.
Proof.
  intros H Hc Hok. unfold market_amount_rule. cbv zeta.
  rewrite (market_row_spec PM pm0 pm1 pm2 counter st H Hc Hok). cbv zeta.
  split.
  - intros Hnot. apply nes_true in Hnot. rewrite Hnot. split.
    + intros Hu. rewrite Hu. split.
      * eexists. reflexivity.
      * cbn [calls snd]. rewrite creates_app, creates_prefix.
        destruct (eqs pm0 "MIC"); reflexivity.
    + intros n -> Hn.
      replace (not_unsigned (VInt n)) with false
        by (symmetry; apply not_unsigned_false; exists n; split; [reflexivity|exact Hn]).
      split; [reflexivity|]. unfold emits. cbn [calls snd str].
      eexists. eexists. exists []. rewrite app_assoc. reflexivity.
  - intros ->. cbn [nes eqs Py.eq String.eqb Ascii.eqb Bool.eqb negb].
    split; [reflexivity|]. reflexivity.
Qed.

Lemma instrument_amount PI pi0 pi1 pi2 st :
  pi1 <> VStr "" -> pi2 <> VStr "" ->
  instrument_amount_rule PI pi0 pi1 pi2 st.
Proof.
  intros H1 H2. unfold instrument_amount_rule, AIFM.instrument_row. cbv zeta.
  apply nes_true in H1. apply nes_true in H2.
  unfold nes in H1, H2. apply negb_true_iff in H1. apply negb_true_iff in H2.
  rewrite H1, H2. run. split.
  - intros Hnta. apply nes_true in Hnta. rewrite Hnta. split.
    + intros Hu. rewrite Hu. split; [eexists; reflexivity | reflexivity].
    + intros n -> Hn.
      replace (not_unsigned (VInt n)) with false
        by (symmetry; apply not_unsigned_false; exists n; split; [reflexivity|exact Hn]).
      split; [reflexivity|]. unfold emits. cbn [calls snd str].
      exists [NewSubElement PI "AIFMPrincipalInstrument";
              NewSubElement (next_id st) "Ranking";
              SetText (S (next_id st)) (strip (str pi0));
              NewSubElement (next_id st) "SubAssetType";
              SetText (S (S (next_id st))) (strip (str pi1))].
      eexists. exists []. reflexivity.
  - intros ->. cbn [nes eqs Py.eq String.eqb Ascii.eqb Bool.eqb negb].
    split; reflexivity.
Qed.

Lemma aum_euro_amount CD d aum st :
  lookup d "AUMAmountInEuro" = Some aum ->
  aum <> VStr "" ->
  aum_euro_rule CD d aum st.
Proof.
  intros Hl Hne. unfold aum_euro_rule, AIFM.aum_euro. cbv zeta.
  unfold bind. rewrite (getitem_lookup d _ aum st Hl).
  apply nes_true in Hne. rewrite Hne. run. split.
  - intros Hu. rewrite Hu. split; [eexists; reflexivity | reflexivity].
  - intros n -> Hn.
    replace (not_unsigned (VInt n)) with false
      by (symmetry; apply not_unsigned_false; exists n; split; [reflexivity|exact Hn]).
    reflexivity.
Qed.

Lemma aum_base_amount CD d aum bc st :
  lookup d "AUMAmountInBaseCurrency" = Some aum ->
  lookup d "BaseCurrency" = Some bc ->
  aum_base_rule CD d aum bc st.
Proof.
  intros Ha Hb. unfold aum_base_rule, AIFM.base_currency. cbv zeta.
  rewrite bind_SubElement. rewrite (bind_getitem d _ aum _ _ Ha).
  split.
  - intros Ht Hne. rewrite Ht. rewrite (bind_getitem d _ bc _ _ Hb).
    apply nes_true in Hne. rewrite Hne. split.
    + intros Hu. rewrite Hu. unfold when. rewrite (bind_raise _ _ _ _ _ _ eq_refl).
      split; [eexists; reflexivity | reflexivity].
    + intros n -> Hn.
      replace (not_unsigned (VInt n)) with false
        by (symmetry; apply not_unsigned_false; exists n; split; [reflexivity|lia]).
      rewrite bind_when_false. rewrite bind_leaf. cbn [final snd fst result calls].
      rewrite bind_leaf. unfold emits. cbn [calls snd fst final].
      exists [NewSubElement CD "AIFMBaseCurrencyDescription";
              NewSubElement (next_id st) "BaseCurrency";
              SetText (next_id (alloc st)) (strip (upper (str bc)))].
      eexists. eexists. reflexivity.
  - intros [-> | ->].
    + split; reflexivity.
    + destruct (truthy aum).
      * rewrite (bind_getitem d _ (VStr "") _ _ Hb). split; reflexivity.
      * split; reflexivity.
Qed.

(** C4, as stated, fails on a principal-market row of code type NOT: a
    negative amount there raises nothing, the row is accepted. *)
Lemma unsigned_check_skipped_for_NOT : ~ unsigned_always_checked.
Proof.
  intros claim.
  destruct (claim 0%nat (VStr "NOT") (VStr "") (VInt (-5)) 0%nat init_locals
              eq_refl ltac:(lia) eq_refl eq_refl) as [msg H].
  vm_compute in H. discriminate H.
Qed.

(** C4 (amended): in AIFM.py the unsigned-integer check
    [type(v) != int or v < 0] guards the emission of
    - AggregatedValueAmount of a principal-market row whose code type is not
      NOT, and of a principal-instrument row whose SubAssetType is not
      NTA_NTA_NOTA,
    - AUMAmountInEuro when it is not the empty string,
    - AUMAmountInBaseCurrency when it is truthy and BaseCurrency is not the
      empty string:
    a value that is not an int, or is negative, ends the build in
    UnassinedIntegerError before the element is created; an int that passes
    is emitted as its decimal text.  For a NOT market row, an NTA_NTA_NOTA
    instrument row, and an empty AUMAmountInBaseCurrency or BaseCurrency,
    the amount is neither checked nor emitted. *)
Theorem unsigned_fields_checked_where_emitted :
  forall (parent : nat) (st : locals)
         (pm0 pm1 pm2 : value) (counter : nat)
         (pi0 pi1 pi2 : value)
         (d : dict) (aum_eur aum_base bc : value),
    in_strs pm0 AIFM.market_codes = true ->
    (counter < 5)%nat ->
    market_code_ok pm0 pm1 = true ->
    pi1 <> VStr "" -> pi2 <> VStr "" ->
    lookup d "AUMAmountInEuro" = Some aum_eur -> aum_eur <> VStr "" ->
    lookup d "AUMAmountInBaseCurrency" = Some aum_base ->
    lookup d "BaseCurrency" = Some bc ->
    market_amount_rule parent pm0 pm1 pm2 counter st
    /\ instrument_amount_rule parent pi0 pi1 pi2 st
    /\ aum_euro_rule parent d aum_eur st
    /\ aum_base_rule parent d aum_base bc st.
Proof.
  intros. split; [|split; [|split]].
  - apply market_amount; assumption.
  - apply instrument_amount; assumption.
  - apply aum_euro_amount; assumption.
  - apply aum_base_amount; assumption.
Qed.

(* ----------------------------------------------------------------- *)
(** ** The base-currency block of AIFM.py (lines 366-402) *)

Ltac split_match :=
  match goal with
  | |- context [match ?x with _ => _ end] =>
      lazymatch x with
      | context [match _ with _ => _ end] => fail
      | _ => destruct x eqn:?
      end
  | |- context [if ?x then _ else _] =>
      lazymatch x with
      | context [if _ then _ else _] => fail
      | context [match _ with _ => _ end] => fail
      | _ => destruct x eqn:?
      end
  end.

(** The only EmptyValueError the block can raise is the one about the
    reference rate; nothing in it requires the description. *)
Lemma base_currency_empty_errors CD d st msg :
  result (AIFM.base_currency CD d st) = inl (EmptyValueError msg) ->
  msg = "FXEURReferenceRateType or FXEURRate fields cannot be empty! Check value in rows 49-50 column D".
Proof.
  unfold AIFM.base_currency. run.
  repeat (split_match; cbn [fst snd app]); intros H; try discriminate H;
    inversion H; reflexivity.
Qed.

(** C5 (code at the failing input): AIFM.py builds and writes the sheet of a
    dollar fund whose reference-rate type is OTH and whose
    FXEUROtherReferenceRateDescription is empty; the document carries an
    empty description element and no error is reported.  Nor is anything
    reported for a dollar fund without reference-rate type when
    AUMAmountInBaseCurrency is 0: the whole block is skipped.  AIF.py, on
    the same cells, stops with the EmptyValueError of the description. *)
Theorem AIFM_description_not_required :
  let run := AIFM.convert_to_xml
               [AIFM.mkFile "usd.xlsx" Samples.aifm_usd_oth] Samples.noon in
  let run0 := AIFM.convert_to_xml
                [AIFM.mkFile "zero.xlsx" Samples.aifm_usd_zero] Samples.noon in
  let aif := AIF.aif_xml [AIF.mkFile "usd.xlsx" Samples.aif_usd_oth]
               Samples.noon in
  reports run = []
  /\ written_paths run = ["usd.xml"]
  /\ map (fun doc =>
            option_map xtext
              (descend ["AIFMRecordInfo"; "AIFMCompleteDescription";
                        "AIFMBaseCurrencyDescription";
                        "FXEUROtherReferenceRateDescription"] doc))
         (docs run) = [Some (Some "")]
  /\ reports run0 = []
  /\ written_paths run0 = ["zero.xml"]
  /\ reports aif
     = [PrintedExn (EmptyValueError
          "FXEUROthReferenceRateDescription cannot be empty")]
  /\ written_paths aif = [].
Proof. vm_compute. repeat split. Qed.

(* ----------------------------------------------------------------- *)
(** ** The assumption block (lines 194-205 of AIF.py, 203-215 of AIFM.py) *)

(** The length test sits under [AssumptionDescription == ""], so it never
    fires. *)
Lemma AIFM_assumption_never_too_long RI d st msg :
  result (AIFM.assumption RI d st) <> inl (LengthValueRequiredError msg).
Proof.
  unfold AIFM.assumption. run.
  repeat (split_match; cbn [fst snd app]); try (intros H; discriminate H).
  match goal with
  | H : eqs (VStr ?s) "" = true, L : (300 <? String.length ?s)%nat = true |- _ =>
      apply eqs_true in H; inversion H; subst; discriminate L
  end.
Qed.

Lemma AIF_assumption_never_too_long RI d st msg :
  result (AIF.assumption RI d st) <> inl (LengthValueRequiredError msg).
Proof.
  unfold AIF.assumption. run.
  repeat (split_match; cbn [fst snd app]); try (intros H; discriminate H).
  match goal with
  | H : eqs (VStr ?s) "" = true, L : (300 <? String.length ?s)%nat = true |- _ =>
      apply eqs_true in H; inversion H; subst; discriminate L
  end.
Qed.

(** With a description provided the block does nothing at all: no check,
    no QuestionNumber, no AssumptionDescription. *)
Lemma AIFM_assumption_provided RI d st qn ad :
  lookup d "QuestionNumber" = Some qn ->
  lookup d "AssumptionDescription" = Some ad ->
  ad <> VStr "" ->
  AIFM.assumption RI d st = (inr tt, st, []).
Proof.
  intros Hq Ha Hne. unfold AIFM.assumption.
  rewrite (bind_getitem d _ qn _ _ Hq).
  destruct (truthy qn); [|reflexivity].
  rewrite (bind_getitem d _ ad _ _ Ha).
  apply nes_true in Hne. unfold nes in Hne. apply negb_true_iff in Hne.
  rewrite Hne. reflexivity.
Qed.

Lemma AIF_assumption_provided RI d st qn ad :
  lookup d "QuestionNumber" = Some qn ->
  lookup d "AssumptionDescription" = Some ad ->
  ad <> VStr "" ->
  AIF.assumption RI d st = (inr tt, st, []).
Proof.
  intros Hq Ha Hne. unfold AIF.assumption.
  rewrite (bind_getitem d _ qn _ _ Hq).
  destruct (truthy qn); [|reflexivity].
  rewrite (bind_getitem d _ ad _ _ Ha).
  apply nes_true in Hne. unfold nes in Hne. apply negb_true_iff in Hne.
  rewrite Hne. reflexivity.
Qed.

(** C6 (code at the failing input): with a QuestionNumber and an
    AssumptionDescription of 301 characters, AIFM.py and AIF.py report no
    error and write the document; and whether the description has 301 or
    300 characters, the document has no AssumptionDescription element. *)
Theorem assumption_length_not_enforced :
  let assumption_of :=
    fun root doc =>
      option_map xtext (descend [root; "AssumptionDescription"] doc) in
  let aifm := fun t => AIFM.convert_to_xml [AIFM.mkFile "a.xlsx" t] Samples.noon in
  let aif := fun t => AIF.aif_xml [AIF.mkFile "a.xlsx" t] Samples.noon in
  String.length Samples.text301 = 301%nat
  /\ String.length Samples.text300 = 300%nat
  /\ reports (aifm Samples.aifm_long) = []
  /\ written_paths (aifm Samples.aifm_long) = ["a.xml"]
  /\ map (assumption_of "AIFMRecordInfo")
         (docs (aifm Samples.aifm_long)) = [None]
  /\ reports (aifm Samples.aifm_exact) = []
  /\ map (assumption_of "AIFMRecordInfo")
         (docs (aifm Samples.aifm_exact)) = [None]
  /\ reports (aif Samples.aif_long) = []
  /\ written_paths (aif Samples.aif_long) = ["a.xml"]
  /\ map (assumption_of "AIFRecordInfo")
         (docs (aif Samples.aif_long)) = [None]
  /\ reports (aif Samples.aif_exact) = []
  /\ map (assumption_of "AIFRecordInfo")
         (docs (aif Samples.aif_exact)) = [None].
Proof. vm_compute. repeat split. Qed.

(* ----------------------------------------------------------------- *)
(** ** The batch loops of AIFM.py and AIF.py *)

Lemma written_app a b : written (a ++ b) = written a ++ written b.
Proof. unfold written. apply filter_app. Qed.

Lemma written_prints ops : written (prints_of ops) = [].
Proof. induction ops as [|[] ops IH]; cbn; auto. Qed.

Lemma reports_prints ops : filter is_report (prints_of ops) = [].
Proof. induction ops as [|[] ops IH]; cbn; auto. Qed.

Lemma written_paths_app a b :
  written_paths (a ++ b) = written_paths a ++ written_paths b.
Proof. unfold written_paths. apply flat_map_app. Qed.

Lemma written_paths_prints ops : written_paths (prints_of ops) = [].
Proof. induction ops as [|[] ops IH]; cbn; auto. Qed.

(** The loop of [convert_to_xml] never reports by itself; only the handler
    around it does. *)
Lemma convert_loop_no_report files today i st h :
  filter is_report (fst (AIFM.convert_loop files today i st h)) = [].
Proof.
  revert i st h. induction files as [|f files IH]; intros i st h.
  - reflexivity.
  - cbn [AIFM.convert_loop].
    destruct (AIFM.build (AIFM.df f) (today i) st) as [[[e|root] s1] ops].
    + cbn [fst filter is_report]. apply reports_prints.
    + specialize (IH (S i) s1 (replay h ops)).
      destruct (AIFM.convert_loop files today (S i) s1 (replay h ops)) as [evs e].
      cbn [fst filter is_report] in *.
      rewrite filter_app, reports_prints. cbn [app filter is_report].
      exact IH.
Qed.

(** Files that all build: the loop goes on behind them. *)
Lemma convert_loop_app before today i st h evs :
  AIFM.convert_loop before today i st h = (evs, None) ->
  exists st' h', forall rest,
    AIFM.convert_loop (before ++ rest) today i st h
    = (evs ++ fst (AIFM.convert_loop rest today (i + List.length before) st' h'),
       snd (AIFM.convert_loop rest today (i + List.length before) st' h')).
Proof.
  revert i st h evs. induction before as [|f before IH]; intros i st h evs H.
  - cbn in H. inversion H; subst. exists st, h. intros rest.
    cbn [app List.length]. rewrite Nat.add_0_r.
    destruct (AIFM.convert_loop rest today i st h). reflexivity.
  - cbn [AIFM.convert_loop app] in *.
    destruct (AIFM.build (AIFM.df f) (today i) st) as [[[e|root] s1] ops];
      [discriminate H|].
    destruct (AIFM.convert_loop before today (S i) s1 (replay h ops))
      as [evs1 e1] eqn:E.
    inversion H; subst. clear H.
    destruct (IH (S i) s1 (replay h ops) evs1 E) as [st' [h' IH']].
    exists st', h'. intros rest. rewrite IH'. cbn [List.length].
    replace (i + S (List.length before))%nat
      with (S i + List.length before)%nat by lia.
    cbn [fst snd]. f_equal. cbn [app]. f_equal.
    rewrite <- app_assoc. reflexivity.
Qed.

(** The same two facts for the loop of [aif_xml], which writes nothing. *)
Lemma aif_loop_no_write files today i st h last :
  written (fst (AIF.aif_loop files today i st h last)) = []
  /\ filter is_report (fst (AIF.aif_loop files today i st h last)) = [].
Proof.
  revert i st h last. induction files as [|f files IH]; intros i st h last.
  - split; reflexivity.
  - cbn [AIF.aif_loop].
    destruct (AIF.build (AIF.df f) (today i) st) as [[[e|root] s1] ops].
    + cbn [fst]. split.
      * apply (written_prints ops).
      * apply (reports_prints ops).
    + specialize (IH (S i) s1 (replay h ops)
                    (Some (Path.splitext (AIF.path f), root))).
      destruct (AIF.aif_loop files today (S i) s1 (replay h ops) _) as [evs r].
      cbn [fst] in *. destruct IH as [IHw IHr]. split.
      * change (written (Debug ("Generating xml for --> " ++ AIF.path f ++ nl)
                          :: prints_of ops ++ evs))
          with (written (prints_of ops ++ evs)).
        rewrite written_app, written_prints. exact IHw.
      * cbn [filter is_report]. rewrite filter_app, reports_prints. exact IHr.
Qed.

Lemma aif_loop_app before today i st h last evs h1 last1 :
  AIF.aif_loop before today i st h last = (evs, inr (h1, last1)) ->
  exists st', forall rest,
    AIF.aif_loop (before ++ rest) today i st h last
    = (evs ++ fst (AIF.aif_loop rest today (i + List.length before) st' h1 last1),
       snd (AIF.aif_loop rest today (i + List.length before) st' h1 last1)).
Proof.
  revert i st h last evs. induction before as [|f before IH];
    intros i st h last evs H.
  - cbn in H. inversion H; subst. exists st. intros rest.
    cbn [app List.length]. rewrite Nat.add_0_r.
    destruct (AIF.aif_loop rest today i st h1 last1). reflexivity.
  - cbn [AIF.aif_loop app] in *.
    destruct (AIF.build (AIF.df f) (today i) st) as [[[e|root] s1] ops];
      [discriminate H|].
    destruct (AIF.aif_loop before today (S i) s1 (replay h ops) _)
      as [evs1 r1] eqn:E.
    inversion H; subst. clear H.
    destruct (IH (S i) s1 (replay h ops) _ evs1 E) as [st' IH'].
    exists st'. intros rest. rewrite IH'. cbn [List.length].
    replace (i + S (List.length before))%nat
      with (S i + List.length before)%nat by lia.
    cbn [fst snd]. f_equal. cbn [app]. f_equal.
    rewrite <- app_assoc. reflexivity.
Qed.

(** C2, as stated, fails on a batch of two: the first sheet has an empty
    FilingType, the second builds, and [convert_to_xml] writes nothing. *)
Lemma batch_stops_at_first_error : ~ per_file_isolation.
Proof.
  intros claim.
  assert (H := claim [] [AIFM.mkFile "good.xlsx" Samples.aifm_ok]
                 (AIFM.mkFile "bad.xlsx" Samples.aifm_bad)
                 (AIFM.mkFile "good.xlsx" Samples.aifm_ok) Samples.noon
                 (EmptyValueError "FilingType field cannot be empty!")).
  assert (Hbad : forall st now,
             result (AIFM.build (AIFM.df (AIFM.mkFile "bad.xlsx" Samples.aifm_bad))
                       now st)
             = inl (EmptyValueError "FilingType field cannot be empty!"))
    by (intros st now; reflexivity).
  assert (Hgood : forall st now, exists root,
             result (AIFM.build (AIFM.df (AIFM.mkFile "good.xlsx" Samples.aifm_ok))
                       now st) = inr root)
    by (intros st now; eexists; reflexivity).
  specialize (H Hbad (or_introl eq_refl) Hgood).
  vm_compute in H. exact H.
Qed.

(** When the files [before] build and the next one raises [e],
    [convert_to_xml] logs [e] once and stops. *)
Lemma convert_to_xml_stops today e before after bad evs :
  AIFM.convert_loop before today 0 init_locals [] = (evs, None) ->
  (forall st, result (AIFM.build (AIFM.df bad)
                        (today (List.length before)) st) = inl e) ->
  stops_at_failure evs
    (AIFM.convert_to_xml (before ++ bad :: after) today) (LogError e)
  /\ AIFM.convert_to_xml (before ++ bad :: after) today
     = AIFM.convert_to_xml (before ++ [bad]) today.
Proof.
  intros Hbefore Hbad.
  destruct (convert_loop_app before today 0 init_locals [] evs Hbefore)
    as [st' [h' Happ]].
  assert (Hrun : forall after',
             AIFM.convert_to_xml (before ++ bad :: after') today
             = evs ++ (Debug ("Generating xml for --> " ++ AIFM.path bad ++ nl)
                         :: prints_of
                              (calls (AIFM.build (AIFM.df bad)
                                        (today (List.length before)) st')))
                   ++ [LogError e]).
  { intros after'. unfold AIFM.convert_to_xml.
    rewrite (Happ (bad :: after')). cbn [Nat.add AIFM.convert_loop].
    specialize (Hbad st').
    destruct (AIFM.build (AIFM.df bad) (today (List.length before)) st')
      as [[[e'|root] s1] ops]; [|discriminate Hbad].
    cbn [result fst] in Hbad. inversion Hbad; subst e'.
    cbn [fst snd calls].
    destruct (before ++ bad :: after') eqn:E;
      [destruct before; discriminate E|].
    rewrite <- app_assoc. reflexivity. }
  split.
  + eexists. split; [apply Hrun|]. split.
    * apply (written_prints _).
    * rewrite filter_app. cbn [filter is_report]. rewrite reports_prints.
      rewrite app_nil_r.
      pose proof (convert_loop_no_report before today 0 init_locals []) as Hn.
      rewrite Hbefore in Hn. exact Hn.
  + rewrite (Hrun after), (Hrun []). reflexivity.
Qed.

(** Likewise [aif_xml] prints [e] once and stops, having written nothing. *)
Lemma aif_xml_stops today e before after bad evs h last :
  AIF.aif_loop before today 0 init_locals [] None = (evs, inr (h, last)) ->
  (forall st, result (AIF.build (AIF.df bad)
                        (today (List.length before)) st) = inl e) ->
  stops_at_failure evs
    (AIF.aif_xml (before ++ bad :: after) today) (PrintedExn e)
  /\ written (AIF.aif_xml (before ++ bad :: after) today) = []
  /\ AIF.aif_xml (before ++ bad :: after) today
     = AIF.aif_xml (before ++ [bad]) today.
Proof.
  intros Hbefore Hbad.
  destruct (aif_loop_app before today 0 init_locals [] None evs h last Hbefore)
    as [st' Happ].
  assert (Hrun : forall after',
             AIF.aif_xml (before ++ bad :: after') today
             = evs ++ (Debug ("Generating xml for --> " ++ AIF.path bad ++ nl)
                         :: prints_of
                              (calls (AIF.build (AIF.df bad)
                                        (today (List.length before)) st')))
                   ++ [PrintedExn e]).
  { intros after'. unfold AIF.aif_xml.
    rewrite (Happ (bad :: after')). cbn [Nat.add AIF.aif_loop].
    specialize (Hbad st').
    destruct (AIF.build (AIF.df bad) (today (List.length before)) st')
      as [[[e'|root] s1] ops]; [|discriminate Hbad].
    cbn [result fst] in Hbad. inversion Hbad; subst e'.
    cbn [fst snd calls].
    destruct (before ++ bad :: after') eqn:E;
      [destruct before; discriminate E|].
    rewrite <- app_assoc. reflexivity. }
  pose proof (aif_loop_no_write before today 0 init_locals [] None) as [Hw Hr].
  rewrite Hbefore in Hw, Hr. cbn [fst] in Hw, Hr.
  split; [|split].
  + eexists. split; [apply Hrun|]. split.
    * apply (written_prints _).
    * rewrite filter_app. cbn [filter is_report]. rewrite reports_prints.
      rewrite app_nil_r. exact Hr.
  + rewrite (Hrun after). rewrite !written_app. rewrite Hw.
    change (written (Debug ("Generating xml for --> " ++ AIF.path bad ++ nl)
                       :: prints_of (calls (AIF.build (AIF.df bad)
                                              (today (List.length before)) st'))))
      with (written (prints_of (calls (AIF.build (AIF.df bad)
                                         (today (List.length before)) st')))).
    rewrite written_prints. reflexivity.
  + rewrite (Hrun after), (Hrun []). reflexivity.
Qed.

(** C2 (amended): [convert_to_xml] and [aif_xml] catch an error at the
    boundary of the batch, not of the file.  When the files [before] build
    and the next one raises [e], the run consists of the events of the files
    before, the debug line (and prints) of the failing file and one report
    of [e] (logged by AIFM.py, printed by AIF.py), and it is the same
    whatever files come [after]: none of them is processed.  AIFM.py has
    written the files before; AIF.py has written nothing. *)
Theorem batch_stops_at_failure :
  forall (today : clock) (e : exn),
    (forall (before after : list AIFM.File) (bad : AIFM.File) evs,
        AIFM.convert_loop before today 0 init_locals [] = (evs, None) ->
        (forall st, result (AIFM.build (AIFM.df bad)
                              (today (List.length before)) st) = inl e) ->
        stops_at_failure evs
          (AIFM.convert_to_xml (before ++ bad :: after) today) (LogError e)
        /\ AIFM.convert_to_xml (before ++ bad :: after) today
           = AIFM.convert_to_xml (before ++ [bad]) today)
    /\ (forall (before after : list AIF.File) (bad : AIF.File) evs h last,
        AIF.aif_loop before today 0 init_locals [] None = (evs, inr (h, last)) ->
        (forall st, result (AIF.build (AIF.df bad)
                              (today (List.length before)) st) = inl e) ->
        stops_at_failure evs
          (AIF.aif_xml (before ++ bad :: after) today) (PrintedExn e)
        /\ written (AIF.aif_xml (before ++ bad :: after) today) = []
        /\ AIF.aif_xml (before ++ bad :: after) today
           = AIF.aif_xml (before ++ [bad]) today).
Proof.
  intros today e. split.
  - intros before after bad evs. apply convert_to_xml_stops.
  - intros before after bad evs h last. apply aif_xml_stops.
Qed.

(* ----------------------------------------------------------------- *)
(** ** Running a script twice *)

Lemma erase_dict_set a k v :
  erase_attrs (dict_set a k v)
  = if String.eqb k timestamp_attr then erase_attrs a
    else dict_set (erase_attrs a) k v.
Proof.
  induction a as [|[k' v'] a IH]; cbn [dict_set erase_attrs filter fst].
  - destruct (String.eqb k timestamp_attr); reflexivity.
  - destruct (String.eqb k' k) eqn:E.
    + apply String.eqb_eq in E. subst k'.
      cbn [filter fst]. destruct (String.eqb k timestamp_attr) eqn:T;
        cbn [negb]; [reflexivity|].
      cbn [dict_set]. rewrite String.eqb_refl. reflexivity.
    + cbn [filter fst]. fold (erase_attrs (dict_set a k v)). rewrite IH.
      fold (erase_attrs a).
      destruct (String.eqb k' timestamp_attr) eqn:T'; cbn [negb].
      * reflexivity.
      * destruct (String.eqb k timestamp_attr); [reflexivity|].
        cbn [dict_set]. rewrite E. reflexivity.
Qed.

Lemma map_update (f : node -> node) (g g' : node -> node) h id :
  (forall n, f (g n) = g' (f n)) ->
  map f (update h id g) = update (map f h) id g'.
Proof.
  intros Hc. revert id. induction h as [|n h IH]; intros id.
  - reflexivity.
  - destruct id as [|id]; cbn [update map].
    + rewrite Hc. reflexivity.
    + rewrite IH. reflexivity.
Qed.

Lemma update_ext (g g' : node -> node) h id :
  (forall n, g n = g' n) -> update h id g = update h id g'.
Proof.
  intros He. revert id. induction h as [|n h IH]; intros [|id];
    cbn [update]; try reflexivity.
  - rewrite He. reflexivity.
  - rewrite IH. reflexivity.
Qed.

Lemma blind_eq_cases o1 o2 :
  blind o1 = blind o2 ->
  o1 = o2 \/ exists id v1 v2,
               o1 = SetAttr id timestamp_attr v1
               /\ o2 = SetAttr id timestamp_attr v2.
Proof.
  destruct o1 as [t1|p1 t1|i1 s1|i1 k1 v1|s1];
    destruct o2 as [t2|p2 t2|i2 s2|i2 k2 v2|s2]; cbn [blind];
    try (destruct (String.eqb k1 timestamp_attr) eqn:E1);
    try (destruct (String.eqb k2 timestamp_attr) eqn:E2);
    intros H; try discriminate H; try (left; exact H).
  - inversion H; subst. apply String.eqb_eq in E1. subst.
    right. exists i2, v1, v2. split; reflexivity.
  - inversion H; subst. rewrite E1 in E2. discriminate E2.
  - inversion H; subst. rewrite E2 in E1. discriminate E1.
Qed.

Lemma apply_op_erase h1 h2 o :
  map erase_node h1 = map erase_node h2 ->
  map erase_node (apply_op h1 o) = map erase_node (apply_op h2 o).
Proof.
  intros H.
  assert (L : List.length h1 = List.length h2).
  { rewrite <- (length_map erase_node h1), <- (length_map erase_node h2).
    rewrite H. reflexivity. }
  destruct o as [t|p t|i s|i k v|s]; cbn [apply_op].
  - rewrite !map_app, H. reflexivity.
  - rewrite !map_app. f_equal.
    rewrite (map_update erase_node (add_child (List.length h1))
               (add_child (List.length h1))) by reflexivity.
    rewrite (map_update erase_node (add_child (List.length h2))
               (add_child (List.length h2))) by reflexivity.
    rewrite H, L. reflexivity.
  - rewrite !(map_update erase_node (put_text s) (put_text s)) by reflexivity.
    rewrite H. reflexivity.
  - set (g' := fun n => mkNode (tag n) (text n)
                          (if String.eqb k timestamp_attr then attrib n
                           else dict_set (attrib n) k v) (children n)).
    assert (Hc : forall n, erase_node (put_attr k v n) = g' (erase_node n)).
    { intros n. unfold erase_node, put_attr, g'. cbn [tag text attrib children].
      rewrite erase_dict_set. reflexivity. }
    rewrite !(map_update erase_node (put_attr k v) g' _ _ Hc).
    rewrite H. reflexivity.
  - exact H.
Qed.

Lemma apply_op_erase_stamp h1 h2 id v1 v2 :
  map erase_node h1 = map erase_node h2 ->
  map erase_node (apply_op h1 (SetAttr id timestamp_attr v1))
  = map erase_node (apply_op h2 (SetAttr id timestamp_attr v2)).
Proof.
  intros H. cbn [apply_op].
  assert (Hc : forall v n, erase_node (put_attr timestamp_attr v n)
                           = (fun x => x) (erase_node n)).
  { intros v n. unfold erase_node, put_attr. cbn [tag text attrib children].
    rewrite erase_dict_set. reflexivity. }
  rewrite (map_update erase_node _ (fun x => x) _ _ (Hc v1)).
  rewrite (map_update erase_node _ (fun x => x) _ _ (Hc v2)).
  rewrite H. reflexivity.
Qed.

Lemma replay_erase ops1 : forall ops2 h1 h2,
  map erase_node h1 = map erase_node h2 ->
  map blind ops1 = map blind ops2 ->
  map erase_node (replay h1 ops1) = map erase_node (replay h2 ops2).
Proof.
  induction ops1 as [|o1 ops1 IH]; intros [|o2 ops2] h1 h2 H Hb;
    try discriminate Hb.
  - exact H.
  - cbn [map] in Hb. inversion Hb as [[Ho Hrest]].
    unfold replay. cbn [fold_left]. apply IH; [|exact Hrest].
    destruct (blind_eq_cases o1 o2 Ho) as [->|[id [v1 [v2 [-> ->]]]]].
    + apply apply_op_erase. exact H.
    + apply apply_op_erase_stamp. exact H.
Qed.

Lemma tree_of_erase fuel : forall h id,
  erase_xml (tree_of fuel h id) = tree_of fuel (map erase_node h) id.
Proof.
  induction fuel as [|fuel IH]; intros h id; cbn [tree_of].
  - reflexivity.
  - rewrite nth_error_map. destruct (nth_error h id) as [nd|]; cbn [option_map].
    + cbn [erase_xml erase_node tag text attrib children]. f_equal.
      rewrite map_map. apply map_ext. intros c. apply IH.
    + reflexivity.
Qed.

Lemma document_erase h1 h2 root :
  map erase_node h1 = map erase_node h2 ->
  erase_xml (document h1 root) = erase_xml (document h2 root).
Proof.
  intros H. unfold document. rewrite !tree_of_erase.
  assert (L : List.length h1 = List.length h2).
  { rewrite <- (length_map erase_node h1), <- (length_map erase_node h2).
    rewrite H. reflexivity. }
  rewrite H, L. reflexivity.
Qed.

Lemma agree_bind {A B} (m1 m2 : M A) (k : A -> M B) st :
  agree (m1 st) (m2 st) -> agree (bind m1 k st) (bind m2 k st).
Proof.
  unfold agree, bind, result, final, calls.
  destruct (m1 st) as [[[e1|a1] s1] o1]; destruct (m2 st) as [[[e2|a2] s2] o2];
    cbn [fst snd]; intros [Hr [Hs Ho]]; try discriminate Hr.
  - inversion Hr; subst. repeat split; assumption.
  - inversion Hr; subst.
    destruct (k a2 s2) as [[r s] o]. cbn [fst snd].
    rewrite !map_app, Ho. repeat split.
Qed.

Lemma prints_blind ops1 : forall ops2,
  map blind ops1 = map blind ops2 -> prints_of ops1 = prints_of ops2.
Proof.
  induction ops1 as [|o1 ops1 IH]; intros [|o2 ops2] H; try discriminate H.
  - reflexivity.
  - cbn [map] in H. inversion H as [[Ho Hrest]].
    destruct (blind_eq_cases o1 o2 Ho) as [->|[id [v1 [v2 [-> ->]]]]].
    + destruct o2; cbn [prints_of]; try (apply IH; exact Hrest).
      f_equal. apply IH; exact Hrest.
    + cbn [prints_of]. apply IH; exact Hrest.
Qed.

Lemma AIFM_header_agree t now1 now2 st :
  agree (AIFM.header t now1 st) (AIFM.header t now2 st).
Proof.
  unfold agree, AIFM.header. run.
  repeat (split_match; cbn [fst snd app]); auto.
Qed.

Lemma AIF_header_agree t now1 now2 st :
  agree (AIF.header t now1 st) (AIF.header t now2 st).
Proof.
  unfold agree, AIF.header. run.
  repeat (split_match; cbn [fst snd app]); auto.
Qed.

Lemma AIFM_build_agree t now1 now2 st :
  agree (AIFM.build t now1 st) (AIFM.build t now2 st).
Proof. unfold AIFM.build. apply agree_bind. apply AIFM_header_agree. Qed.

Lemma AIF_build_agree t now1 now2 st :
  agree (AIF.build t now1 st) (AIF.build t now2 st).
Proof. unfold AIF.build. apply agree_bind. apply AIF_header_agree. Qed.

Lemma erase_prints ops : map erase_event (prints_of ops) = prints_of ops.
Proof.
  induction ops as [|[] ops IH]; cbn [prints_of map erase_event];
    try exact IH; try reflexivity.
  rewrite IH. reflexivity.
Qed.

Lemma convert_loop_agree files today1 today2 : forall i st h1 h2,
  map erase_node h1 = map erase_node h2 ->
  map erase_event (fst (AIFM.convert_loop files today1 i st h1))
  = map erase_event (fst (AIFM.convert_loop files today2 i st h2))
  /\ snd (AIFM.convert_loop files today1 i st h1)
     = snd (AIFM.convert_loop files today2 i st h2).
Proof.
  induction files as [|f files IH]; intros i st h1 h2 H.
  - split; reflexivity.
  - cbn [AIFM.convert_loop].
    destruct (AIFM_build_agree (AIFM.df f) (today1 i) (today2 i) st)
      as [Hr [Hs Ho]].
    destruct (AIFM.build (AIFM.df f) (today1 i) st) as [[[e1|r1] s1] o1];
      destruct (AIFM.build (AIFM.df f) (today2 i) st) as [[[e2|r2] s2] o2];
      unfold result, final, calls in Hr, Hs, Ho;
      cbn [fst snd] in Hr, Hs, Ho; try discriminate Hr.
    + inversion Hr; subst. cbn [fst snd map erase_event].
      rewrite (prints_blind o1 o2 Ho). split; reflexivity.
    + inversion Hr; subst.
      pose proof (replay_erase o1 o2 h1 h2 H Ho) as Hh.
      destruct (IH (S i) s2 (replay h1 o1) (replay h2 o2) Hh) as [IHe IHx].
      destruct (AIFM.convert_loop files today1 (S i) s2 (replay h1 o1))
        as [evs1 x1].
      destruct (AIFM.convert_loop files today2 (S i) s2 (replay h2 o2))
        as [evs2 x2].
      cbn [fst snd] in *. split; [|exact IHx].
      cbn [map erase_event]. rewrite !map_app. cbn [map erase_event].
      rewrite (prints_blind o1 o2 Ho), IHe.
      rewrite (document_erase _ _ r2 Hh). reflexivity.
Qed.

Lemma aif_loop_agree files today1 today2 : forall i st h1 h2 last,
  map erase_node h1 = map erase_node h2 ->
  map erase_event (fst (AIF.aif_loop files today1 i st h1 last))
  = map erase_event (fst (AIF.aif_loop files today2 i st h2 last))
  /\ match snd (AIF.aif_loop files today1 i st h1 last),
           snd (AIF.aif_loop files today2 i st h2 last) with
     | inl e1, inl e2 => e1 = e2
     | inr (h1', l1), inr (h2', l2) =>
         l1 = l2 /\ map erase_node h1' = map erase_node h2'
     | _, _ => False
     end.
Proof.
  induction files as [|f files IH]; intros i st h1 h2 last H.
  - cbn. split; [reflexivity|]. split; [reflexivity|exact H].
  - cbn [AIF.aif_loop].
    destruct (AIF_build_agree (AIF.df f) (today1 i) (today2 i) st)
      as [Hr [Hs Ho]].
    destruct (AIF.build (AIF.df f) (today1 i) st) as [[[e1|r1] s1] o1];
      destruct (AIF.build (AIF.df f) (today2 i) st) as [[[e2|r2] s2] o2];
      unfold result, final, calls in Hr, Hs, Ho;
      cbn [fst snd] in Hr, Hs, Ho; try discriminate Hr.
    + inversion Hr; subst. cbn [fst snd map erase_event].
      rewrite (prints_blind o1 o2 Ho). split; reflexivity.
    + inversion Hr; subst.
      pose proof (replay_erase o1 o2 h1 h2 H Ho) as Hh.
      destruct (IH (S i) s2 (replay h1 o1) (replay h2 o2)
                  (Some (Path.splitext (AIF.path f), r2)) Hh) as [IHe IHx].
      destruct (AIF.aif_loop files today1 (S i) s2 (replay h1 o1) _)
        as [evs1 x1].
      destruct (AIF.aif_loop files today2 (S i) s2 (replay h2 o2) _)
        as [evs2 x2].
      cbn [fst snd] in *. split; [|exact IHx].
      cbn [map erase_event]. rewrite !map_app.
      rewrite (prints_blind o1 o2 Ho), IHe. reflexivity.
Qed.

Lemma file_date_same (a1 a2 b1 b2 : datetime) :
  year a1 = year a2 -> month b1 = month b2 ->
  OFK.file_date a1 b1 = OFK.file_date a2 b2.
Proof. intros Hy Hm. unfold OFK.file_date. rewrite Hy, Hm. reflexivity. Qed.

Lemma generate_loop_same_month files today1 today2 :
  same_month today1 today2 ->
  forall i st h,
    OFK.generate_loop files today1 i st h = OFK.generate_loop files today2 i st h.
Proof.
  intros Hm. induction files as [|f files IH]; intros i st h.
  - reflexivity.
  - cbn [OFK.generate_loop].
    assert (Hh : OFK.header_at today1 i = OFK.header_at today2 i).
    { unfold OFK.header_at, OFK.header.
      rewrite (file_date_same (today1 (4 * i)%nat) (today2 (4 * i)%nat)
                 (today1 (4 * i + 1)%nat) (today2 (4 * i + 1)%nat)
                 (proj1 (Hm _)) (proj2 (Hm _))).
      rewrite (file_date_same (today1 (4 * i + 2)%nat) (today2 (4 * i + 2)%nat)
                 (today1 (4 * i + 3)%nat) (today2 (4 * i + 3)%nat)
                 (proj1 (Hm _)) (proj2 (Hm _))).
      reflexivity. }
    rewrite Hh.
    destruct (OFK.header_at today2 i st) as [[[e|root] s1] o1]; [reflexivity|].
    destruct (OFK.validate _); try reflexivity.
    + destruct (OFK.emit_forms root _ [] None s1) as [[[e|[]] s2] o2];
        [reflexivity|].
      rewrite IH. reflexivity.
    + rewrite IH. reflexivity.
Qed.

(** C9, as stated, fails for OFKReport.py: the same workbook converted on
    31 January and on 1 February gives two documents that differ in the
    text of rappOpmerkingen (and in the schema location), neither of which
    is a creation-timestamp attribute. *)
Lemma ofk_rerun_differs_across_months : ~ rerun_equal_up_to_timestamp.
Proof.
  intros claim.
  assert (H := claim [Samples.ofk_ok] Samples.january Samples.february).
  vm_compute in H. discriminate H.
Qed.

(** The two documents differ even when no attribute at all is compared. *)
Lemma ofk_rerun_differs_in_text :
  map strip_attrs (docs (fst (OFK.generateXML [Samples.ofk_ok] Samples.january)))
  <> map strip_attrs (docs (fst (OFK.generateXML [Samples.ofk_ok] Samples.february))).
Proof. vm_compute. intros H. discriminate H. Qed.

(** C9 (amended): two runs of [convert_to_xml] (AIFM.py) or of [aif_xml]
    (AIF.py) on the same batch, at whatever times, leave the same events and
    write the same documents once the CreationDateAndTime attribute is
    removed from them; two runs of [generateXML] (OFKReport.py) leave the
    same events and documents when both take place in the same month of the
    same year (the month goes into the schema location and into the text of
    rappOpmerkingen). *)
Theorem rerun_same_up_to_timestamp :
  forall (today1 today2 : clock),
    (forall files,
        map erase_event (AIFM.convert_to_xml files today1)
        = map erase_event (AIFM.convert_to_xml files today2))
    /\ (forall files,
        map erase_event (AIF.aif_xml files today1)
        = map erase_event (AIF.aif_xml files today2))
    /\ (same_month today1 today2 ->
        forall files,
          OFK.generateXML files today1 = OFK.generateXML files today2).
Proof.
  intros today1 today2. split; [|split].
  - intros files. unfold AIFM.convert_to_xml.
    destruct files as [|f files]; [reflexivity|].
    destruct (convert_loop_agree (f :: files) today1 today2 0 init_locals [] []
                eq_refl) as [He Hx].
    destruct (AIFM.convert_loop (f :: files) today1 0 init_locals []) as [evs1 x1].
    destruct (AIFM.convert_loop (f :: files) today2 0 init_locals []) as [evs2 x2].
    cbn [fst snd] in *. subst x2. rewrite !map_app, He. reflexivity.
  - intros files. unfold AIF.aif_xml.
    destruct files as [|f files]; [reflexivity|].
    destruct (aif_loop_agree (f :: files) today1 today2 0 init_locals [] [] None
                eq_refl) as [He Hx].
    destruct (AIF.aif_loop (f :: files) today1 0 init_locals [] None)
      as [evs1 [e1|[h1 l1]]];
      destruct (AIF.aif_loop (f :: files) today2 0 init_locals [] None)
        as [evs2 [e2|[h2 l2]]]; cbn [fst snd] in *; try contradiction.
    + subst. rewrite !map_app, He. reflexivity.
    + destruct Hx as [-> Hh]. destruct l2 as [[output root]|].
      * rewrite !map_app, He. cbn [map erase_event].
        rewrite (document_erase _ _ root Hh). reflexivity.
      * rewrite !map_app, He. reflexivity.
  - intros Hm files. unfold OFK.generateXML.
    apply generate_loop_same_month. exact Hm.
Qed.

(* ----------------------------------------------------------------- *)
(** ** Required fields left empty *)

Lemma for_each_app {A} (pre post : list A) (body : A -> M unit) st :
  result (for_each pre body st) = inr tt ->
  result (for_each (pre ++ post) body st)
  = result (for_each post body (final (for_each pre body st))).
Proof.
  revert st. induction pre as [|x pre IH]; intros st H.
  - reflexivity.
  - cbn [app for_each] in *. unfold bind, result, final in *.
    destruct (body x st) as [[[e|[]] s1] o1]; cbn [fst snd] in *;
      [discriminate H|].
    specialize (IH s1).
    destruct (for_each pre body s1) as [[[e|[]] s2] o2] eqn:E;
      cbn [fst snd] in *; [discriminate H|].
    specialize (IH eq_refl).
    destruct (for_each (pre ++ post) body s1) as [[r3 s3] o3].
    cbn [fst snd] in *. exact IH.
Qed.

(** The loop over rows 4-9 of AIF.py goes through the filled cells. *)
Lemma record_info_filled parent pre st :
  Forall filled pre ->
  result (AIF.record_info_fields parent pre st) = inr tt.
Proof.
  intros H. revert st. induction H as [|[k v] pre [Hne Hd] Hpre IH]; intros st.
  - reflexivity.
  - unfold AIF.record_info_fields in *. cbn [for_each fst snd] in *.
    apply nes_true in Hne. rewrite Hne.
    destruct (existsb (String.eqb k) AIF.date_tags) eqn:E; cbn [negb].
    + destruct (Hd eq_refl) as [d ->].
      rewrite bind_result_ok with (a := tt); [apply IH|]. reflexivity.
    + rewrite bind_result_ok with (a := tt); [apply IH|]. reflexivity.
Qed.

Lemma record_info_first_empty parent pre k post st :
  Forall filled pre ->
  result (AIF.record_info_fields parent (pre ++ (k, VStr "") :: post) st)
  = inl (EmptyValueError (k ++ " field cannot be empty!")).
Proof.
  intros H. unfold AIF.record_info_fields in *.
  rewrite for_each_app by (apply (record_info_filled parent pre st H)).
  reflexivity.
Qed.

Lemma AIF_build_first_empty t now st pre k post :
  (exists root, result (AIF.header t now st) = inr root) ->
  AIF.section 4 10 t = pre ++ (k, VStr "") :: post ->
  Forall filled pre ->
  result (AIF.build t now st)
  = inl (EmptyValueError (k ++ " field cannot be empty!")).
Proof.
  intros [root Hh] Hs Hpre. unfold AIF.build.
  rewrite (bind_result_ok _ _ _ root Hh).
  apply bind_result_raise. unfold AIF.body.
  rewrite bind_SubElement. cbn [result fst].
  apply bind_result_raise. rewrite Hs.
  apply record_info_first_empty. exact Hpre.
Qed.

Lemma AIF_header_passes t now st :
  header_passes (AIF.tag_input (AIF.rows_with_id (str_range 1 4) t)) ->
  exists root, result (AIF.header t now st) = inr root.
Proof.
  intros [[t0 v0] [[t1 v1] [more [Hrows Hcheck]]]].
  rewrite (AIF_header_spec t0 t1 v0 v1 more t now st Hrows).
  cbn [fst snd] in Hcheck. rewrite Hcheck. eexists. reflexivity.
Qed.

(** An empty cell in a validated column of OFKReport.py. *)
Lemma check_cell_empty r c sheetname k :
  validated r c k ->
  OFK.check_cell r c sheetname k (VStr "")
  = OFK.Caught OFK.EmptyValueError k sheetname.
Proof.
  unfold validated, OFK.check_cell.
  intros [H | [H [s [Hs Hsel]]]]; rewrite H.
  - reflexivity.
  - rewrite Hs, Hsel. reflexivity.
Qed.

Lemma check_record_first_empty r c sheetname pre k post :
  record_passes r c sheetname pre ->
  validated r c k ->
  OFK.check_record r c sheetname (pre ++ (k, VStr "") :: post)
  = OFK.Caught OFK.EmptyValueError k sheetname.
Proof.
  unfold record_passes. intros Hpre Hk.
  induction pre as [|[k' v'] pre IH]; cbn [app OFK.check_record] in *.
  - rewrite (check_cell_empty r c sheetname k Hk). reflexivity.
  - destruct (OFK.check_cell r c sheetname k' v'); try discriminate Hpre.
    apply IH. exact Hpre.
Qed.

Lemma check_frame_first r c sheetname pre_recs rec post_recs o :
  Forall (record_passes r c sheetname) pre_recs ->
  OFK.check_record r c sheetname rec = o ->
  o <> OFK.Pass ->
  OFK.check_frame r c sheetname (pre_recs ++ rec :: post_recs) = o.
Proof.
  intros Hpre Hrec Ho. induction Hpre as [|x pre Hx Hpre IH];
    cbn [app OFK.check_frame].
  - rewrite Hrec. destruct o; try reflexivity. contradiction.
  - unfold record_passes in Hx. rewrite Hx. exact IH.
Qed.

Lemma validate_from_first all pre data post o :
  Forall (fun d => OFK.check_sheet all d = OFK.Pass) pre ->
  OFK.check_sheet all data = o ->
  o <> OFK.Pass ->
  OFK.validate_from all (pre ++ data :: post) = o.
Proof.
  intros Hpre Hd Ho. induction Hpre as [|x pre Hx Hpre IH];
    cbn [app OFK.validate_from].
  - rewrite Hd. destruct o; try reflexivity. contradiction.
  - rewrite Hx. exact IH.
Qed.

(** The first empty validated cell decides the validation. *)
Lemma validate_first_empty_cell sheets k sheetname :
  first_empty_cell sheets k sheetname ->
  OFK.validate sheets = OFK.Caught OFK.EmptyValueError k sheetname.
Proof.
  intros [pre_sheets [data [post_sheets [r [pre_recs [pre_cells [post_cells
            [post_recs [Hs [Hn [Hpre [Hr [Hf [Hrecs [Hcells Hk]]]]]]]]]]]]]]].
  unfold OFK.validate. rewrite Hs at 2.
  apply validate_from_first; [exact Hpre| |discriminate].
  unfold OFK.check_sheet. rewrite <- Hn, Hr, Hf.
  apply check_frame_first; [exact Hrecs| |discriminate].
  apply check_record_first_empty; assumption.
Qed.

Lemma OFK_header_runs today i st :
  exists ops,
    OFK.header_at today i st
    = (inr (next_id st), mkLocals (S (S (next_id st))) (vars st), ops).
Proof. eexists. reflexivity. Qed.

(** A workbook whose validation ends in EmptyValueError: two log lines,
    no document, and the loop goes on with the next workbook. *)
Lemma generate_loop_empty_value file rest today i st h k sheetname :
  OFK.validate (dataframes file)
  = OFK.Caught OFK.EmptyValueError k sheetname ->
  exists st1 h1,
    OFK.generate_loop (file :: rest) today i st h
    = (Debug ("Generating xml for --> " ++ OFK.path file ++ nl)
         :: empty_value_lines (OFK.path file) k sheetname
         ++ fst (OFK.generate_loop rest today (S i) st1 h1),
       snd (OFK.generate_loop rest today (S i) st1 h1)).
Proof.
  intros Hv. cbn [OFK.generate_loop].
  destruct (OFK_header_runs today i st) as [ops Hh]. rewrite Hh.
  unfold dataframes in Hv. rewrite Hv.
  exists (mkLocals (S (S (next_id st))) (vars st)), (replay h ops).
  destruct (OFK.generate_loop rest today (S i) _ _) as [evs e].
  reflexivity.
Qed.

(** Not every check of AIF.py is of that form: line 449 compares the whole
    list of rows with "", so a main instrument without SubAssetType goes
    through and is written with an empty SubAssetType element. *)
Remark AIF_subasset_type_not_checked :
  reports (AIF.aif_xml [AIF.mkFile "a.xlsx" Samples.aif_no_subasset] Samples.noon)
  = []
  /\ map (fun doc =>
            option_map
              (fun x => map (fun y => option_map xtext (child "SubAssetType" y))
                          (xkids x))
              (descend ["AIFRecordInfo"; "AIFCompleteDescription";
                        "AIFPrincipalInfo"; "MainInstrumentsTraded"] doc))
         (docs (AIF.aif_xml [AIF.mkFile "a.xlsx" Samples.aif_no_subasset]
                  Samples.noon))
     = [Some [Some (Some "SEC_CSH_CODP"); Some (Some "")]].
Proof. vm_compute. split; reflexivity. Qed.

(** C1, as stated, fails on an AIF sheet with rows 4 and 5 both empty: the
    build ends in the error of FilingType (row 4), so the empty
    AIFContentType (row 5) is not the field the error names. *)
Lemma second_empty_field_not_named : ~ every_empty_field_named.
Proof.
  intros claim.
  assert (H := claim Samples.aif_two_empty Samples.jan1 init_locals
                 "AIFContentType").
  assert (Hh : exists root,
             result (AIF.header Samples.aif_two_empty Samples.jan1 init_locals)
             = inr root) by (eexists; reflexivity).
  assert (Hin : In ("AIFContentType", VStr "")
                   (AIF.section 4 10 Samples.aif_two_empty))
    by (vm_compute; tauto).
  specialize (H Hh Hin). vm_compute in H. discriminate H.
Qed.

(** Every loop of the form "emit the cell, or raise on an empty one" of
    AIF.py and AIFM.py names the first empty field it meets. *)
Lemma required_fields_first_empty parent pre k post suffix st :
  Forall (fun kv => snd kv <> VStr "") pre ->
  result (AIF.required_fields parent (pre ++ (k, VStr "") :: post) suffix st)
  = inl (EmptyValueError (k ++ suffix))
  /\ result (AIFM.required_fields parent (pre ++ (k, VStr "") :: post) st)
     = inl (EmptyValueError (k ++ " field cannot be empty!")).
Proof.
  intros H. unfold AIF.required_fields, AIFM.required_fields. split.
  - rewrite for_each_app; [reflexivity|].
    clear k post. revert st. induction H as [|[k v] pre Hne Hpre IH]; intros st.
    + reflexivity.
    + cbn [for_each fst snd] in *. apply nes_true in Hne. rewrite Hne.
      rewrite bind_result_ok with (a := tt); [apply IH|]. reflexivity.
  - rewrite for_each_app; [reflexivity|].
    clear k post. revert st. induction H as [|[k v] pre Hne Hpre IH]; intros st.
    + reflexivity.
    + cbn [for_each fst snd] in *. apply nes_true in Hne. rewrite Hne.
      rewrite bind_result_ok with (a := tt); [apply IH|]. reflexivity.
Qed.

(** C1 (amended): the first required field found empty, when no check
    before it has failed, aborts the document of its file with an
    EmptyValueError that names it, and no document is written for that
    file.
    - AIF.py, rows 4-9: if the header check passes and the cells before
      field [k] are filled, [aif_xml] prints
      "[k] field cannot be empty!", stops, and has written nothing.
    - The other required-field loops of AIF.py and AIFM.py
      ([required_fields]) raise the error of the first empty field they
      meet.
    - OFKReport.py: when the empty cell of column [k] on sheet [sheetname]
      is the first cell at which the validation can stop, the validation
      ends in EmptyValueError at ([k], [sheetname]); [generateXML] logs the
      two lines of the handler, the second naming column and worksheet,
      writes no document for the workbook and goes on with the next one. *)
Theorem first_empty_required_field_aborts :
  forall (today : clock),
    (forall (before after : list AIF.File) (file : AIF.File) evs h last
            pre k post,
        AIF.aif_loop before today 0 init_locals [] None = (evs, inr (h, last)) ->
        header_passes
          (AIF.tag_input (AIF.rows_with_id (str_range 1 4) (AIF.df file))) ->
        AIF.section 4 10 (AIF.df file) = pre ++ (k, VStr "") :: post ->
        Forall filled pre ->
        stops_at_failure evs (AIF.aif_xml (before ++ file :: after) today)
          (PrintedExn (EmptyValueError (k ++ " field cannot be empty!")))
        /\ written (AIF.aif_xml (before ++ file :: after) today) = [])
    /\ (forall parent pre k post suffix st,
        Forall (fun kv => snd kv <> VStr "") pre ->
        result (AIF.required_fields parent (pre ++ (k, VStr "") :: post)
                  suffix st)
        = inl (EmptyValueError (k ++ suffix))
        /\ result (AIFM.required_fields parent (pre ++ (k, VStr "") :: post) st)
           = inl (EmptyValueError (k ++ " field cannot be empty!")))
    /\ (forall (file : OFK.File) (rest : list OFK.File) i st h k sheetname,
        first_empty_cell (dataframes file) k sheetname ->
        OFK.validate (dataframes file)
        = OFK.Caught OFK.EmptyValueError k sheetname
        /\ exists st1 h1,
             OFK.generate_loop (file :: rest) today i st h
             = (Debug ("Generating xml for --> " ++ OFK.path file ++ nl)
                  :: empty_value_lines (OFK.path file) k sheetname
                  ++ fst (OFK.generate_loop rest today (S i) st1 h1),
                snd (OFK.generate_loop rest today (S i) st1 h1))).
Proof.
  intros today. split; [|split].
  - intros before after file evs h last pre k post Hbefore Hh Hs Hpre.
    destruct (aif_xml_stops today
                (EmptyValueError (k ++ " field cannot be empty!"))
                before after file evs h last Hbefore) as [H1 [H2 _]].
    + intros st. apply AIF_build_first_empty with (pre := pre) (post := post).
      * apply AIF_header_passes. exact Hh.
      * exact Hs.
      * exact Hpre.
    + split; assumption.
  - intros parent pre k post suffix st. apply required_fields_first_empty.
  - intros file rest i st h k sheetname Hcell.
    pose proof (validate_first_empty_cell _ k sheetname Hcell) as Hv.
    split; [exact Hv|]. apply generate_loop_empty_value. exact Hv.
Qed.

(* ----------------------------------------------------------------- *)
(** ** One document per file *)

(** [aif_xml] writes once, after the loop: at most one document, whatever
    the size of the batch. *)
Lemma aif_xml_writes_at_most_once files today :
  (List.length (written (AIF.aif_xml files today)) <= 1)%nat.
Proof.
  unfold AIF.aif_xml. destruct files as [|f files]; [cbn; lia|].
  pose proof (aif_loop_no_write (f :: files) today 0 init_locals [] None)
    as [Hw _].
  destruct (AIF.aif_loop (f :: files) today 0 init_locals [] None)
    as [evs [e|[h [[output root]|]]]]; cbn [fst] in Hw;
    rewrite written_app, Hw; cbn; lia.
Qed.

Lemma written_paths_cons e evs :
  written_paths (e :: evs)
  = match e with Written p _ => [p] | _ => [] end ++ written_paths evs.
Proof. reflexivity. Qed.

(** [convert_to_xml] writes inside the loop: one document for each file
    that builds. *)
Lemma convert_loop_writes_each files today : forall i st h evs,
  AIFM.convert_loop files today i st h = (evs, None) ->
  written_paths evs
  = map (fun f => (Path.splitext (AIFM.path f) ++ ".xml")%string) files.
Proof.
  induction files as [|f files IH]; intros i st h evs H.
  - cbn in H. inversion H. reflexivity.
  - cbn [AIFM.convert_loop] in H.
    destruct (AIFM.build (AIFM.df f) (today i) st) as [[[e|root] s1] ops];
      [discriminate H|].
    destruct (AIFM.convert_loop files today (S i) s1 (replay h ops))
      as [evs1 e1] eqn:E.
    inversion H; subst. clear H.
    rewrite written_paths_cons, written_paths_app, written_paths_prints.
    rewrite written_paths_cons, written_paths_cons. cbn [app map].
    f_equal. apply (IH (S i) s1 (replay h ops) evs1 E).
Qed.

(** C3 (code at the failing input): on a batch of two AIF sheets that both
    build, [aif_xml] reports nothing and writes one document only, that of
    the second file; [convert_to_xml] on two AIFM sheets writes both.  The
    roots carry the schema location, the namespace declaration and the
    timestamp, with ".0Z" in AIF.py and without in AIFM.py. *)
Theorem AIF_writes_only_the_last_file :
  let aif := AIF.aif_xml [AIF.mkFile "a.xlsx" Samples.aif_ok;
                          AIF.mkFile "b.xlsx" Samples.aif_ok] Samples.noon in
  let aifm := AIFM.convert_to_xml [AIFM.mkFile "a.xlsx" Samples.aifm_ok;
                                   AIFM.mkFile "b.xlsx" Samples.aifm_ok]
                Samples.noon in
  reports aif = []
  /\ written_paths aif = ["b.xml"]
  /\ map root_summary (docs aif)
     = [("AIFReportingInfo", Some "AIFMD_DATAIF_V1.2.xsd",
         Some "http://www.w3.org/2001/XMLSchema-instance",
         Some "2020-04-15T12:00:00.0Z")]
  /\ reports aifm = []
  /\ written_paths aifm = ["a.xml"; "b.xml"]
  /\ map root_summary (docs aifm)
     = [("AIFMReportingInfo", Some "AIFMD_DATMAN_V1.2.xsd",
         Some "http://www.w3.org/2001/XMLSchema-instance",
         Some "2020-04-15T12:00:00");
        ("AIFMReportingInfo", Some "AIFMD_DATMAN_V1.2.xsd",
         Some "http://www.w3.org/2001/XMLSchema-instance",
         Some "2020-04-15T12:00:00")].
Proof. vm_compute. repeat split. Qed.

(* ----------------------------------------------------------------- *)
(** ** The theorems at work on the sample sheets *)


Lemma unsigned_fields_checked_where_emitted_witness :
  market_amount_rule 9 (VStr "XXX") (VStr "") (VFloat (mkFloat (5 # 2) "2.5"))
    0 init_locals
  /\ instrument_amount_rule 9 (VInt 1) (VStr "SEC_CSH_CODP") (VInt 10) init_locals
  /\ aum_euro_rule 9 Samples.amounts (VInt 1000) init_locals
  /\ aum_base_rule 9 Samples.amounts (VInt (-7)) (VStr "USD") init_locals.
Proof.
  apply (unsigned_fields_checked_where_emitted 9 init_locals
           (VStr "XXX") (VStr "") (VFloat (mkFloat (5 # 2) "2.5")) 0
           (VInt 1) (VStr "SEC_CSH_CODP") (VInt 10)
           Samples.amounts (VInt 1000) (VInt (-7)) (VStr "USD")).
  - reflexivity.
  - lia.
  - reflexivity.
  - discriminate.
  - discriminate.
  - reflexivity.
  - discriminate.
  - reflexivity.
  - reflexivity.
Defined.

Lemma batch_stops_at_failure_witness :
  (stops_at_failure
     (fst (AIFM.convert_loop [Samples.good] Samples.noon 0 init_locals []))
     (AIFM.convert_to_xml ([Samples.good] ++ Samples.bad :: [Samples.good])
        Samples.noon)
     (LogError (EmptyValueError "FilingType field cannot be empty!"))
   /\ AIFM.convert_to_xml ([Samples.good] ++ Samples.bad :: [Samples.good])
        Samples.noon
      = AIFM.convert_to_xml ([Samples.good] ++ [Samples.bad]) Samples.noon)
  /\ written_paths
       (AIFM.convert_to_xml ([Samples.good] ++ Samples.bad :: [Samples.good])
          Samples.noon)
     = ["good.xml"].
Proof.
  split.
  - apply (proj1 (batch_stops_at_failure Samples.noon
                    (EmptyValueError "FilingType field cannot be empty!"))
             [Samples.good] [Samples.good] Samples.bad).
    + vm_compute. reflexivity.
    + intros st. reflexivity.
  - vm_compute. reflexivity.
Defined.

Lemma rerun_same_up_to_timestamp_witness :
  map erase_event
    (AIFM.convert_to_xml [AIFM.mkFile "a.xlsx" Samples.aifm_ok] Samples.noon)
  = map erase_event
      (AIFM.convert_to_xml [AIFM.mkFile "a.xlsx" Samples.aifm_ok] Samples.later)
  /\ OFK.generateXML [Samples.ofk_ok] Samples.january
     = OFK.generateXML [Samples.ofk_ok]
         (fun _ => mkDatetime 2020 1 2 8 0 0).
Proof.
  split.
  - apply (proj1 (rerun_same_up_to_timestamp Samples.noon Samples.later)).
  - apply (proj2 (proj2 (rerun_same_up_to_timestamp Samples.january
                           (fun _ => mkDatetime 2020 1 2 8 0 0)))).
    intros n. split; reflexivity.
Defined.

Lemma first_empty_required_field_aborts_witness :
  (stops_at_failure []
     (AIF.aif_xml ([] ++ AIF.mkFile "leeg.xlsx" Samples.aif_second_empty :: [])
        Samples.noon)
     (PrintedExn (EmptyValueError ("AIFContentType" ++ " field cannot be empty!")))
   /\ written
        (AIF.aif_xml ([] ++ AIF.mkFile "leeg.xlsx" Samples.aif_second_empty :: [])
           Samples.noon) = [])
  /\ result (AIF.required_fields 3
               ([("AfricaNAVRate", VInt 0)] ++ ("AsiaPacificNAVRate", VStr "") :: [])
               " cannot be empty" init_locals)
     = inl (EmptyValueError ("AsiaPacificNAVRate" ++ " cannot be empty"))
  /\ (OFK.validate (dataframes Samples.ofk_bad)
      = OFK.Caught OFK.EmptyValueError "Naam" "AD-C"
      /\ exists st1 h1,
           OFK.generate_loop (Samples.ofk_bad :: [Samples.ofk_ok]) Samples.january
             0 init_locals []
           = (Debug ("Generating xml for --> " ++ OFK.path Samples.ofk_bad ++ nl)
                :: empty_value_lines (OFK.path Samples.ofk_bad) "Naam" "AD-C"
                ++ fst (OFK.generate_loop [Samples.ofk_ok] Samples.january 1 st1 h1),
              snd (OFK.generate_loop [Samples.ofk_ok] Samples.january 1 st1 h1))).
Proof.
  split; [|split].
  - apply (proj1 (first_empty_required_field_aborts Samples.noon)
             [] [] (AIF.mkFile "leeg.xlsx" Samples.aif_second_empty)
             [] [] None [("FilingType", VStr "INIT")] "AIFContentType"
             [("ReportingPeriodStartDate", VDate Samples.jan1);
              ("ReportingPeriodEndDate", VDate Samples.mar31);
              ("ReportingPeriodType", VStr "Q1");
              ("ReportingPeriodYear", VInt 2020)]).
    + reflexivity.
    + exists ("ReportingMemberState", VStr "NL"), ("Version", VStr "1.2"),
        [("CreationDateAndTime", VStr "")]. split; reflexivity.
    + reflexivity.
    + constructor; [|constructor]. split.
      * discriminate.
      * intros H. discriminate H.
  - apply (proj1 (proj1 (proj2 (first_empty_required_field_aborts Samples.noon))
                    3%nat [("AfricaNAVRate", VInt 0)] "AsiaPacificNAVRate" []
                    " cannot be empty" init_locals
                    ltac:(constructor; [discriminate | constructor]))).
  - apply (proj2 (proj2 (first_empty_required_field_aborts Samples.january))
             Samples.ofk_bad [Samples.ofk_ok] 0%nat init_locals [] "Naam" "AD-C").
    exists [], (Samples.ofk_sheet Samples.E), [], Samples.ad_c_rule,
      [], [("Regel", VInt 1)],
      [("Land", VStr "NL"); ("Dlnperc", VInt 100); ("Waarde", VInt 4);
       ("Aankoop", VInt 3); ("Verkoop", VInt 2); ("Dividend", VInt 4)], [].
    split; [reflexivity|]. split; [reflexivity|]. split; [constructor|].
    split; [reflexivity|]. split; [reflexivity|]. split; [constructor|].
    split; [reflexivity|].
    right. split; [reflexivity|]. eexists. split; reflexivity.
Defined.

(* ================================================================= *)
(** ** Which exceptions the builders raise *)

Section RaisesOnly.

Variable P : exn -> bool.

Lemma raises_only_ret {A} (a : A) : raises_only P (ret a).
Proof. intros st e H. discriminate H. Qed.

Lemma raises_only_raise {A} e : P e = true -> raises_only P (@raise A e).
Proof. intros HP st e' H. cbv in H. inversion H; subst. exact HP. Qed.

Lemma raises_only_bind {A B} (m : M A) (k : A -> M B) :
  raises_only P m -> (forall a, raises_only P (k a)) ->
  raises_only P (bind m k).
Proof.
  intros Hm Hk st e. specialize (Hm st). unfold bind, result in *.
  destruct (m st) as [[[e1|a] s1] o1]; cbn [fst] in *.
  - intros H. inversion H; subst. apply Hm. reflexivity.
  - specialize (Hk a s1). unfold result in Hk.
    destruct (k a s1) as [[r s2] o2]. cbn [fst] in *. apply Hk.
Qed.

Lemma raises_only_when b (m : M unit) :
  raises_only P m -> raises_only P (when b m).
Proof. destruct b; [trivial|intros _; apply raises_only_ret]. Qed.

Lemma raises_only_for_each {A} (l : list A) (body : A -> M unit) :
  (forall x, raises_only P (body x)) -> raises_only P (for_each l body).
Proof.
  intros H. induction l as [|x l IH]; cbn [for_each].
  - apply raises_only_ret.
  - apply raises_only_bind; [apply H|intros _; exact IH].
Qed.

Lemma raises_only_Element tg : raises_only P (Element tg).
Proof. intros st e H. discriminate H. Qed.

Lemma raises_only_SubElement p tg : raises_only P (SubElement p tg).
Proof. intros st e H. discriminate H. Qed.

Lemma raises_only_set_text id s : raises_only P (set_text id s).
Proof. intros st e H. discriminate H. Qed.

Lemma raises_only_set_attr id k v : raises_only P (set_attr id k v).
Proof. intros st e H. discriminate H. Qed.

Lemma raises_only_print s : raises_only P (print s).
Proof. intros st e H. discriminate H. Qed.

Lemma raises_only_set_var name id : raises_only P (set_var name id).
Proof. intros st e H. discriminate H. Qed.

Lemma raises_only_leaf p tg s : raises_only P (leaf p tg s).
Proof. intros st e H. discriminate H. Qed.

Lemma raises_only_getitem d k :
  P (KeyError k) = true -> raises_only P (getitem d k).
Proof.
  intros HP. unfold getitem.
  destruct (find _ d); [apply raises_only_ret|apply raises_only_raise, HP].
Qed.

Lemma raises_only_index {A} (l : list A) i :
  P IndexError = true -> raises_only P (index l i).
Proof.
  intros HP. unfold index.
  destruct (nth_error l i); [apply raises_only_ret|apply raises_only_raise, HP].
Qed.

Lemma raises_only_date_of v :
  P AttributeError = true -> raises_only P (date_of v).
Proof.
  intros HP. destruct v; cbn [date_of];
    first [apply raises_only_ret|apply raises_only_raise, HP].
Qed.

Lemma raises_only_as_str v :
  P AttributeError = true -> raises_only P (as_str v).
Proof.
  intros HP. destruct v; cbn [as_str];
    first [apply raises_only_ret|apply raises_only_raise, HP].
Qed.

Lemma raises_only_len v : P TypeError = true -> raises_only P (len v).
Proof.
  intros HP. destruct v; cbn [len];
    first [apply raises_only_ret|apply raises_only_raise, HP].
Qed.

Lemma raises_only_get_var name :
  P (UnboundLocalError name) = true -> raises_only P (get_var name).
Proof.
  intros HP st e. unfold get_var, result.
  destruct (find _ (vars st)); cbn [fst]; intros H; inversion H; subst.
  exact HP.
Qed.

End RaisesOnly.

(** One step of the walk through a builder: split a bind, take both sides
    of a test, close a primitive. *)
Ltac raises_step :=
  first
    [ apply raises_only_ret | apply raises_only_Element
    | apply raises_only_SubElement | apply raises_only_set_text
    | apply raises_only_set_attr | apply raises_only_print
    | apply raises_only_set_var | apply raises_only_leaf
    | apply raises_only_raise; reflexivity
    | apply raises_only_getitem; reflexivity
    | apply raises_only_index; reflexivity
    | apply raises_only_date_of; reflexivity
    | apply raises_only_as_str; reflexivity
    | apply raises_only_len; reflexivity
    | apply raises_only_get_var; reflexivity
    | apply raises_only_when
    | apply raises_only_for_each; intros ?
    | apply raises_only_bind; [|intros ?]
    | match goal with
      | |- raises_only _ (if ?b then _ else _) => destruct b
      | |- raises_only _ (match ?x with _ => _ end) => destruct x
      | |- raises_only _ (let '(_, _) := ?x in _) => destruct x
      end ].

Ltac raises_walk := repeat raises_step.







(* ================================================================= *)
(** ** What the batch drivers report *)






Lemma convert_loop_prefix files today : forall i st h,
  exists done rest,
    files = done ++ rest
    /\ written_paths (fst (AIFM.convert_loop files today i st h))
       = map AIFM_output done
    /\ (snd (AIFM.convert_loop files today i st h) = None <-> rest = []).
Proof.
  induction files as [|f files IH]; intros i st h.
  - exists [], []. repeat split; reflexivity.
  - cbn [AIFM.convert_loop].
    destruct (AIFM.build (AIFM.df f) (today i) st) as [[[e|root] s1] ops].
    + exists [], (f :: files). cbn [fst snd app map]. split; [reflexivity|].
      split.
      * rewrite written_paths_cons. apply written_paths_prints.
      * split; intros H; discriminate H.
    + destruct (IH (S i) s1 (replay h ops)) as [done [rest [Hf [Hw Hn]]]].
      destruct (AIFM.convert_loop files today (S i) s1 (replay h ops))
        as [evs e1]. cbn [fst snd] in *.
      exists (f :: done), rest. split; [cbn; f_equal; exact Hf|]. split.
      * rewrite written_paths_cons, written_paths_app, written_paths_prints.
        rewrite written_paths_cons, written_paths_cons. cbn [app map].
        f_equal. exact Hw.
      * exact Hn.
Qed.

Lemma reports_app a b : reports (a ++ b) = reports a ++ reports b.
Proof. unfold reports. apply filter_app. Qed.

(** X3: the documents of a batch of AIFM workbooks.  [convert_to_xml]
    writes the document of every workbook of an initial part of the batch,
    in batch order, each to the path of its workbook with the extension
    replaced by ".xml", and nothing else.  It logs no error exactly when
    that part is the whole of a batch that is not empty; otherwise the one
    error it logs is the last thing it does. *)
Theorem AIFM_documents_are_a_prefix (files : list AIFM.File) (today : clock) :
  let run := AIFM.convert_to_xml files today in
  exists done rest,
    files = done ++ rest
    /\ written_paths run = map AIFM_output done
    /\ (reports run = [] <-> files <> [] /\ rest = [])
    /\ (reports run = []
        \/ exists evs e, run = evs ++ [LogError e] /\ reports evs = []).
Proof.
  cbv zeta. destruct files as [|f files].
  - exists [], []. split; [reflexivity|]. split; [reflexivity|]. split.
    + split; [intros H; discriminate H|intros [H _]; contradiction].
    + right. exists [], no_files. split; reflexivity.
  - destruct (convert_loop_prefix (f :: files) today 0 init_locals [])
      as [done [rest [Hf [Hw Hn]]]].
    pose proof (convert_loop_no_report (f :: files) today 0 init_locals []) as Hr.
    unfold AIFM.convert_to_xml.
    destruct (AIFM.convert_loop (f :: files) today 0 init_locals [])
      as [evs [e|]]; cbn [fst snd] in *.
    + exists done, rest. split; [exact Hf|]. split.
      * rewrite written_paths_app. cbn. rewrite app_nil_r. exact Hw.
      * split.
        -- rewrite reports_app. unfold reports at 1. rewrite Hr. cbn.
           split; [intros H; discriminate H|].
           intros [_ H]. apply Hn in H. discriminate H.
        -- right. exists evs, e. split; [reflexivity|exact Hr].
    + exists done, rest. split; [exact Hf|]. rewrite app_nil_r. split; [exact Hw|].
      split.
      * split; [|intros _; exact Hr].
        intros _. split; [discriminate|]. apply Hn. reflexivity.
      * left. exact Hr.
Qed.

(* ----------------------------------------------------------------- *)
(** ** The loop of [generateXML] *)

Lemma written_paths_handler file f k sheetname :
  written_paths (OFK.handler file f k sheetname) = [].
Proof. destruct f; reflexivity. Qed.

Lemma generate_loop_written files today : forall i st h,
  snd (OFK.generate_loop files today i st h) = None ->
  written_paths (fst (OFK.generate_loop files today i st h))
  = map OFK_output (filter passes files).
Proof.
  induction files as [|f files IH]; intros i st h H.
  - reflexivity.
  - cbn [OFK.generate_loop] in *.
    destruct (OFK_header_runs today i st) as [ops Hh]. rewrite Hh in *.
    cbn [filter]. unfold passes at 1. unfold dataframes at 1.
    destruct (OFK.validate _) as [|fl k sheetname|e] eqn:Hv.
    + destruct (OFK.emit_forms _ _ _ _ _) as [[[e|[]] s2] ops2];
        [discriminate H|].
      specialize (IH (S i) s2 (replay (replay h ops) ops2)).
      destruct (OFK.generate_loop files today (S i) s2 _) as [evs e1].
      cbn [fst snd] in *. rewrite !written_paths_cons. cbn [app map].
      f_equal. apply IH. exact H.
    + specialize (IH (S i) (mkLocals (S (S (next_id st))) (vars st))
                    (replay h ops)).
      destruct (OFK.generate_loop files today (S i) _ _) as [evs e1].
      cbn [fst snd] in *. rewrite written_paths_cons, written_paths_app.
      rewrite written_paths_handler. cbn [app]. apply IH. exact H.
    + discriminate H.
Qed.

Lemma log_lines_handler file f k sheetname :
  List.length (filter is_log_line (OFK.handler file f k sheetname)) = 2%nat.
Proof. destruct f; reflexivity. Qed.

Lemma generate_loop_log_lines files today : forall i st h,
  snd (OFK.generate_loop files today i st h) = None ->
  List.length (filter is_log_line (fst (OFK.generate_loop files today i st h)))
  = (2 * List.length (filter (fun f => negb (passes f)) files))%nat.
Proof.
  induction files as [|f files IH]; intros i st h H.
  - reflexivity.
  - cbn [OFK.generate_loop] in *.
    destruct (OFK_header_runs today i st) as [ops Hh]. rewrite Hh in *.
    cbn [filter]. unfold passes at 1. unfold dataframes at 1.
    destruct (OFK.validate _) as [|fl k sheetname|e] eqn:Hv.
    + destruct (OFK.emit_forms _ _ _ _ _) as [[[e|[]] s2] ops2];
        [discriminate H|].
      specialize (IH (S i) s2 (replay (replay h ops) ops2)).
      destruct (OFK.generate_loop files today (S i) s2 _) as [evs e1].
      cbn [fst snd negb filter is_log_line] in *. apply IH. exact H.
    + specialize (IH (S i) (mkLocals (S (S (next_id st))) (vars st))
                    (replay h ops)).
      destruct (OFK.generate_loop files today (S i) _ _) as [evs e1].
      cbn [fst snd negb filter is_log_line List.length] in *.
      rewrite filter_app, length_app, log_lines_handler.
      rewrite (IH H). lia.
    + discriminate H.
Qed.

(** X4: a workbook that fails the validation does not stop [generateXML].
    When no exception escapes, the documents written are those of the
    workbooks that pass the validation, in batch order, each at the path of
    its workbook with the extension replaced by ".xml"; every workbook that
    fails costs two error lines in the log and nothing else. *)
Theorem OFK_skips_invalid_workbooks (files : list OFK.File) (today : clock) :
  snd (OFK.generateXML files today) = None ->
  written_paths (fst (OFK.generateXML files today))
  = map OFK_output (filter passes files)
  /\ List.length (filter is_log_line (fst (OFK.generateXML files today)))
     = (2 * List.length (filter (fun f => negb (passes f)) files))%nat.
Proof.
  intros H. split.
  - apply generate_loop_written. exact H.
  - apply generate_loop_log_lines. exact H.
Qed.

(* ----------------------------------------------------------------- *)
(** ** Exceptions that escape [generateXML] *)

Lemma rules_below_3 : forallb (rule_below 3) OFK.rules = true.
Proof. vm_compute. reflexivity. Qed.

Lemma rule_for_below name r : OFK.rule_for name = Some r -> rule_below 3 r = true.
Proof.
  intros H. unfold OFK.rule_for in H. apply find_some in H. destruct H as [H _].
  pose proof rules_below_3 as Hall. rewrite forallb_forall in Hall.
  apply Hall. exact H.
Qed.

Lemma selected_defined k s c :
  selector_below 3 s = true -> (3 <= List.length c)%nat ->
  exists b, OFK.selected k s c = inr b.
Proof.
  intros Hs Hc. destruct s as [slices|i]; cbn [OFK.selected].
  - eexists. reflexivity.
  - cbn [selector_below] in Hs. apply Nat.ltb_lt in Hs.
    destruct (nth_error c i) eqn:E.
    + eexists. reflexivity.
    + apply nth_error_None in E. lia.
Qed.




Lemma columns_to_validate_of all (Q : OFK.Sheet -> Prop) data :
  Forall Q all -> In data all ->
  exists d, Q d /\ OFK.columns_to_validate all (OFK.sheet data) = OFK.cols d.
Proof.
  intros Hall Hin. unfold OFK.columns_to_validate.
  destruct (find _ all) as [d|] eqn:E.
  - apply find_some in E. destruct E as [E _]. exists d. split; [|reflexivity].
    rewrite Forall_forall in Hall. apply Hall. exact E.
  - exfalso. apply (find_none _ _ E) in Hin. rewrite String.eqb_refl in Hin.
    discriminate Hin.
Qed.


Lemma emit_records_known PM data :
  known_sheet data = true -> never_raises (OFK.emit_records PM data).
Proof.
  intros Hk. unfold OFK.emit_records, never_raises.
  apply raises_only_for_each. intros values.
  unfold known_sheet in Hk.
  destruct (find _ OFK.subformRegeltag) as [kv|] eqn:E.
  - raises_walk.
  - exfalso. apply existsb_exists in Hk. destruct Hk as [kv [Hin Hkv]].
    apply (find_none _ _ E) in Hin. rewrite Hin in Hkv. discriminate Hkv.
Qed.




Lemma never_raises_result {A} (m : M A) st :
  never_raises m -> exists a, result (m st) = inr a.
Proof.
  intros H. specialize (H st). destruct (result (m st)) as [e|a].
  - specialize (H e eq_refl). discriminate H.
  - exists a. reflexivity.
Qed.

Lemma emit_records_unknown PM data st :
  known_sheet data = false -> OFK.frame data <> [] ->
  result (OFK.emit_records PM data st) = inl (KeyError (OFK.sheet data)).
Proof.
  intros Hk Hf. unfold OFK.emit_records.
  destruct (OFK.frame data) as [|values fr]; [contradiction|].
  cbn [for_each]. apply bind_result_raise. apply bind_result_raise.
  unfold known_sheet in Hk.
  destruct (find _ OFK.subformRegeltag) as [kv|] eqn:E; [|reflexivity].
  exfalso. apply find_some in E. destruct E as [Hin Hkv].
  assert (H : existsb (fun kv => String.eqb (fst kv) (OFK.sheet data))
                OFK.subformRegeltag = true).
  { apply existsb_exists. exists kv. split; assumption. }
  rewrite H in Hk. discriminate Hk.
Qed.

Lemma emit_forms_unknown root pre d post :
  forallb known_sheet pre = true ->
  known_sheet d = false -> OFK.frame d <> [] ->
  forall existing formName st,
    (existing = [] \/ exists f, formName = Some f) ->
    result (OFK.emit_forms root (pre ++ d :: post) existing formName st)
    = inl (KeyError (OFK.sheet d)).
Proof.
  intros Hpre Hd Hf.
  induction pre as [|data pre IH]; intros existing formName st Hinv;
    cbn [app OFK.emit_forms].
  - destruct (existsb _ existing) eqn:Ex.
    + destruct Hinv as [Hinv|[f Hfn]]; [subst; discriminate Ex|subst].
      rewrite bind_SubElement. cbn [result fst].
      apply bind_result_raise. apply emit_records_unknown; assumption.
    + rewrite bind_SubElement. cbn [result fst]. rewrite bind_SubElement.
      cbn [result fst].
      apply bind_result_raise. apply emit_records_unknown; assumption.
  - cbn [forallb] in Hpre. apply andb_true_iff in Hpre.
    destruct Hpre as [Hdata Hpre]. specialize (IH Hpre).
    destruct (existsb _ existing) eqn:Ex.
    + destruct Hinv as [Hinv|[f Hfn]]; [subst; discriminate Ex|subst].
      rewrite bind_SubElement. cbn [result fst].
      destruct (never_raises_result (OFK.emit_records (next_id st) data)
                  (alloc st) (emit_records_known _ _ Hdata)) as [[] Hr].
      rewrite (bind_result_ok _ _ _ tt Hr).
      apply IH. right. exists f. reflexivity.
    + rewrite bind_SubElement. cbn [result fst]. rewrite bind_SubElement.
      cbn [result fst].
      destruct (never_raises_result
                  (OFK.emit_records (next_id (alloc st)) data)
                  (alloc (alloc st)) (emit_records_known _ _ Hdata)) as [[] Hr].
      rewrite (bind_result_ok _ _ _ tt Hr).
      apply IH. right. eexists. reflexivity.
Qed.

(** X6: a sheet without a control tag.  When a workbook passes the
    validation and its first sheet whose name is not a key of
    [subformRegeltag] has a data row, the KeyError of line 778 or 789 is
    raised outside any handler: wherever the workbook stands in the batch,
    the loop of [generateXML] ends there with the KeyError escaping, nothing
    is written for that workbook, and the workbooks after it are not
    processed. *)
Theorem OFK_unknown_sheet_stops_the_batch
  (file : OFK.File) (rest : list OFK.File) (today : clock)
  (pre post : list OFK.Sheet) (d : OFK.Sheet)
  (i : nat) (st : locals) (h : heap) :
  OFK.validate (dataframes file) = OFK.Pass ->
  dataframes file = pre ++ d :: post ->
  forallb known_sheet pre = true ->
  known_sheet d = false ->
  OFK.frame d <> [] ->
  OFK.generate_loop (file :: rest) today i st h
  = ([Debug ("Generating xml for --> " ++ OFK.path file ++ nl)],
     Some (KeyError (OFK.sheet d))).
Proof.
  intros Hv Hdf Hpre Hd Hf. cbn [OFK.generate_loop].
  destruct (OFK_header_runs today i st) as [ops Hh]. rewrite Hh.
  fold (dataframes file). rewrite Hv.
  pose proof (emit_forms_unknown (next_id st) pre d post Hpre Hd Hf
                [] None (mkLocals (S (S (next_id st))) (vars st))
                (or_introl eq_refl)) as He.
  rewrite <- Hdf in He. unfold result in He.
  destruct (OFK.emit_forms _ _ _ _ _) as [[[e|[]] s2] ops2]; cbn [fst] in He.
  - inversion He. reflexivity.
  - discriminate He.
Qed.

(* ----------------------------------------------------------------- *)
(** ** The validation of [generateXML] is sound *)

Lemma check_cell_pass r c sheetname k v :
  OFK.check_cell r c sheetname k v = OFK.Pass -> cell_ok r c k v.
Proof.
  unfold OFK.check_cell, cell_ok. intros H. split.
  - intros Hsel. rewrite Hsel in H. unfold OFK.int_cell in H.
    destruct (eqs v "") eqn:Ee; [discriminate H|].
    destruct v as [s|n|f|b|d]; try discriminate H.
    exists n. split; [reflexivity|]. intros s Hs Hnn.
    cbn [type_is_not_int] in H. rewrite Hs, Hnn in H.
    cbn [OFK.ge0] in H. destruct (0 <=? n)%Z eqn:E; [|discriminate H].
    apply Z.leb_le. exact E.
  - intros Hsel s Hs Hstr. rewrite Hsel, Hs, Hstr in H.
    unfold OFK.str_cell in H.
    destruct (eqs v "") eqn:Ee; [discriminate H|].
    destruct v as [t|n|f|b|d]; try discriminate H.
    exists t. split; [reflexivity|]. split.
    + intros Ht. subst t. discriminate Ee.
    + intros Hl Hk. rewrite Hl, Hk in H. cbn [andb String.eqb] in H.
      change (String.eqb "Land" "Land") with true in H. cbn [andb] in H.
      destruct (Nat.eqb (String.length t) 2) eqn:E; [|discriminate H].
      apply Nat.eqb_eq. exact E.
Qed.

Lemma check_record_pass r c sheetname values :
  OFK.check_record r c sheetname values = OFK.Pass ->
  forall k v, In (k, v) values -> cell_ok r c k v.
Proof.
  induction values as [|[k0 v0] values IH]; intros H k v Hin.
  - destruct Hin.
  - cbn [OFK.check_record] in H.
    destruct (OFK.check_cell r c sheetname k0 v0) eqn:E; try discriminate H.
    destruct Hin as [Hin|Hin].
    + inversion Hin; subst. apply (check_cell_pass _ _ _ _ _ E).
    + apply IH; assumption.
Qed.

Lemma check_frame_pass r c sheetname fr :
  OFK.check_frame r c sheetname fr = OFK.Pass ->
  forall values, In values fr -> OFK.check_record r c sheetname values = OFK.Pass.
Proof.
  induction fr as [|v0 fr IH]; intros H values Hin.
  - destruct Hin.
  - cbn [OFK.check_frame] in H.
    destruct (OFK.check_record r c sheetname v0) eqn:E; try discriminate H.
    destruct Hin as [Hin|Hin]; [subst; exact E|apply IH; assumption].
Qed.

Lemma validate_from_pass all dfs :
  OFK.validate_from all dfs = OFK.Pass ->
  forall data, In data dfs -> OFK.check_sheet all data = OFK.Pass.
Proof.
  induction dfs as [|d0 dfs IH]; intros H data Hin.
  - destruct Hin.
  - cbn [OFK.validate_from] in H.
    destruct (OFK.check_sheet all d0) eqn:E; try discriminate H.
    destruct Hin as [Hin|Hin]; [subst; exact E|apply IH; assumption].
Qed.

Lemma check_cell_ok r c sheetname k v :
  rule_below 3 r = true -> (3 <= List.length c)%nat ->
  cell_ok r c k v -> OFK.check_cell r c sheetname k v = OFK.Pass.
Proof.
  intros Hr Hc [Hint Hstr]. unfold rule_below in Hr.
  apply andb_true_iff in Hr. destruct Hr as [Hr Hbs].
  apply andb_true_iff in Hr. destruct Hr as [Hbi Hbn].
  unfold OFK.check_cell.
  destruct (selected_defined (strip k) _ c Hbi Hc) as [b Hb]. rewrite Hb.
  destruct b.
  - destruct (Hint Hb) as [n [Hv Hn]]. subst v. unfold OFK.int_cell.
    cbn [eqs Py.eq type_is_not_int].
    destruct (OFK.nonneg_cols r) as [s|]; [|reflexivity].
    destruct (selected_defined k s c Hbn Hc) as [b Hb']. rewrite Hb'.
    destruct b; [|reflexivity].
    cbn [OFK.ge0]. specialize (Hn s eq_refl Hb').
    apply Z.leb_le in Hn. rewrite Hn. reflexivity.
  - destruct (OFK.str_cols r) as [s|]; [|reflexivity].
    destruct (selected_defined (strip k) s c Hbs Hc) as [b Hb']. rewrite Hb'.
    destruct b; [|reflexivity].
    destruct (Hstr Hb s eq_refl Hb') as [t [Hv [Ht Hl]]]. subst v.
    unfold OFK.str_cell.
    assert (He : eqs (VStr t) "" = false).
    { destruct (eqs (VStr t) "") eqn:E; [|reflexivity].
      apply eqs_true in E. inversion E. contradiction. }
    rewrite He.
    destruct (OFK.land r) eqn:El; [|reflexivity].
    destruct (String.eqb (strip k) "Land") eqn:Ek; [|reflexivity].
    apply String.eqb_eq in Ek. rewrite (Hl eq_refl Ek). reflexivity.
Qed.

Lemma check_record_ok r c sheetname values :
  rule_below 3 r = true -> (3 <= List.length c)%nat ->
  (forall k v, In (k, v) values -> cell_ok r c k v) ->
  OFK.check_record r c sheetname values = OFK.Pass.
Proof.
  intros Hr Hc. induction values as [|[k v] values IH]; intros H.
  - reflexivity.
  - cbn [OFK.check_record].
    rewrite (check_cell_ok r c sheetname k v Hr Hc) by (apply H; left; reflexivity).
    apply IH. intros k' v' Hin. apply H. right. exact Hin.
Qed.

Lemma check_frame_ok r c sheetname fr :
  rule_below 3 r = true -> (3 <= List.length c)%nat ->
  (forall values k v, In values fr -> In (k, v) values -> cell_ok r c k v) ->
  OFK.check_frame r c sheetname fr = OFK.Pass.
Proof.
  intros Hr Hc. induction fr as [|values fr IH]; intros H.
  - reflexivity.
  - cbn [OFK.check_frame].
    rewrite (check_record_ok r c sheetname values Hr Hc)
      by (intros k v Hin; apply (H values k v); [left; reflexivity|exact Hin]).
    apply IH. intros values' k v Hin Hkv. apply (H values' k v); [right|]; assumption.
Qed.

Lemma validate_from_ok all dfs :
  Forall (fun d => (3 <= List.length (OFK.cols d))%nat) all ->
  incl dfs all ->
  (forall data r values k v,
      In data dfs -> OFK.rule_for (OFK.sheet data) = Some r ->
      In values (OFK.frame data) -> In (k, v) values ->
      cell_ok r (OFK.columns_to_validate all (OFK.sheet data)) k v) ->
  OFK.validate_from all dfs = OFK.Pass.
Proof.
  intros Hall. induction dfs as [|data dfs IH]; intros Hincl H.
  - reflexivity.
  - cbn [OFK.validate_from].
    assert (Hs : OFK.check_sheet all data = OFK.Pass).
    { unfold OFK.check_sheet.
      destruct (OFK.rule_for (OFK.sheet data)) as [r|] eqn:Er; [|reflexivity].
      destruct (columns_to_validate_of all _ data Hall) as [d [Hd Heq]].
      - apply Hincl. left. reflexivity.
      - apply check_frame_ok.
        + apply (rule_for_below _ _ Er).
        + rewrite Heq. exact Hd.
        + intros values k v Hin Hkv.
          apply (H data r values k v); [left; reflexivity|exact Er| |]; assumption. }
    rewrite Hs. apply IH.
    + intros x Hx. apply Hincl. right. exact Hx.
    + intros d r values k v Hin. apply H. right. exact Hin.
Qed.

(** X7: what the validation of [generateXML] decides.  A workbook that
    passes has, on every sheet that an arm of the chain names, in every
    column the arm tests, the cell the arm asks for: an int in the int
    columns, not negative in the columns the arm asserts, a non-empty string
    in the string columns, of exactly two characters in column Land where
    the arm checks its length.  Conversely, when every sheet has at least
    three Kolomtag columns, a workbook all of whose cells are so passes. *)
Theorem OFK_validation_is_exact (sheets : list OFK.Sheet) :
  (OFK.validate sheets = OFK.Pass -> all_cells_ok sheets)
  /\ (Forall (fun d => (3 <= List.length (OFK.cols d))%nat) sheets ->
      all_cells_ok sheets -> OFK.validate sheets = OFK.Pass).
Proof.
  split.
  - intros Hv data r values k v Hd Hr Hvals Hkv.
    pose proof (validate_from_pass sheets sheets Hv data Hd) as Hs.
    unfold OFK.check_sheet in Hs. rewrite Hr in Hs.
    pose proof (check_frame_pass _ _ _ _ Hs values Hvals) as Hrec.
    apply (check_record_pass _ _ _ _ Hrec k v Hkv).
  - intros Hall Hok. apply validate_from_ok; [exact Hall|apply incl_refl|].
    exact Hok.
Qed.

(* ================================================================= *)
(** ** Where the documents go *)

Lemma string_app_assoc (a b c : string) : ((a ++ b) ++ c = a ++ (b ++ c))%string.
Proof. induction a as [|x a IH]; cbn; [reflexivity|rewrite IH; reflexivity]. Qed.

Lemma string_length_app (a b : string) :
  String.length (a ++ b) = (String.length a + String.length b)%nat.
Proof. induction a as [|x a IH]; cbn; [reflexivity|rewrite IH; reflexivity]. Qed.

Lemma substring_app (a b : string) : substring 0 (String.length a) (a ++ b) = a.
Proof.
  induction a as [|x a IH]; cbn.
  - destruct b; reflexivity.
  - rewrite IH. reflexivity.
Qed.

Lemma rfind_from_none c s : forall i,
  contains c s = false -> Path.rfind_from c s i = None.
Proof.
  induction s as [|d s IH]; intros i H; cbn in *.
  - reflexivity.
  - apply orb_false_iff in H. destruct H as [Hd Hs].
    rewrite (IH (S i) Hs), Hd. reflexivity.
Qed.

Lemma rfind_from_app c a b : forall i,
  Path.rfind_from c (a ++ b) i
  = match Path.rfind_from c b (i + String.length a) with
    | Some j => Some j
    | None => Path.rfind_from c a i
    end.
Proof.
  induction a as [|d a IH]; intros i; cbn.
  - rewrite Nat.add_0_r. destruct (Path.rfind_from c b i); reflexivity.
  - rewrite IH. replace (S i + String.length a)%nat
      with (i + S (String.length a))%nat by lia.
    destruct (Path.rfind_from c b _); reflexivity.
Qed.

Lemma rfind_from_bound c s : forall i j,
  Path.rfind_from c s i = Some j -> (i <= j < i + String.length s)%nat.
Proof.
  induction s as [|d s IH]; intros i j H; cbn in *.
  - discriminate H.
  - destruct (Path.rfind_from c s (S i)) as [j'|] eqn:E.
    + inversion H; subst. apply IH in E. lia.
    + destruct (Ascii.eqb c d); inversion H; subst. lia.
Qed.

Lemma has_non_dot_at s : forall a b n ch,
  String.get n s = Some ch -> ch <> "."%char -> (a <= n < b)%nat ->
  Path.has_non_dot s a b = true.
Proof.
  induction s as [|d s IH]; intros a b n ch Hg Hne Hn; cbn in *.
  - discriminate Hg.
  - destruct b as [|b]; [lia|]. destruct n as [|n].
    + inversion Hg; subst. destruct a; [|lia].
      destruct (Ascii.eqb ch ".") eqn:E.
      * apply Ascii.eqb_eq in E. contradiction.
      * reflexivity.
    + destruct a as [|a].
      * rewrite (IH 0%nat b n ch Hg Hne) by lia. apply orb_true_r.
      * apply (IH a b n ch Hg Hne). lia.
Qed.

Lemma get_app_head (a : string) c (b : string) :
  String.get (String.length a) (a ++ String c b) = Some c.
Proof. induction a as [|x a IH]; cbn; [reflexivity|exact IH]. Qed.

Lemma contains_app c a b : contains c (a ++ b) = contains c a || contains c b.
Proof.
  induction a as [|d a IH]; cbn; [reflexivity|].
  rewrite IH. apply orb_assoc.
Qed.

Lemma splitext_stem dir c name ext :
  c <> "."%char ->
  contains "/" (String c name) = false ->
  contains "." ext = false ->
  contains "/" ext = false ->
  Path.splitext (dir ++ String c name ++ "." ++ ext) = (dir ++ String c name)%string.
Proof.
  intros Hc Hname Hdot Hsl.
  set (stem := (dir ++ String c name)%string).
  assert (Hp : (dir ++ String c name ++ "." ++ ext
                = stem ++ String "." ext)%string).
  { unfold stem. rewrite string_app_assoc. reflexivity. }
  rewrite Hp. unfold Path.splitext, Path.rfind.
  assert (Hd : Path.rfind_from "." (stem ++ String "." ext) 0
               = Some (String.length stem)).
  { rewrite rfind_from_app. cbn [Path.rfind_from].
    rewrite (rfind_from_none _ _ _ Hdot). reflexivity. }
  rewrite Hd.
  assert (Hs : Path.rfind_from "/" (stem ++ String "." ext) 0
               = Path.rfind_from "/" dir 0).
  { unfold stem. rewrite string_app_assoc. rewrite rfind_from_app.
    rewrite rfind_from_none; [reflexivity|].
    rewrite contains_app. rewrite Hname. cbn. exact Hsl. }
  rewrite Hs.
  assert (Hlen : String.length stem
                 = (String.length dir + S (String.length name))%nat).
  { unfold stem. rewrite string_length_app. reflexivity. }
  assert (Hget : String.get (String.length dir) (stem ++ String "." ext)
                 = Some c).
  { unfold stem. rewrite string_app_assoc. cbn [append].
    apply get_app_head. }
  destruct (Path.rfind_from "/" dir 0) as [j|] eqn:Ej.
  - apply rfind_from_bound in Ej.
    replace (S j <=? String.length stem)%nat with true
      by (symmetry; apply Nat.leb_le; lia).
    rewrite (has_non_dot_at _ (S j) (String.length stem) (String.length dir) c
               Hget Hc) by lia.
    cbn [andb]. apply substring_app.
  - cbn [Nat.leb].
    rewrite (has_non_dot_at _ 0%nat (String.length stem) (String.length dir) c
               Hget Hc) by lia.
    cbn [andb]. apply substring_app.
Qed.

Lemma splitext_no_dot p : contains "." p = false -> Path.splitext p = p.
Proof.
  intros H. unfold Path.splitext, Path.rfind.
  rewrite (rfind_from_none _ _ _ H). reflexivity.
Qed.

(** X8: where a document goes.  The three scripts write the document of a
    workbook to [os.path.splitext(file)[0] + '.xml'].  For a path whose file
    name starts with a character other than a dot and ends in an extension
    (no dot or slash in it), that is the same path with the extension
    replaced by "xml", directory kept: a workbook and its document lie side
    by side, and two workbooks that differ in their extension only
    (report.xls, report.xlsx: the two patterns the scripts collect) are
    written to one and the same file.  A path with no dot at all gets
    ".xml" appended. *)
Theorem output_path_replaces_extension
  (dir name ext ext' : string) (c : ascii) (t t' : AIFM.table) (p : string) :
  c <> "."%char ->
  contains "/" (String c name) = false ->
  contains "." ext = false -> contains "/" ext = false ->
  contains "." ext' = false -> contains "/" ext' = false ->
  contains "." p = false ->
  AIFM_output (AIFM.mkFile (dir ++ String c name ++ "." ++ ext) t)
  = (dir ++ String c name ++ ".xml")%string
  /\ AIFM_output (AIFM.mkFile (dir ++ String c name ++ "." ++ ext) t)
     = AIFM_output (AIFM.mkFile (dir ++ String c name ++ "." ++ ext') t')
  /\ AIFM_output (AIFM.mkFile p t) = (p ++ ".xml")%string.
Proof.
  intros Hc Hn Hd Hs Hd' Hs' Hp. unfold AIFM_output. cbn [AIFM.path].
  rewrite (splitext_stem dir c name ext Hc Hn Hd Hs).
  rewrite (splitext_stem dir c name ext' Hc Hn Hd' Hs').
  rewrite (splitext_no_dot p Hp).
  split; [|split]; try reflexivity.
  rewrite string_app_assoc. reflexivity.
Qed.

(* ----------------------------------------------------------------- *)
(** ** The year-month stamp of OFKReport.py *)

(** X9: the stamp [generateXML] puts into [xsi:schemaLocation] and into
    [rappOpmerkingen] is the year, a dash, the character 0 and the number of
    the month before the current one.  From January to October that is the
    previous month's number on two digits (00 in January, never 12 of the
    year before); in November and December it has three digits, 010 and
    011. *)
Theorem OFK_stamp_by_month (t1 t2 : datetime) :
  (1 <= month t2 <= 12)%Z ->
  ((month t2 <= 10)%Z ->
   OFK.file_date t1 t2
   = (pad 4 (year t1) ++ "-" ++ pad 2 (month t2 - 1))%string)
  /\ (month t2 = 11%Z ->
      OFK.file_date t1 t2 = (pad 4 (year t1) ++ "-" ++ "010")%string)
  /\ (month t2 = 12%Z ->
      OFK.file_date t1 t2 = (pad 4 (year t1) ++ "-" ++ "011")%string).
Proof.
  intros Hm. unfold OFK.file_date. split; [|split].
  - intros Hle.
    assert (H : (month t2 = 1 \/ month t2 = 2 \/ month t2 = 3 \/ month t2 = 4
                 \/ month t2 = 5 \/ month t2 = 6 \/ month t2 = 7
                 \/ month t2 = 8 \/ month t2 = 9 \/ month t2 = 10)%Z) by lia.
    repeat (destruct H as [H|H]); rewrite H; reflexivity.
  - intros H. rewrite H. reflexivity.
  - intros H. rewrite H. reflexivity.
Qed.

(* ================================================================= *)
(** ** AIFM.py: the principal-market and principal-instrument rows *)

Lemma creates_market_row_prefix PM pm0 counter st tg :
  tg <> "AIFMFivePrincipalMarket" -> tg <> "Ranking" ->
  tg <> "MarketIdentification" -> tg <> "MarketCodeType" ->
  creates tg (market_row_prefix PM pm0 counter st) = false.
Proof.
  intros H1 H2 H3 H4. unfold market_row_prefix, creates. cbn [existsb].
  apply String.eqb_neq in H1, H2, H3, H4.
  rewrite String.eqb_sym in H1, H2, H3, H4.
  rewrite H1, H2, H3, H4. reflexivity.
Qed.

(** X10: the MarketCode of a principal-market row of an AIFM sheet.  For
    a row whose code type is MIC: an empty market code is refused with
    EmptyValueError, a market code of more than four characters with
    LengthValueRequiredError (the length is measured before [strip], so
    four letters followed by a blank are refused), a market code that is
    not text (a number cell) ends in TypeError, and a text of one to four
    characters is emitted, stripped, as MarketCode inside
    MarketIdentification.  For the code types XXX, OTC and NOT no MarketCode
    element is created and none of these errors is raised, whatever the
    cell holds. *)
Theorem AIFM_market_code_rule
  (PM : nat) (pm0 pm1 pm2 : value) (counter : nat) (st : locals) :
  in_strs pm0 AIFM.market_codes = true ->
  (counter < 5)%nat ->
  let r := AIFM.market_row PM (pm0, pm1, pm2) counter st in
  (pm0 = VStr "MIC" ->
   (pm1 = VStr "" ->
    result r = inl (EmptyValueError "MarketCode is required for MIC market codes!"))
   /\ (forall s, pm1 = VStr s -> (4 < String.length s)%nat ->
       result r = inl (LengthValueRequiredError
                         "Maximum length of 4 is required for MarketCode!"))
   /\ ((forall s, pm1 <> VStr s) -> result r = inl TypeError)
   /\ (forall s, pm1 = VStr s -> s <> "" -> (String.length s <= 4)%nat ->
       emits r (S (S (next_id st))) "MarketCode" (strip s))
   /\ (result r = inr tt -> creates "MarketCode" (calls r) = true))
  /\ (pm0 <> VStr "MIC" ->
      creates "MarketCode" (calls r) = false
      /\ (forall msg, result r <> inl (EmptyValueError msg))
      /\ (forall msg, result r <> inl (LengthValueRequiredError msg))
      /\ result r <> inl TypeError).
Proof.
  intros Hin Hc. cbv zeta. split.
  - intros H0. subst pm0. split; [|split; [|split; [|split]]].
    + intros H1. subst pm1. unfold AIFM.market_row. rewrite Hin. run.
      rewrite (ranks_at counter Hc). reflexivity.
    + intros s H1 Hlen. subst pm1. unfold AIFM.market_row. rewrite Hin. run.
      rewrite (ranks_at counter Hc). cbn [fst snd app].
      destruct s as [|a s]; [cbn in Hlen; lia|].
      cbn [eqs Py.eq String.eqb andb fst snd app].
      apply Nat.ltb_lt in Hlen. rewrite Hlen. reflexivity.
    + intros H1. unfold AIFM.market_row. rewrite Hin. run.
      rewrite (ranks_at counter Hc). cbn [fst snd app].
      destruct pm1 as [s|n|f|b|d]; [exfalso; apply (H1 s); reflexivity| | | |];
        reflexivity.
    + intros s H1 Hne Hlen. subst pm1.
      rewrite (market_row_spec PM (VStr "MIC") (VStr s) pm2 counter st Hin Hc).
      * cbv zeta. change (eqs (VStr "MIC") "MIC") with true.
        change (nes (VStr "MIC") "NOT") with true. cbn iota.
        destruct (not_unsigned pm2); unfold emits, calls; cbn [snd];
          exists (market_row_prefix PM (VStr "MIC") counter st);
          eexists; eexists; reflexivity.
      * unfold market_code_ok. change (eqs (VStr "MIC") "MIC") with true.
        cbn iota. apply andb_true_iff. split.
        -- apply negb_true_iff. apply String.eqb_neq. exact Hne.
        -- apply Nat.leb_le. exact Hlen.
    + intros Hres. destruct (market_code_ok (VStr "MIC") pm1) eqn:Hok.
      * rewrite (market_row_spec PM (VStr "MIC") pm1 pm2 counter st Hin Hc Hok).
        cbv zeta. change (eqs (VStr "MIC") "MIC") with true.
        change (nes (VStr "MIC") "NOT") with true. cbn iota.
        destruct (not_unsigned pm2); unfold calls; cbn [snd];
          rewrite creates_app; apply orb_true_iff; right; reflexivity.
      * exfalso. revert Hres. unfold market_code_ok in Hok.
        change (eqs (VStr "MIC") "MIC") with true in Hok. cbn iota in Hok.
        unfold AIFM.market_row. rewrite Hin. run.
        rewrite (ranks_at counter Hc). cbn [fst snd app].
        destruct pm1 as [s|n|f|b|d]; try (intros E; discriminate E).
        apply andb_false_iff in Hok. destruct Hok as [Hok|Hok].
        -- apply negb_false_iff in Hok. unfold eqs. cbn [Py.eq]. rewrite Hok.
           intros E; discriminate E.
        -- unfold eqs. cbn [Py.eq].
           destruct (String.eqb s ""); [intros E; discriminate E|].
           cbn [andb fst snd app]. apply Nat.leb_gt in Hok.
           apply Nat.ltb_lt in Hok. rewrite Hok. intros E; discriminate E.
  - intros H0.
    assert (Hm : eqs pm0 "MIC" = false).
    { destruct (eqs pm0 "MIC") eqn:E; [|reflexivity].
      apply eqs_true in E. contradiction. }
    assert (Hok : market_code_ok pm0 pm1 = true).
    { unfold market_code_ok. rewrite Hm. reflexivity. }
    rewrite (market_row_spec PM pm0 pm1 pm2 counter st Hin Hc Hok).
    cbv zeta. rewrite Hm. cbn iota. rewrite app_nil_r.
    assert (Hp : creates "MarketCode" (market_row_prefix PM pm0 counter st) = false)
      by (apply creates_market_row_prefix; discriminate).
    destruct (nes pm0 "NOT"); [destruct (not_unsigned pm2)|];
      unfold calls, result; cbn [fst snd];
      (split; [try rewrite creates_app; try rewrite Hp; reflexivity|]);
      (split; [intros msg E; discriminate E|]);
      (split; [intros msg E; discriminate E|intros E; discriminate E]).
Qed.

(** A bind that succeeds: both halves did. *)
Lemma bind_inr {A B} (m : M A) (k : A -> M B) st b :
  result (bind m k st) = inr b ->
  exists a, result (m st) = inr a /\ result (k a (final (m st))) = inr b.
Proof.
  unfold bind, result, final.
  destruct (m st) as [[[e|a] s1] o1]; cbn [fst snd].
  - intros H. discriminate H.
  - intros H. exists a. split; [reflexivity|].
    destruct (k a s1) as [[r s2] o2]. exact H.
Qed.

Lemma market_row_needs_rank PM pm counter st :
  result (AIFM.market_row PM pm counter st) = inr tt -> (counter < 5)%nat.
Proof.
  destruct pm as [[pm0 pm1] pm2]. unfold AIFM.market_row.
  destruct (in_strs pm0 AIFM.market_codes); [|intros H; discriminate H].
  destruct (Nat.lt_ge_cases counter 5) as [Hc|Hc]; [intros _; exact Hc|].
  run. replace (nth_error AIFM.ranks counter) with (@None Z).
  - intros H. discriminate H.
  - symmetry. apply nth_error_None. cbn. exact Hc.
Qed.

Lemma market_row_sixth PM pm0 pm1 pm2 counter st :
  in_strs pm0 AIFM.market_codes = true -> (5 <= counter)%nat ->
  result (AIFM.market_row PM (pm0, pm1, pm2) counter st) = inl IndexError.
Proof.
  intros Hin Hc. unfold AIFM.market_row. rewrite Hin. run.
  replace (nth_error AIFM.ranks counter) with (@None Z).
  - reflexivity.
  - symmetry. apply nth_error_None. cbn. exact Hc.
Qed.

Lemma markets_loop_bound PM rows : forall counter st,
  (counter <= 5)%nat ->
  result (AIFM.markets_loop PM rows counter st) = inr tt ->
  (counter + List.length rows <= 5)%nat.
Proof.
  induction rows as [|pm rows IH]; intros counter st Hc H.
  - cbn. lia.
  - cbn [AIFM.markets_loop List.length] in *.
    apply bind_inr in H. destruct H as [[] [Hrow Hrest]].
    apply market_row_needs_rank in Hrow.
    apply IH in Hrest; lia.
Qed.

Lemma AIFM_build_markets_ok t now st root :
  result (AIFM.build t now st) = inr root ->
  exists PM st',
    result (AIFM.markets_loop PM
              (AIFM.market_cells (AIFM.rows_with_id AIFM.principalMRows t))
              0 st') = inr tt.
Proof.
  intros H. unfold AIFM.build in H.
  apply bind_inr in H. destruct H as [r [_ H]].
  apply bind_inr in H. destruct H as [[] [H _]].
  unfold AIFM.body in H. cbv zeta in H.
  do 8 (apply bind_inr in H; destruct H as [? [_ H]]).
  apply bind_inr in H. destruct H as [[] [H _]].
  eexists. eexists. exact H.
Qed.

(** X11: five ranks and no more.  The loop over the principal markets of
    an AIFM sheet takes the rank of a row from the list 1..5 by position,
    so a sixth row with an accepted code type ends in IndexError, and a
    sheet that builds has at most five rows whose identifier is one of
    '1st'..'5th'. *)
Theorem AIFM_at_most_five_markets :
  (forall PM pre pm0 pm1 pm2 post st,
      result (AIFM.markets_loop PM pre 0 st) = inr tt ->
      List.length pre = 5%nat ->
      in_strs pm0 AIFM.market_codes = true ->
      result (AIFM.markets_loop PM (pre ++ (pm0, pm1, pm2) :: post) 0 st)
      = inl IndexError)
  /\ (forall t now st root,
         result (AIFM.build t now st) = inr root ->
         (List.length (AIFM.rows_with_id AIFM.principalMRows t) <= 5)%nat).
Proof.
  split.
  - intros PM pre pm0 pm1 pm2 post st Hpre Hlen Hin.
    rewrite (markets_loop_app PM pre _ 0 st Hpre). cbn [result fst].
    cbn [AIFM.markets_loop]. apply bind_result_raise.
    apply market_row_sixth; [exact Hin|]. cbn. lia.
  - intros t now st root H.
    destruct (AIFM_build_markets_ok t now st root H) as [PM [st' Hm]].
    apply markets_loop_bound in Hm; [|lia].
    unfold AIFM.market_cells in Hm. rewrite length_map in Hm. exact Hm.
Qed.

(** X12: a principal-instrument row of an AIFM sheet.  An empty
    SubAssetType and, after it, an empty amount are refused with
    EmptyValueError before anything is created; the amount is required even
    on a row NTA_NTA_NOTA, whose amount is never emitted.  A row that gets
    past the two checks carries as Ranking the text of its own identifier
    cell (the rank is read from the row, not counted as for the principal
    markets) and as SubAssetType its sub-asset type, stripped. *)
Theorem AIFM_instrument_row_rule (PI : nat) (pi0 pi1 pi2 : value) (st : locals) :
  let r := AIFM.instrument_row PI (pi0, pi1, pi2) st in
  (pi1 = VStr "" ->
   r = (inl (EmptyValueError
               "SubAssetType field cannot be empty! Check values in rows 40-44, column C of template"),
        st, []))
  /\ (pi1 <> VStr "" -> pi2 = VStr "" ->
      r = (inl (EmptyValueError
                  "AggregatedValueAmount field cannot be empty! Check values in rows 40-44, column C of template"),
           st, []))
  /\ (pi1 <> VStr "" -> pi2 <> VStr "" ->
      exists rest,
        calls r
        = [NewSubElement PI "AIFMPrincipalInstrument";
           NewSubElement (next_id st) "Ranking";
           SetText (S (next_id st)) (strip (str pi0));
           NewSubElement (next_id st) "SubAssetType";
           SetText (S (S (next_id st))) (strip (str pi1))] ++ rest).
Proof.
  cbv zeta. unfold AIFM.instrument_row. split; [|split].
  - intros H. subst pi1. reflexivity.
  - intros H1 H2. subst pi2. apply nes_true in H1. unfold nes in H1.
    apply negb_true_iff in H1. rewrite H1. reflexivity.
  - intros H1 H2. apply nes_true in H1, H2. unfold nes in H1, H2.
    apply negb_true_iff in H1, H2. rewrite H1, H2. run.
    unfold nes. destruct (negb (eqs pi1 "NTA_NTA_NOTA"));
      [destruct (not_unsigned pi2)|]; cbn [fst snd app];
      eexists; reflexivity.
Qed.

(* ----------------------------------------------------------------- *)
(** ** Rows 10-13: a change of reporting obligation *)

Lemma getitem_ret (d : dict) (k : string) (v : value) :
  lookup d k = Some v -> getitem d k = ret v.
Proof.
  unfold lookup, getitem.
  destruct (find (fun kv => String.eqb (fst kv) k) d) as [kv|]; simpl.
  - intros H. inversion H. reflexivity.
  - discriminate.
Qed.

(** Find the place of a leaf in a list of calls that is written out. *)
Ltac emits_from L n :=
  first
    [ exists (firstn n L); cbn [firstn app]; eexists; eexists; reflexivity
    | lazymatch n with
      | 60%nat => fail 1 "no such leaf"
      | _ => emits_from L (S n)
      end ].

Ltac show_emits :=
  unfold emits; cbn [calls snd];
  lazymatch goal with
  | |- exists before id after, ?L = _ => emits_from L 0%nat
  end.

Ltac decide_cell H :=
  first [ apply nes_true in H | apply nes_false in H
        | apply eqs_true in H ].

(** X13: a change of reporting obligation (rows 10-13 of an AIFM or AIF
    sheet).  The quarter of the change is asked for exactly when a change is
    announced, that is when the frequency code is truthy or the contents
    code is not the empty string: then an empty quarter is refused with
    EmptyValueError and a given one is emitted; with no change announced
    the quarter is never emitted, filled in or not.  The last-reporting flag
    is required in every case and is emitted in lower case. *)
Theorem obligation_change_rule
  (RI : nat) (d : dict) (freq cont q flag : value) (st : locals) :
  (lookup d "AIFMReportingObligationChangeFrequencyCode" = Some freq ->
   lookup d "AIFMReportingObligationChangeContentsCode" = Some cont ->
   lookup d "AIFMReportingObligationChangeQuarter" = Some q ->
   lookup d "LastReportingFlag" = Some flag ->
   quarter_rule (AIFM.obligation_change RI d st) RI
     "AIFMReportingObligationChangeQuarter" freq cont q flag)
  /\ (lookup d "AIFReportingObligationChangeFrequencyCode" = Some freq ->
      lookup d "AIFReportingObligationChangeContentsCode" = Some cont ->
      lookup d "AIFReportingObligationChangeQuarter" = Some q ->
      lookup d "LastReportingFlag" = Some flag ->
      quarter_rule (AIF.obligation_change RI d st) RI
        "AIFReportingObligationChangeQuarter" freq cont q flag).
Proof.
  split; intros Hf Hc Hq Hl.
  - unfold AIFM.obligation_change.
    rewrite (getitem_ret _ _ _ Hf), (getitem_ret _ _ _ Hc),
      (getitem_ret _ _ _ Hq), (getitem_ret _ _ _ Hl).
    unfold quarter_rule. cbv zeta. run.
    destruct (nes freq "") eqn:E1, (nes cont "") eqn:E2, (truthy freq) eqn:E3,
      (nes q "") eqn:E4, (nes flag "") eqn:E5;
      cbn [orb fst snd app];
      decide_cell E4; decide_cell E5;
      (split; [intros H0 H1; first [discriminate H0|contradiction|reflexivity]|]);
      (split; [intros H0 H1; first [discriminate H0|contradiction|show_emits]|]);
      (split; [intros H0; first [discriminate H0|reflexivity]|]);
      (intros H0; split;
       [intros H1; first [destruct H0 as [H0|H0]; [discriminate H0|contradiction]
                         |contradiction|reflexivity]
       |intros H1; first [destruct H0 as [H0|H0]; [discriminate H0|contradiction]
                         |contradiction|split; [reflexivity|show_emits]]]).
  - unfold AIF.obligation_change.
    rewrite (getitem_ret _ _ _ Hf), (getitem_ret _ _ _ Hc),
      (getitem_ret _ _ _ Hq), (getitem_ret _ _ _ Hl).
    unfold quarter_rule. cbv zeta. run.
    destruct (nes freq "") eqn:E1, (nes cont "") eqn:E2, (truthy freq) eqn:E3,
      (nes q "") eqn:E4, (nes flag "") eqn:E5;
      cbn [orb fst snd app];
      decide_cell E4; decide_cell E5;
      (split; [intros H0 H1; first [discriminate H0|contradiction|reflexivity]|]);
      (split; [intros H0 H1; first [discriminate H0|contradiction|show_emits]|]);
      (split; [intros H0; first [discriminate H0|reflexivity]|]);
      (intros H0; split;
       [intros H1; first [destruct H0 as [H0|H0]; [discriminate H0|contradiction]
                         |contradiction|reflexivity]
       |intros H1; first [destruct H0 as [H0|H0]; [discriminate H0|contradiction]
                         |contradiction|split; [reflexivity|show_emits]]]).
Qed.

(* ----------------------------------------------------------------- *)
(** ** Rows 22-25 of an AIFM sheet: the identifiers of the manager *)

(** X14: the identifiers of the manager.  With no row 22-25 in the sheet
    nothing is created, not even the AIFMIdentifier element.  Otherwise
    AIFMIdentifier is created and holds the LEI and the BIC when they are
    not empty, and ReportingMemberState together with AIFMNationalCode when
    the member state is filled in: the national code is emitted only along
    with the member state (empty if it is empty), and a national code
    without member state is dropped without an error. *)
Theorem AIFM_identifier_rule
  (CD : nat) (d : dict) (lei bic rms nc : value) (st : locals) :
  AIFM.identifiers CD [] st = (inr tt, st, [])
  /\ (d <> [] ->
      lookup d "AIFMIdentifierLEI" = Some lei ->
      lookup d "AIFMIdentifierBIC" = Some bic ->
      lookup d "ReportingMemberState" = Some rms ->
      lookup d "AIFMNationalCode" = Some nc ->
      let r := AIFM.identifiers CD d st in
      let state_given := truthy rms && nes rms "" in
      result r = inr tt
      /\ creates "AIFMIdentifier" (calls r) = true
      /\ creates "AIFMIdentifierLEI" (calls r) = nes lei ""
      /\ creates "AIFMIdentifierBIC" (calls r) = nes bic ""
      /\ creates "ReportingMemberState" (calls r) = state_given
      /\ creates "AIFMNationalCode" (calls r) = state_given
      /\ (state_given = true ->
          emits r (next_id st) "ReportingMemberState" (strip (str rms))
          /\ emits r (next_id st) "AIFMNationalCode" (strip (str nc)))).
Proof.
  split; [reflexivity|].
  intros Hd Hl Hb Hr Hn. cbv zeta. unfold AIFM.identifiers.
  destruct d as [|kv d]; [contradiction|].
  rewrite (getitem_ret _ _ _ Hl), (getitem_ret _ _ _ Hb),
    (getitem_ret _ _ _ Hr), (getitem_ret _ _ _ Hn).
  run.
  destruct (nes lei ""), (nes bic ""), (truthy rms), (nes rms "");
    cbn [andb fst snd app];
    (repeat split; try reflexivity; try discriminate;
     try (intros H; discriminate H);
     try (intros _; show_emits); try show_emits).
Qed.

(* ================================================================= *)
(** ** AIF.py: the identifier blocks (rows 24-32 and 45-47) *)

Lemma bound_to_dict_set vs name c n :
  bound_to name (mkLocals n (dict_set vs name c)) = Some c.
Proof.
  unfold bound_to. cbn [vars].
  induction vs as [|[k v] vs IH]; cbn [dict_set find fst].
  - rewrite String.eqb_refl. reflexivity.
  - destruct (String.eqb k name) eqn:E; cbn [find fst].
    + rewrite E. reflexivity.
    + rewrite E. exact IH.
Qed.

Lemma get_var_bound name c st :
  bound_to name st = Some c -> get_var name st = (inr c, st, []).
Proof.
  unfold bound_to, get_var. destruct (find _ (vars st)) as [kv|]; cbn.
  - intros H. inversion H. reflexivity.
  - discriminate.
Qed.

Lemma get_var_unbound name st :
  bound_to name st = None ->
  get_var name st = (inl (UnboundLocalError name), st, []).
Proof.
  unfold bound_to, get_var. destruct (find _ (vars st)) as [kv|]; cbn.
  - discriminate.
  - reflexivity.
Qed.

(** After the first item the loop only reads the variable. *)
Lemma first_creates_later create var c items : forall counter st,
  bound_to var st = Some c ->
  exists n,
    AIF.first_creates create var items (S counter) st
    = (inr tt, mkLocals n (vars st), leaves c items (next_id st)).
Proof.
  induction items as [|[k v] items IH]; intros counter st Hb.
  - exists (next_id st). destruct st. reflexivity.
  - cbn [AIF.first_creates leaves]. destruct (nes v "").
    + unfold bind at 1. unfold bind at 1. rewrite (get_var_bound _ _ _ Hb).
      unfold leaf, bind, SubElement, set_text, emit. cbn [app next_id vars].
      destruct (IH (S counter) (mkLocals (S (next_id st)) (vars st)) Hb)
        as [n Hn].
      rewrite Hn. exists n. reflexivity.
    + rewrite bind_ret. apply IH. exact Hb.
Qed.

(** With nothing bound, the first non-empty item after the first place
    ends the loop. *)
Lemma first_creates_unbound create var pre k v post : forall counter st,
  Forall (fun kv => snd kv = VStr "") pre ->
  v <> VStr "" ->
  bound_to var st = None ->
  AIF.first_creates create var (pre ++ (k, v) :: post) (S counter) st
  = (inl (UnboundLocalError var), st, []).
Proof.
  intros counter st Hpre Hv Hb. revert counter.
  induction Hpre as [|[k0 v0] pre H0 Hpre IH]; intros counter;
    cbn [app AIF.first_creates].
  - apply nes_true in Hv. rewrite Hv.
    unfold bind at 1. unfold bind at 1. rewrite (get_var_unbound _ _ Hb).
    reflexivity.
  - cbn [snd] in H0. subst v0. change (nes (VStr "") "") with false.
    cbv iota. rewrite bind_ret. apply IH.
Qed.

Lemma first_creates_skip create var k0 rest st :
  AIF.first_creates create var ((k0, VStr "") :: rest) 0 st
  = AIF.first_creates create var rest 1 st.
Proof.
  cbn [AIF.first_creates]. change (nes (VStr "") "") with false.
  cbv iota. rewrite bind_ret. reflexivity.
Qed.

Lemma conditional_check_passes d rms anc :
  lookup d "ReportingMemberState" = Some rms ->
  lookup d "AIFNationalCode" = Some anc ->
  (rms = VStr "" <-> anc = VStr "") ->
  (nes rms "" && eqs anc "") || (nes anc "" && eqs rms "") = false.
Proof.
  intros _ _ H.
  destruct (eqs rms "") eqn:E1, (eqs anc "") eqn:E2; unfold nes;
    rewrite ?E1, ?E2; try reflexivity; exfalso.
  - apply eqs_true in E1. apply H in E1. apply eqs_true in E1.
    rewrite E1 in E2. discriminate E2.
  - apply eqs_true in E2. apply H in E2. apply eqs_true in E2.
    rewrite E2 in E1. discriminate E1.
Qed.

Lemma identification_runs PI d st :
  d <> [] -> state_and_code_agree d ->
  AIF.identification PI d st
  = AIF.first_creates (SubElement PI "AIFIdentification") "AIFIdentification"
      d 0 st.
Proof.
  intros Hd [rms [anc [Hr [Ha Hiff]]]]. unfold AIF.identification.
  destruct d as [|kv d]; [contradiction|].
  rewrite (getitem_ret _ _ _ Hr), (getitem_ret _ _ _ Ha).
  rewrite bind_ret, bind_ret.
  rewrite (conditional_check_passes _ _ _ Hr Ha Hiff).
  cbn [when]. rewrite bind_ret. reflexivity.
Qed.

(** The first item, filled in, creates the container, binds the variable
    and puts every non-empty item under it.  [P] is the identity of the
    container and [mid] the calls that create it. *)
Lemma first_creates_first (create : M nat) var (P : locals -> nat)
  (mid : locals -> list op) k0 v0 rest st :
  (forall s, exists s', create s = (inr (P s), s', mid s)
                        /\ vars s' = vars s /\ next_id s' = S (P s)) ->
  nes v0 "" = true ->
  exists s2,
    AIF.first_creates create var ((k0, v0) :: rest) 0 st
    = (inr tt, s2, mid st ++ leaves (P st) ((k0, v0) :: rest) (S (P st))).
Proof.
  intros Hcreate Hv. cbn [AIF.first_creates leaves]. rewrite Hv.
  destruct (Hcreate st) as [s' [Hc [Hvars Hnext]]].
  destruct (first_creates_later create var (P st) rest 0
              (mkLocals (S (S (P st))) (dict_set (vars s') var (P st)))
              (bound_to_dict_set _ _ _ _)) as [n Hn].
  run. rewrite Hc. cbn [next_id vars app fst snd]. rewrite Hnext, Hn.
  cbn [next_id]. eexists. rewrite <- app_assoc. reflexivity.
Qed.

(** X15: the identifier blocks of an AIF sheet.  Rows 24-32 are emitted by
    a loop in which only the first row can create the AIFIdentification
    element; the rows after it use whatever the variable of that name holds.
    So, the member state and the national code being both given or both
    empty:
    - when the first row is filled in, AIFIdentification is created and
      receives every non-empty identifier, in order; and the prime-broker
      block, which loops over the same identifiers and looks at rows 45-47
      only to see that there are any, creates PrimeBrokers and
      PrimeBrokerIdentification with the very same leaves;
    - when the first row is empty and a later one is not, no
      AIFIdentification is created: the build ends in UnboundLocalError if
      the variable is not bound (first workbook of a batch), and otherwise
      the identifiers are added to the element it still holds, that of an
      earlier workbook. *)
Theorem AIF_identifier_blocks
  (PI AD : nat) (k0 : string) (v0 : value) (rest primeBrokers : dict)
  (st : locals) :
  let d := (k0, v0) :: rest in
  state_and_code_agree d ->
  (v0 <> VStr "" ->
   calls (AIF.identification PI d st)
   = NewSubElement PI "AIFIdentification"
       :: leaves (next_id st) d (S (next_id st))
   /\ result (AIF.identification PI d st) = inr tt
   /\ (primeBrokers <> [] ->
       calls (AIF.prime_brokers AD primeBrokers d st)
       = NewSubElement AD "PrimeBrokers"
           :: NewSubElement (next_id st) "PrimeBrokerIdentification"
           :: leaves (S (next_id st)) d (S (S (next_id st)))))
  /\ (v0 = VStr "" ->
      (forall pre k v post,
          rest = pre ++ (k, v) :: post ->
          Forall (fun kv => snd kv = VStr "") pre -> v <> VStr "" ->
          bound_to "AIFIdentification" st = None ->
          AIF.identification PI d st
          = (inl (UnboundLocalError "AIFIdentification"), st, []))
      /\ (forall c,
             bound_to "AIFIdentification" st = Some c ->
             result (AIF.identification PI d st) = inr tt
             /\ calls (AIF.identification PI d st) = leaves c d (next_id st))).
Proof.
  cbv zeta. intros Hagree. split.
  - intros Hv. apply nes_true in Hv.
    rewrite (identification_runs PI ((k0, v0) :: rest) st
               ltac:(discriminate) Hagree).
    destruct (first_creates_first (SubElement PI "AIFIdentification")
                "AIFIdentification" next_id
                (fun _ => [NewSubElement PI "AIFIdentification"]) k0 v0 rest st
                ltac:(intros s; eexists; split; [reflexivity|split; reflexivity])
                Hv) as [s2 H2].
    rewrite H2. split; [reflexivity|]. split; [reflexivity|].
    intros Hpb. unfold AIF.prime_brokers.
    destruct primeBrokers as [|pb primeBrokers]; [contradiction|].
    destruct (first_creates_first
                (PrimeBrokers <- SubElement AD "PrimeBrokers" ;;
                 SubElement PrimeBrokers "PrimeBrokerIdentification")
                "PrimeBrokerIdentification" (fun s => S (next_id s))
                (fun s => [NewSubElement AD "PrimeBrokers";
                           NewSubElement (next_id s) "PrimeBrokerIdentification"])
                k0 v0 rest st
                ltac:(intros s; eexists; split; [reflexivity|split; reflexivity])
                Hv) as [s3 H3].
    rewrite H3. reflexivity.
  - intros Hv. subst v0. split.
    + intros pre k v post Hrest Hpre Hne Hb.
      rewrite (identification_runs PI ((k0, VStr "") :: rest) st
                 ltac:(discriminate) Hagree).
      rewrite first_creates_skip, Hrest.
      apply first_creates_unbound; assumption.
    + intros c Hb.
      rewrite (identification_runs PI ((k0, VStr "") :: rest) st
                 ltac:(discriminate) Hagree).
      rewrite first_creates_skip.
      destruct (first_creates_later (SubElement PI "AIFIdentification")
                  "AIFIdentification" c rest 0 st Hb) as [n Hn].
      rewrite Hn. split; reflexivity.
Qed.

(* ================================================================= *)
(** ** AIF.py: what a sheet needs to build *)

Lemma jurisdiction_result AD d st pat :
  result (AIF.jurisdiction AD d st) = inr pat ->
  lookup d "PredominantAIFType" = Some pat.
Proof.
  unfold AIF.jurisdiction, lookup, getitem.
  destruct (find _ d) as [kv|]; [|intros H; discriminate H].
  rewrite bind_ret. intros H.
  apply bind_inr in H. destruct H as [[] [_ H]].
  apply bind_inr in H. destruct H as [[] [_ H]].
  cbn in H. inversion H. reflexivity.
Qed.

Lemma strategies_result AD pat d st :
  result (AIF.strategies AD pat d st) = inr tt ->
  pat = VStr "HFND" \/ pat = VStr "PEQF".
Proof.
  unfold AIF.strategies.
  destruct (eqs pat "HFND") eqn:E1; [intros _; left; apply eqs_true, E1|].
  destruct (eqs pat "PEQF") eqn:E2; [intros _; right; apply eqs_true, E2|].
  unfold getitem. destruct (find _ d); intros H; discriminate H.
Qed.

Lemma main_instrument_alone MIT row st :
  result (AIF.main_instrument MIT [row] row st) = inl IndexError.
Proof. reflexivity. Qed.

(** X16: what every AIF sheet that builds has.  If [AIF.build] returns a
    document then the PredominantAIFType of the sheet is HFND or PEQF (any
    other type ends the build), the sheet has a row with identifier '113'
    (TypicalPositionSize, read even when it is not emitted), and the number
    of its main-instrument rows m1..m5 is not one: line 449 reads the
    second of these rows while handling the first. *)
Theorem AIF_build_needs (t : AIF.table) (now : datetime) (st : locals) (root : nat) :
  result (AIF.build t now st) = inr root ->
  (lookup (AIF.section 54 58 t) "PredominantAIFType" = Some (VStr "HFND")
   \/ lookup (AIF.section 54 58 t) "PredominantAIFType" = Some (VStr "PEQF"))
  /\ (exists r, In r t /\ AIF.Id r = VStr "113")
  /\ List.length (AIF.rows_with_tag (AIF.tags "m" 1 6) t) <> 1%nat.
Proof.
  intros H. unfold AIF.build in H.
  apply bind_inr in H. destruct H as [r0 [_ H]].
  apply bind_inr in H. destruct H as [[] [H _]].
  unfold AIF.body in H.
  do 14 (apply bind_inr in H; destruct H as [? [_ H]]).
  apply bind_inr in H. destruct H as [pat [Hj H]].
  apply bind_inr in H. destruct H as [[] [Hs H]].
  do 2 (apply bind_inr in H; destruct H as [? [_ H]]).
  apply bind_inr in H. destruct H as [[] [Hm H]].
  do 8 (apply bind_inr in H; destruct H as [? [_ H]]).
  apply bind_inr in H. destruct H as [tps [Hi _]].
  apply jurisdiction_result in Hj. apply strategies_result in Hs.
  split; [|split].
  - destruct Hs as [Hs|Hs]; subst pat; [left|right]; exact Hj.
  - unfold index in Hi.
    destruct (filter (fun r => eqs (AIF.Id r) "113") t) as [|r l] eqn:E;
      [discriminate Hi|].
    assert (Hin : In r (filter (fun r => eqs (AIF.Id r) "113") t))
      by (rewrite E; left; reflexivity).
    apply filter_In in Hin. destruct Hin as [Hin Hid].
    exists r. split; [exact Hin|]. apply eqs_true. exact Hid.
  - intros Hlen.
    destruct (AIF.rows_with_tag (AIF.tags "m" 1 6) t) as [|row [|row' l]];
      try discriminate Hlen.
    cbn [for_each] in Hm. apply bind_inr in Hm. destruct Hm as [[] [Hm _]].
    rewrite main_instrument_alone in Hm. discriminate Hm.
Qed.

(* ================================================================= *)
(** ** AIF.py: elements kept in a variable from one row to the next *)





(* ================================================================= *)
(** ** The first rows of an AIF or AIFM sheet *)

Lemma AIFM_header_short t now st :
  (List.length (AIFM.rows_with_id (str_range 1 4) t) < 2)%nat ->
  result (AIFM.header t now st) = inl IndexError.
Proof.
  intros H. unfold AIFM.header, AIFM.tag_input.
  destruct (AIFM.rows_with_id (str_range 1 4) t) as [|r0 [|r1 l]];
    cbn [List.length] in H; try lia; cbn [map].
  - reflexivity.
  - run. destruct (truthy (AIFM.Input_1 r0)); reflexivity.
Qed.

Lemma AIF_header_short t now st :
  (List.length (AIF.rows_with_id (str_range 1 4) t) < 2)%nat ->
  result (AIF.header t now st) = inl IndexError.
Proof.
  intros H. unfold AIF.header, AIF.tag_input.
  destruct (AIF.rows_with_id (str_range 1 4) t) as [|r0 [|r1 l]];
    cbn [List.length] in H; try lia; cbn [map].
  - reflexivity.
  - run. destruct (truthy (AIF.Input_1 r0)); reflexivity.
Qed.

(** X18: the header rows.  The two header attributes are taken from the
    first and the second row, in sheet order, whose identifier is '1', '2'
    or '3'.  A sheet with fewer than two such rows does not build: both
    [AIFM.build] and [AIF.build] end in IndexError, and so does any batch
    at that workbook. *)
Theorem header_needs_two_rows (now : datetime) (st : locals) :
  (forall t : AIFM.table,
      (List.length (AIFM.rows_with_id (str_range 1 4) t) < 2)%nat ->
      result (AIFM.build t now st) = inl IndexError)
  /\ (forall t : AIF.table,
         (List.length (AIF.rows_with_id (str_range 1 4) t) < 2)%nat ->
         result (AIF.build t now st) = inl IndexError).
Proof.
  split; intros t H.
  - unfold AIFM.build. apply bind_result_raise. apply AIFM_header_short, H.
  - unfold AIF.build. apply bind_result_raise. apply AIF_header_short, H.
Qed.

(* ----------------------------------------------------------------- *)
(** ** Rows 4-9: the reporting period *)

Lemma for_each_app_calls {A} (pre post : list A) (body : A -> M unit) st :
  result (for_each pre body st) = inr tt ->
  calls (for_each (pre ++ post) body st)
  = calls (for_each pre body st)
      ++ calls (for_each post body (final (for_each pre body st))).
Proof.
  revert st. induction pre as [|x pre IH]; intros st H.
  - reflexivity.
  - cbn [app for_each] in *. unfold bind, result, final, calls in *.
    destruct (body x st) as [[[e|[]] s1] o1]; cbn [fst snd] in *;
      [discriminate H|].
    specialize (IH s1).
    destruct (for_each pre body s1) as [[[e|[]] s2] o2] eqn:E;
      cbn [fst snd] in *; [discriminate H|].
    specialize (IH eq_refl).
    destruct (for_each (pre ++ post) body s1) as [[r3 s3] o3].
    cbn [fst snd] in *. rewrite IH.
    destruct (for_each post body s2) as [[r4 s4] o4]. cbn [snd].
    rewrite app_assoc. reflexivity.
Qed.

Lemma AIFM_record_info_is_AIF :
  AIFM.record_info_fields = AIF.record_info_fields.
Proof. reflexivity. Qed.

(** X19: the reporting period wants date cells.  In rows 4-9 of an AIF or
    AIFM sheet, the cells before it being filled in, a
    ReportingPeriodStartDate or ReportingPeriodEndDate that holds a
    timestamp is emitted as its ISO date, the time of day left out; one
    that holds anything else that is not empty (a date typed as text, a
    number) ends the build in AttributeError, after its element has been
    created. *)
Theorem reporting_period_wants_date_cells
  (RI : nat) (pre post : dict) (k : string) (v : value) (st : locals) :
  Forall filled pre ->
  existsb (String.eqb k) AIF.date_tags = true ->
  let aif := AIF.record_info_fields RI (pre ++ (k, v) :: post) st in
  let aifm := AIFM.record_info_fields RI (pre ++ (k, v) :: post) st in
  (forall d, v = VDate d ->
             emits aif RI k (strip (isoformat_date d))
             /\ emits aifm RI k (strip (isoformat_date d)))
  /\ (v <> VStr "" -> (forall d, v <> VDate d) ->
      result aif = inl AttributeError /\ result aifm = inl AttributeError
      /\ creates k (calls aif) = true).
Proof.
  intros Hpre Hk. cbv zeta. rewrite AIFM_record_info_is_AIF.
  pose proof (record_info_filled RI pre st Hpre) as Hok.
  unfold AIF.record_info_fields in *.
  match type of Hok with
  | result (for_each pre ?b st) = _ => set (body := b) in *
  end.
  set (st1 := final (for_each pre body st)).
  assert (Hcalls : forall r, calls (for_each (pre ++ (k, v) :: post) body st)
                             = calls (for_each pre body st) ++ r
                             <-> calls (for_each ((k, v) :: post) body st1) = r).
  { intros r. rewrite (for_each_app_calls _ _ _ _ Hok). fold st1. split.
    - apply app_inv_head.
    - intros ->. reflexivity. }
  split.
  - intros d Hv. subst v.
    assert (He : emits (for_each (pre ++ (k, VDate d) :: post) body st) RI k
                   (strip (isoformat_date d))).
    { unfold emits. exists (calls (for_each pre body st)), (next_id st1),
        (calls (for_each post body (alloc st1))).
      apply Hcalls. cbn [for_each]. unfold body at 1. cbn [fst snd].
      change (nes (VDate d) "") with true. cbv iota. rewrite Hk. cbn [negb].
      unfold bind, SubElement, date_of, ret, set_text, emit, alloc, calls.
      cbn [app next_id vars].
      destruct (for_each post body _) as [[r4 s4] o4]. reflexivity. }
    split; exact He.
  - intros Hne Hnd. apply nes_true in Hne.
    assert (Hr : result (for_each (pre ++ (k, v) :: post) body st)
                 = inl AttributeError).
    { rewrite (for_each_app _ _ _ _ Hok). fold st1. cbn [for_each].
      apply bind_result_raise. unfold body. cbn [fst snd].
      rewrite Hne, Hk. cbn [negb].
      rewrite bind_SubElement. cbn [result fst].
      apply bind_result_raise.
      destruct v as [s|n|f|b|d]; try reflexivity.
      exfalso. apply (Hnd d). reflexivity. }
    split; [exact Hr|]. split; [exact Hr|].
    rewrite (for_each_app_calls _ _ _ _ Hok). fold st1. rewrite creates_app.
    apply orb_true_iff. right. cbn [for_each]. unfold body at 1.
    cbn [fst snd]. rewrite Hne, Hk. cbn [negb].
    unfold bind at 1. unfold bind at 1. unfold SubElement at 1.
    destruct (bind (date_of v) _ _) as [[[e|[]] s1] o1];
      [|destruct (for_each post body s1) as [[r4 s4] o4]];
      unfold creates, calls; cbn [snd app existsb];
      rewrite String.eqb_refl; reflexivity.
Qed.

(* ================================================================= *)
(** ** AIF.py: the base currency (rows 48-53) *)

(** X20: the base-currency block of an AIF sheet.  With text in
    BaseCurrency and FXEURReferenceRateType:
    - the one amount check is that AUMAmountInBaseCurrency is not the empty
      string when BaseCurrency and AIFNetAssetValue are both truthy; it is
      skipped when either is empty or zero;
    - BaseCurrency is then emitted in upper case and
      AUMAmountInBaseCurrency as the text of its cell, whatever it holds;
    - a currency other than EUR, the empty one included, needs a truthy
      FXEURRate and a non-empty FXEURReferenceRateType, else the build ends
      in EmptyValueError; for EUR neither is emitted;
    - a reference-rate type OTH needs a description, else EmptyValueError;
    - when all that passes, AIFNetAssetValue is emitted last. *)
Theorem AIF_base_currency_rule
  (AD : nat) (d : dict) (b rt : string) (nav aum rate descr : value)
  (st : locals) :
  lookup d "BaseCurrency" = Some (VStr b) ->
  lookup d "AIFNetAssetValue" = Some nav ->
  lookup d "AUMAmountInBaseCurrency" = Some aum ->
  lookup d "FXEURRate" = Some rate ->
  lookup d "FXEURReferenceRateType" = Some (VStr rt) ->
  lookup d "FXEUROtherReferenceRateDescription" = Some descr ->
  AIF_currency_rule (AIF.base_currency AD d st) AD st b nav aum rate rt descr.
Proof.
  intros Hb Hn Ha Hr Ht Hd.
  set (r := AIF.base_currency AD d st).
  assert (Hrun : r = AIF.base_currency AD d st) by reflexivity.
  clearbody r. unfold AIF.base_currency in Hrun.
  rewrite (getitem_ret _ _ _ Hb), (getitem_ret _ _ _ Hn),
    (getitem_ret _ _ _ Ha), (getitem_ret _ _ _ Hr), (getitem_ret _ _ _ Ht),
    (getitem_ret _ _ _ Hd) in Hrun.
  rewrite bind_ret in Hrun.
  unfold AIF_currency_rule. cbv zeta.
  destruct (truthy (VStr b) && truthy nav && eqs aum "") eqn:Em.
  - split; [intros _|intros H; discriminate H].
    rewrite Hrun. apply bind_raise.
    apply andb_true_iff in Em. destruct Em as [Em Ea].
    apply andb_true_iff in Em. destruct Em as [Eb En].
    rewrite Eb, bind_ret, En, bind_ret, Ea. reflexivity.
  - split; [intros H; discriminate H|intros _].
    match type of Hrun with
    | r = bind ?check ?k st =>
        assert (Hcheck : check st = (inr tt, st, []))
    end.
    { destruct (truthy (VStr b)) eqn:Eb; [|reflexivity].
      rewrite bind_ret.
      destruct (truthy nav) eqn:En; [|reflexivity].
      rewrite bind_ret.
      destruct (eqs aum "") eqn:Ea; [discriminate Em|reflexivity]. }
    rewrite (bind_ok _ _ _ _ _ _ Hcheck) in Hrun. cbn [app] in Hrun.
    rewrite <- run_eta in Hrun.
    revert Hrun. run. unfold nes. cbn [eqs Py.eq].
    destruct (String.eqb (strip (upper b)) "EUR") eqn:Ee,
      (truthy rate) eqn:Et, (String.eqb rt "") eqn:Er,
      (String.eqb (strip (upper rt)) "OTH") eqn:Eo, (eqs descr "") eqn:Ed;
      cbn [negb andb fst snd app]; intros ->.
    all: split; [show_emits|].
    all: split; [show_emits|].
    all: split; [intros H1 H2; first [discriminate H1|discriminate H2|reflexivity]|].
    all: split; [intros H1; first [discriminate H1|split; reflexivity]|].
    all: intros H0; try (destruct H0 as [H0|H0]; discriminate H0); clear H0.
    all: split;
      [intros H1 H2; first [discriminate H1|reflexivity
                           |apply eqs_true in H2; congruence]|].
    all: intros H1.
    all: try (destruct H1 as [H1|H1];
              [discriminate H1|apply eqs_true in Ed; contradiction]).
    all: split; [reflexivity|].
    all: cbn [fst snd];
      lazymatch goal with
      | |- exists before id, ?L = _ =>
          exists (firstn (List.length L - 2) L);
          cbn [firstn List.length Nat.sub app]; eexists; reflexivity
      end.
Qed.

(* ================================================================= *)
(** ** AIF.py: master and feeder (rows 41-44) *)

(** X21: the master-feeder block of an AIF sheet.  The status is emitted in
    upper case; a status that is not text ends the build in AttributeError
    once its element is there.  Only for the status FEEDER is anything else
    looked at: then the name of the master is required, and so is its
    national code when a member state is given (each with its own
    EmptyValueError); the member state and the national code are emitted
    when they are not empty, a national code also without a member state.
    For any other status the block creates nothing more, whatever the
    other cells hold. *)
Theorem AIF_master_feeder_rule
  (AD : nat) (d : dict) (status name rms anc : value) (st : locals) :
  lookup d "AIFMasterFeederStatus" = Some status ->
  lookup d "AIFName" = Some name ->
  lookup d "ReportingMemberState" = Some rms ->
  lookup d "AIFNationalCode" = Some anc ->
  AIF_master_rule (AIF.master_feeder AD d st) AD st status name rms anc.
Proof.
  intros Hs Hn Hr Ha.
  set (r := AIF.master_feeder AD d st).
  assert (Hrun : r = AIF.master_feeder AD d st) by reflexivity.
  clearbody r. unfold AIF.master_feeder in Hrun.
  rewrite (getitem_ret _ _ _ Hs), (getitem_ret _ _ _ Hn),
    (getitem_ret _ _ _ Hr), (getitem_ret _ _ _ Ha) in Hrun.
  unfold AIF_master_rule. split.
  - intros Hns. revert Hrun. run.
    destruct status as [s| | | |]; [exfalso; apply (Hns s); reflexivity| | | |];
      cbn [fst snd app]; intros ->; split; reflexivity.
  - intros s Hst. subst status. cbv zeta. revert Hrun. run.
    destruct (String.eqb (strip (upper s)) "FEEDER") eqn:Ef;
      cbn [fst snd app].
    2: { intros ->. split; [show_emits|]. split; [reflexivity|].
         split; [intros H; discriminate H|].
         split; intros H; discriminate H. }
    unfold nes.
    destruct (eqs name "") eqn:En, (eqs rms "") eqn:Er, (eqs anc "") eqn:Ea;
      cbn [negb fst snd app]; intros ->.
    all: split; [show_emits|].
    all: split; [intros H; discriminate H|].
    all: split;
      [intros _ H; first [reflexivity|apply eqs_true in H; congruence]|].
    all: split;
      [intros _ H1 H2 H3;
       first [reflexivity
             |apply eqs_true in H3; congruence
             |apply nes_true in H2; unfold nes in H2; rewrite Er in H2;
              discriminate H2
             |apply nes_true in H1; unfold nes in H1; rewrite En in H1;
              discriminate H1]|].
    all: intros _ H1 H2.
    all: try (apply nes_true in H1; unfold nes in H1; rewrite En in H1;
              discriminate H1).
    all: try (destruct H2 as [H2|H2];
              [apply eqs_true in H2; congruence
              |apply nes_true in H2; unfold nes in H2; rewrite Ea in H2;
               discriminate H2]).
    all: split; [reflexivity|].
    all: split; [show_emits|].
    all: split; reflexivity.
Qed.

(* ================================================================= *)
(** ** AIF.py: the principal markets (rows r1..r3) *)

Lemma cell_not_empty v : v <> VStr "" -> eqs v "" = false.
Proof.
  intros H. destruct (eqs v "") eqn:E; [|reflexivity].
  apply eqs_true in E. contradiction.
Qed.

(** X22: a principal-market row of an AIF sheet.  The code type is read in
    upper case and stripped, and any code type is accepted: there is no
    domain check as in AIFM.py, so no DomainValueError.  An empty code type
    is refused with EmptyValueError; for MIC the market code is required
    and emitted, for any other type it is not emitted; for every type but
    NOT the amount is required (the error text names MarketCode) and is
    emitted as the text of its cell, unchecked; for NOT no amount is
    emitted. *)
Theorem AIF_principal_market_rule (PMs : nat) (market : AIF.Row) (st : locals) :
  AIF_market_rule (AIF.principal_market PMs market st) st
    (AIF.XMLDescription market) (AIF.Input_1 market) (AIF.Input_2 market).
Proof.
  set (r := AIF.principal_market PMs market st).
  assert (Hrun : r = AIF.principal_market PMs market st) by reflexivity.
  clearbody r. unfold AIF.principal_market in Hrun. cbv zeta in Hrun.
  unfold AIF_market_rule. cbv zeta. revert Hrun. run.
  destruct (eqs (AIF.XMLDescription market) "") eqn:Ec; cbn [fst snd app].
  - intros ->. split; [intros msg H; discriminate H|].
    split; [reflexivity|].
    intros H. apply eqs_true in Ec. contradiction.
  - destruct (String.eqb (strip (upper (str (AIF.XMLDescription market)))) "MIC")
      eqn:Em,
      (eqs (AIF.Input_1 market) "") eqn:E1,
      (String.eqb (strip (upper (str (AIF.XMLDescription market)))) "NOT")
        eqn:En,
      (eqs (AIF.Input_2 market) "") eqn:E2;
      cbn [andb negb fst snd app]; intros ->.
    all: split; [intros msg H; discriminate H|].
    all: split; [intros H; apply eqs_true in H; congruence|].
    all: intros _.
    all: split; [show_emits|].
    all: split;
      [intros H1 H2; first [discriminate H1|reflexivity
                           |apply eqs_true in H2; congruence]|].
    all: intros H0.
    all: try (destruct H0 as [H0|H0];
              [discriminate H0|apply cell_not_empty in H0; congruence]).
    all: split; [reflexivity|].
    all: split;
      [intros H1 H2; first [discriminate H1|reflexivity
                           |apply eqs_true in H2; congruence]|].
    all: split;
      [intros H1 H2;
       first [discriminate H1
             |apply cell_not_empty in H2; congruence
             |split; [reflexivity|show_emits]]|].
    all: intros H1; first [discriminate H1|split; reflexivity].
Qed.

(* ================================================================= *)
(** ** The schema validation *)

Section ValidateXML.

Variables (tree error : Type).
Variable parse : string -> error + tree.
Variable schema_validate : string -> tree -> error + bool.

Lemma validate_XML_all (xsd : string) (files : list string) :
  (forall f, In f files ->
             Validate.checked tree error parse schema_validate xsd f <> None) ->
  Validate.validate_XML tree error parse schema_validate xsd files
  = (map (Validate.logged_verdict tree error parse schema_validate xsd) files, None).
Proof.
  induction files as [|f files IH]; intros H.
  - reflexivity.
  - cbn [Validate.validate_XML map].
    pose proof (H f (or_introl eq_refl)) as Hf.
    unfold Validate.logged_verdict at 1. unfold Validate.checked in *.
    destruct (parse f) as [e|x]; [contradiction|].
    destruct (schema_validate xsd x) as [e|b]; [contradiction|].
    rewrite IH by (intros g Hg; apply H; right; exact Hg).
    reflexivity.
Qed.

Lemma validate_XML_stops (xsd : string) (pre : list string) f post :
  (forall g, In g pre ->
             Validate.checked tree error parse schema_validate xsd g <> None) ->
  Validate.checked tree error parse schema_validate xsd f = None ->
  exists e,
    Validate.validate_XML tree error parse schema_validate xsd
      (pre ++ f :: post)
    = (map (Validate.logged_verdict tree error parse schema_validate xsd) pre, Some e).
Proof.
  induction pre as [|g pre IH]; intros Hpre Hf.
  - cbn [app Validate.validate_XML map]. unfold Validate.checked in Hf.
    destruct (parse f) as [e|x]; [exists e; reflexivity|].
    destruct (schema_validate xsd x) as [e|b]; [exists e; reflexivity|].
    discriminate Hf.
  - cbn [app Validate.validate_XML map].
    pose proof (Hpre g (or_introl eq_refl)) as Hg.
    unfold Validate.logged_verdict at 1. unfold Validate.checked in Hg |- *.
    destruct (parse g) as [e|x]; [contradiction|].
    destruct (schema_validate xsd x) as [e|b]; [contradiction|].
    destruct (IH (fun h Hh => Hpre h (or_intror Hh)) Hf) as [e He].
    rewrite He. exists e. reflexivity.
Qed.

(** X23: the schema validation of the three scripts.  Each of
    [validate_XML_AIF], [validate_XML_AIFM] and [validate_XML_OFKFiles] is
    the same loop at its own schema.  It logs one line for every document,
    in order: a debug line for a document the schema accepts and an error
    line for one it rejects, after which the loop goes on.  Nothing catches
    an error of lxml: at the first document that cannot be parsed (or when
    the schema cannot be loaded) the loop ends with that error, having
    logged the documents before it only. *)
Theorem validation_logs_every_document (xsd : string) :
  (forall files,
      (forall f, In f files ->
                 Validate.checked tree error parse schema_validate xsd f <> None) ->
      Validate.validate_XML tree error parse schema_validate xsd files
      = (map (Validate.logged_verdict tree error parse schema_validate xsd) files, None))
  /\ (forall pre f post,
         (forall g, In g pre ->
                    Validate.checked tree error parse schema_validate xsd g
                    <> None) ->
         Validate.checked tree error parse schema_validate xsd f = None ->
         exists e,
           Validate.validate_XML tree error parse schema_validate xsd
             (pre ++ f :: post)
           = (map (Validate.logged_verdict tree error parse schema_validate xsd) pre, Some e))
  /\ Validate.validate_XML_AIF tree error parse schema_validate
     = Validate.validate_XML tree error parse schema_validate
         "AIFMD_DATAIF_V1.2.xsd"
  /\ Validate.validate_XML_AIFM tree error parse schema_validate
     = Validate.validate_XML tree error parse schema_validate
         "AIFMD_DATMAN_V1.2.xsd"
  /\ Validate.validate_XML_OFKFiles tree error parse schema_validate
     = Validate.validate_XML tree error parse schema_validate
         "OFK-K.2020-03.xsd".
Proof.
  split; [apply validate_XML_all|].
  split; [apply validate_XML_stops|].
  repeat split.
Qed.

End ValidateXML.

(* ================================================================= *)
(** ** The blocked columns of an OFK sheet *)

Lemma label_at_in_range columns p :
  Blocked.in_range (List.length columns) p = true ->
  exists l, Blocked.label_at columns p = inr l /\ In l columns.
Proof.
  unfold Blocked.in_range, Blocked.label_at. intros H.
  apply andb_true_iff in H. destruct H as [Hlo Hhi].
  apply Z.leb_le in Hlo. apply Z.ltb_lt in Hhi.
  set (n := Z.of_nat (List.length columns)) in *.
  set (i := if (p <? 0)%Z then (p + n)%Z else p).
  assert (Hi : (0 <= i < n)%Z).
  { unfold i. destruct (p <? 0)%Z eqn:E.
    - apply Z.ltb_lt in E. lia.
    - apply Z.ltb_ge in E. lia. }
  replace ((0 <=? i) && (i <? n))%Z with true
    by (symmetry; apply andb_true_iff; split;
        [apply Z.leb_le|apply Z.ltb_lt]; lia).
  destruct (nth_error columns (Z.to_nat i)) as [l|] eqn:E.
  - exists l. split; [reflexivity|]. apply (nth_error_In _ _ E).
  - apply nth_error_None in E. unfold n in Hi. lia.
Qed.

Lemma label_at_out_of_range columns p :
  Blocked.in_range (List.length columns) p = false ->
  Blocked.label_at columns p = inl IndexError.
Proof.
  unfold Blocked.in_range, Blocked.label_at. intros H.
  set (n := Z.of_nat (List.length columns)) in *.
  destruct (p <? 0)%Z eqn:E.
  - apply Z.ltb_lt in E.
    destruct ((0 <=? p + n) && (p + n <? n))%Z eqn:E2; [|reflexivity].
    apply andb_true_iff in E2. destruct E2 as [E2 E3].
    apply Z.leb_le in E2. apply Z.ltb_lt in E3.
    apply andb_false_iff in H. destruct H as [H|H].
    + apply Z.leb_gt in H. lia.
    + apply Z.ltb_ge in H. lia.
  - apply Z.ltb_ge in E.
    destruct ((0 <=? p) && (p <? n))%Z eqn:E2; [|reflexivity].
    apply andb_true_iff in E2. destruct E2 as [E2 E3].
    apply Z.leb_le in E2. apply Z.ltb_lt in E3.
    apply andb_false_iff in H. destruct H as [H|H].
    + apply Z.leb_gt in H. lia.
    + apply Z.ltb_ge in H. lia.
Qed.

Lemma labels_at_raises columns ps :
  forallb (Blocked.in_range (List.length columns)) ps = false ->
  Blocked.labels_at columns ps = inl IndexError.
Proof.
  induction ps as [|p ps IH]; intros H; cbn [forallb Blocked.labels_at] in *.
  - discriminate H.
  - destruct (Blocked.in_range (List.length columns) p) eqn:E.
    + cbn [andb] in H. destruct (label_at_in_range columns p E) as [l [Hl _]].
      rewrite Hl, (IH H). reflexivity.
    + rewrite (label_at_out_of_range columns p E). reflexivity.
Qed.

Lemma labels_at_returns columns ps :
  forallb (Blocked.in_range (List.length columns)) ps = true ->
  exists labels,
    Blocked.labels_at columns ps = inr labels
    /\ List.length labels = List.length ps
    /\ (forall p, In p ps ->
                  exists l, Blocked.label_at columns p = inr l /\ In l labels).
Proof.
  induction ps as [|p ps IH]; intros H; cbn [forallb Blocked.labels_at] in *.
  - exists []. repeat split. intros p [].
  - apply andb_true_iff in H. destruct H as [Hp Hps].
    destruct (label_at_in_range columns p Hp) as [l [Hl _]].
    destruct (IH Hps) as [labels [Hls [Hlen Hall]]].
    rewrite Hl, Hls. exists (l :: labels). split; [reflexivity|].
    split; [cbn; rewrite Hlen; reflexivity|].
    intros q [Hq|Hq].
    + subst q. exists l. split; [exact Hl|left; reflexivity].
    + destruct (Hall q Hq) as [l' [Hl' Hin]].
      exists l'. split; [exact Hl'|right; exact Hin].
Qed.

Lemma drop_removes labels row l :
  In l labels -> ~ In l (map fst (Blocked.drop labels row)).
Proof.
  intros Hl Hin. apply in_map_iff in Hin. destruct Hin as [[k v] [Hk Hin]].
  cbn in Hk. subst k. unfold Blocked.drop in Hin. apply filter_In in Hin.
  destruct Hin as [_ Hf]. apply negb_true_iff in Hf.
  assert (Ht : existsb (String.eqb (fst (l, v))) labels = true).
  { apply existsb_exists. exists l. split; [exact Hl|]. apply String.eqb_refl. }
  rewrite Ht in Hf. discriminate Hf.
Qed.

Lemma drop_keeps labels row k v :
  In (k, v) row -> ~ In k labels -> In (k, v) (Blocked.drop labels row).
Proof.
  intros Hin Hk. unfold Blocked.drop. apply filter_In. split; [exact Hin|].
  apply negb_true_iff. destruct (existsb _ labels) eqn:E; [|reflexivity].
  apply existsb_exists in E. destruct E as [l [Hl He]].
  apply String.eqb_eq in He. cbn in He. subst l. contradiction.
Qed.

(** X24: the columns DNB has blocked (lines 238-294 of OFKReport.py).  On a
    sheet that an arm of the chain names, the columns at the positions of
    that arm are dropped from the frame before it is validated and emitted:
    - if a position does not point into the columns of the sheet, the
      lookup [df.columns[...]] raises IndexError;
    - otherwise every row is kept, no cell of a blocked column is left in
      it, and every cell of another column stays;
    - a sheet no arm names keeps all its cells. *)
Theorem OFK_blocked_columns_are_dropped
  (sheetname : string) (columns : list string)
  (rows : list (list (string * value))) :
  (forallb (Blocked.in_range (List.length columns)) (Blocked.positions sheetname)
   = false ->
   Blocked.block sheetname columns rows = inl IndexError)
  /\ (forallb (Blocked.in_range (List.length columns))
        (Blocked.positions sheetname) = true ->
      exists labels,
        Blocked.labels_at columns (Blocked.positions sheetname) = inr labels
        /\ Blocked.block sheetname columns rows
           = inr (map (Blocked.drop labels) rows)
        /\ (forall p row,
               In p (Blocked.positions sheetname) -> In row rows ->
               exists l, Blocked.label_at columns p = inr l
                         /\ ~ In l (map fst (Blocked.drop labels row)))
        /\ (forall row k v,
               In row rows -> In (k, v) row -> ~ In k labels ->
               In (k, v) (Blocked.drop labels row)))
  /\ (Blocked.positions sheetname = [] ->
      Blocked.block sheetname columns rows = inr rows).
Proof.
  split; [|split].
  - intros H. unfold Blocked.block. rewrite (labels_at_raises _ _ H).
    reflexivity.
  - intros H. destruct (labels_at_returns _ _ H) as [labels [Hls [_ Hall]]].
    exists labels. split; [exact Hls|]. split.
    + unfold Blocked.block. rewrite Hls. reflexivity.
    + split.
      * intros p row Hp _. destruct (Hall p Hp) as [l [Hl Hin]].
        exists l. split; [exact Hl|]. apply drop_removes. exact Hin.
      * intros row k v _ Hin Hk. apply drop_keeps; assumption.
  - intros H. unfold Blocked.block. rewrite H. cbn [Blocked.labels_at].
    f_equal. induction rows as [|row rows IH]; [reflexivity|].
    cbn [map]. rewrite IH. f_equal. unfold Blocked.drop. clear.
    induction row as [|kv row IHr]; [reflexivity|].
    cbn [filter existsb negb]. f_equal. exact IHr.
Qed.

(* ================================================================= *)
(** ** OFKReport.py: forms and sheets in the document *)

Lemma add_to_last_snoc acc n ss s :
  Outline.add_to_last (acc ++ [(n, ss)]) s = acc ++ [(n, ss ++ [s])].
Proof.
  induction acc as [|[n' ss'] acc IH]; [reflexivity|].
  cbn [app Outline.add_to_last]. rewrite IH.
  destruct acc; reflexivity.
Qed.

Lemma outline_from_app root s a b :
  Outline.from root s (a ++ b) = Outline.from root (Outline.from root s a) b.
Proof. unfold Outline.from. apply fold_left_app. Qed.

Lemma other_forms (forms : list Outline.form) p t :
  Forall (fun f => Outline.id f <> p) forms ->
  map (fun f : Outline.form =>
         if Nat.eqb (Outline.id f) p then (fst f, snd f ++ [t]) else f) forms
  = forms.
Proof.
  induction 1 as [|f forms Hf _ IH]; [reflexivity|].
  cbn [map]. rewrite IH.
  replace (Nat.eqb (Outline.id f) p) with false
    by (symmetry; apply Nat.eqb_neq; exact Hf).
  reflexivity.
Qed.

Lemma untouched_forms (forms : list Outline.form) p t :
  Forall (fun f => Outline.id f < p) forms ->
  map (fun f : Outline.form =>
         if Nat.eqb (Outline.id f) p then (fst f, snd f ++ [t]) else f) forms
  = forms.
Proof.
  intros H. apply other_forms. eapply Forall_impl; [|exact H].
  cbn. intros; lia.
Qed.

Lemma quiet_ret {A} root forms bound (a : A) :
  Outline.quiet root forms bound (ret a).
Proof. intros st _. cbn. split; [lia|reflexivity]. Qed.

Lemma quiet_raise {A} root forms bound e :
  Outline.quiet root forms bound (@raise A e).
Proof. intros st _. cbn. split; [lia|reflexivity]. Qed.

Lemma quiet_bind {A B} root forms bound (m : M A) (k : A -> M B) :
  Outline.quiet root forms bound m ->
  (forall a, Outline.quiet root forms bound (k a)) ->
  Outline.quiet root forms bound (bind m k).
Proof.
  intros Hm Hk st Hst. destruct (Hm st Hst) as [H1 H2].
  unfold bind. destruct (m st) as [[[e|a] s1] o1]; cbn [final calls fst snd] in *.
  - split; assumption.
  - assert (Hs1 : bound <= next_id s1) by lia.
    destruct (Hk a s1 Hs1) as [H3 H4].
    destruct (k a s1) as [[r s2] o2]; cbn [final calls fst snd] in *.
    split; [lia|]. rewrite outline_from_app, H2. exact H4.
Qed.

Lemma quiet_SubElement {B} root forms bound p tg (k : nat -> M B) :
  p <> root -> Forall (fun f => Outline.id f < p) forms ->
  (forall ct, bound <= ct -> Outline.quiet root forms (S ct) (k ct)) ->
  Outline.quiet root forms bound (bind (SubElement p tg) k).
Proof.
  intros Hp Hf Hk st Hst. rewrite bind_SubElement.
  cbn [final calls fst snd].
  destruct (Hk (next_id st) Hst (alloc st) ltac:(cbn; lia)) as [H1 H2].
  split; [cbn in H1; lia|].
  cbn [Outline.from fold_left Outline.step].
  replace (Nat.eqb p root) with false by (symmetry; apply Nat.eqb_neq; exact Hp).
  rewrite (untouched_forms forms p tg Hf). exact H2.
Qed.

Lemma quiet_weaken {A} root forms b1 b2 (m : M A) :
  b1 <= b2 -> Outline.quiet root forms b1 m -> Outline.quiet root forms b2 m.
Proof. intros Hb Hm st Hst. apply Hm. lia. Qed.

Lemma quiet_for_each {A} root forms bound (l : list A) (body : A -> M unit) :
  (forall x, Outline.quiet root forms bound (body x)) ->
  Outline.quiet root forms bound (for_each l body).
Proof.
  intros Hb. induction l as [|x l IH]; cbn [for_each].
  - apply quiet_ret.
  - apply quiet_bind; [apply Hb|intros _; exact IH].
Qed.

Lemma quiet_leaf root forms bound p tg s :
  p <> root -> Forall (fun f => Outline.id f < p) forms ->
  Outline.quiet root forms bound (leaf p tg s).
Proof.
  intros Hp Hf. unfold leaf. apply quiet_SubElement; [exact Hp|exact Hf|].
  intros ct _ st _. cbn. split; [lia|reflexivity].
Qed.

Lemma emit_records_quiet root sub (forms : list Outline.form) data :
  root < sub -> Forall (fun f => Outline.id f < sub) forms ->
  Outline.quiet root forms (S sub) (OFK.emit_records sub data).
Proof.
  intros Hr Hf. unfold OFK.emit_records. apply quiet_for_each. intros values.
  apply quiet_bind.
  - destruct (find _ OFK.subformRegeltag); [apply quiet_ret|apply quiet_raise].
  - intros tg. apply quiet_SubElement; [lia|exact Hf|].
    intros ct Hct. apply quiet_for_each. intros kv.
    apply quiet_leaf; [lia|].
    eapply Forall_impl; [|exact Hf]. cbn. intros; lia.
Qed.

Lemma last_id_snoc l f : Outline.last_id (l ++ [f]) = Some (Outline.id f).
Proof. unfold Outline.last_id. rewrite rev_app_distr. reflexivity. Qed.

Lemma seen_names (forms : list Outline.form) :
  map fst (map Outline.named forms) = map Outline.name forms.
Proof. rewrite map_map. reflexivity. Qed.

Lemma emit_forms_outline root dfs : forall (forms : list Outline.form) st,
  root < next_id st ->
  Forall (fun f => root < Outline.id f < next_id st) forms ->
  NoDup (map Outline.id forms) ->
  result (OFK.emit_forms root dfs (map Outline.name forms)
            (Outline.last_id forms) st) = inr tt ->
  map Outline.named
    (snd (Outline.from root (next_id st, forms)
            (calls (OFK.emit_forms root dfs (map Outline.name forms)
                      (Outline.last_id forms) st))))
  = Outline.grouped (map Outline.named forms) dfs.
Proof.
  induction dfs as [|data rest IH]; intros forms st Hroot Hf Hnd Hok.
  - reflexivity.
  - cbn [OFK.emit_forms Outline.grouped] in *. rewrite seen_names.
    destruct (existsb (String.eqb (OFK.formName data)) (map Outline.name forms))
      eqn:Eseen.
    + destruct (exists_last (l := forms)) as [l [f Hl]].
      { intros ->. discriminate Eseen. }
      subst forms. rewrite last_id_snoc in *.
      rewrite bind_SubElement in *. cbn [result calls fst snd] in *.
      set (f' := (fst f, snd f ++ [OFK.sheet data]) : Outline.form).
      assert (Hforms : map (fun g : Outline.form =>
                 if Nat.eqb (Outline.id g) (Outline.id f)
                 then (fst g, snd g ++ [OFK.sheet data]) else g) (l ++ [f])
               = l ++ [f']).
      { rewrite map_app. cbn [map]. rewrite Nat.eqb_refl.
        rewrite other_forms; [reflexivity|].
        rewrite map_app in Hnd. cbn [map] in Hnd.
        apply NoDup_remove_2 in Hnd. rewrite app_nil_r in Hnd.
        apply Forall_forall. intros g Hg Heq. apply Hnd.
        rewrite <- Heq. apply in_map. exact Hg. }
      assert (Hidf : root < Outline.id f < next_id st).
      { rewrite Forall_forall in Hf. apply Hf. apply in_or_app. right.
        left. reflexivity. }
      assert (Hf' : Forall (fun g => root < Outline.id g < next_id st)
                      (l ++ [f'])).
      { apply Forall_app. apply Forall_app in Hf. destruct Hf as [Hl Hlast].
        split; [exact Hl|]. constructor; [exact Hidf|constructor]. }
      destruct (emit_records_quiet root (next_id st) (l ++ [f']) data Hroot
                  ltac:(eapply Forall_impl; [|exact Hf']; cbn; intros; lia)
                  (alloc st) ltac:(cbn; lia)) as [Hge Hq].
      set (k := fun _ : unit =>
                  OFK.emit_forms root rest (map Outline.name (l ++ [f]))
                    (Some (Outline.id f))) in *.
      destruct (OFK.emit_records (next_id st) data (alloc st))
        as [[[e|[]] s1] o1] eqn:Erec.
      * rewrite (bind_raise _ _ _ _ _ _ Erec) in Hok. discriminate Hok.
      * rewrite (bind_ok _ _ _ _ _ _ Erec) in *.
        cbn [result final calls fst snd] in *.
        cbn [Outline.from fold_left Outline.step].
        replace (Nat.eqb (Outline.id f) root) with false
          by (symmetry; apply Nat.eqb_neq; lia).
        rewrite Hforms.
        change (fold_left (Outline.step root) (o1 ++ calls (k tt s1))
                  (S (next_id st), l ++ [f']))
          with (Outline.from root (next_id (alloc st), l ++ [f'])
                  (o1 ++ calls (k tt s1))).
        rewrite outline_from_app, Hq. unfold k in *.
        assert (Hn : map Outline.name (l ++ [f]) = map Outline.name (l ++ [f']))
          by (rewrite !map_app; reflexivity).
        assert (Hi : Some (Outline.id f) = Outline.last_id (l ++ [f']))
          by (rewrite last_id_snoc; reflexivity).
        rewrite Hn, Hi in *.
        rewrite IH.
        -- f_equal. rewrite !map_app. cbn [map]. destruct f as [[i n] ss].
           apply (eq_sym (add_to_last_snoc _ _ _ _)).
        -- cbn in Hge. lia.
        -- eapply Forall_impl; [|exact Hf']. cbn in *. intros; lia.
        -- replace (map Outline.id (l ++ [f'])) with (map Outline.id (l ++ [f]))
             by (rewrite !map_app; reflexivity).
           exact Hnd.
        -- exact Hok.
    + rewrite bind_SubElement in *. cbn [result calls fst snd] in *.
      rewrite bind_SubElement in *. cbn [result calls fst snd] in *.
      set (f' := (next_id st, OFK.formName data, [OFK.sheet data])
                 : Outline.form).
      assert (Hf' : Forall (fun g => root < Outline.id g < S (next_id st))
                      (forms ++ [f'])).
      { apply Forall_app. split.
        - eapply Forall_impl; [|exact Hf]. cbn. intros; lia.
        - constructor; [cbn; lia|constructor]. }
      destruct (emit_records_quiet root (S (next_id st)) (forms ++ [f']) data
                  ltac:(lia)
                  ltac:(eapply Forall_impl; [|exact Hf']; cbn; intros; lia)
                  (alloc (alloc st)) ltac:(cbn; lia))
        as [Hge Hq].
      set (k := fun _ : unit =>
                  OFK.emit_forms root rest
                    (map Outline.name forms ++ [OFK.formName data])
                    (Some (next_id st))) in *.
      change (next_id (alloc st)) with (S (next_id st)) in *.
      destruct (OFK.emit_records (S (next_id st)) data (alloc (alloc st)))
        as [[[e|[]] s1] o1] eqn:Erec.
      * rewrite (bind_raise _ _ _ _ _ _ Erec) in Hok. discriminate Hok.
      * rewrite (bind_ok _ _ _ _ _ _ Erec) in *.
        cbn [result final calls fst snd] in *.
        cbn [Outline.from fold_left Outline.step].
        rewrite Nat.eqb_refl. cbn [Outline.step].
        replace (Nat.eqb (next_id st) root) with false
          by (symmetry; apply Nat.eqb_neq; lia).
        rewrite map_app. cbn [map Outline.id fst snd]. rewrite Nat.eqb_refl.
        rewrite (untouched_forms forms (next_id st) (OFK.sheet data))
          by (eapply Forall_impl; [|exact Hf]; cbn; intros; lia).
        cbn [app].
        rewrite fold_left_app. unfold Outline.from in Hq.
        match goal with
        | |- context [fold_left ?s o1 ?x] =>
            replace (fold_left s o1 x) with (next_id s1, forms ++ [f'])
              by (symmetry; exact Hq)
        end.
        fold (Outline.from root (next_id s1, forms ++ [f']) (calls (k tt s1))).
        unfold k in *.
        assert (Hn : map Outline.name forms ++ [OFK.formName data]
                     = map Outline.name (forms ++ [f']))
          by (rewrite map_app; reflexivity).
        assert (Hi : Some (next_id st) = Outline.last_id (forms ++ [f']))
          by (rewrite last_id_snoc; reflexivity).
        rewrite Hn, Hi in *.
        rewrite IH.
        -- f_equal. rewrite map_app. reflexivity.
        -- cbn in Hge. lia.
        -- eapply Forall_impl; [|exact Hf']. cbn in *. intros; lia.
        -- rewrite map_app. cbn [map]. apply NoDup_app.
           ++ exact Hnd.
           ++ constructor; [intros []|constructor].
           ++ intros x Hx [Hx'|[]]. cbn in Hx'. subst x.
              apply in_map_iff in Hx. destruct Hx as [g [Hg Hin]].
              rewrite Forall_forall in Hf. specialize (Hf g Hin). lia.
        -- exact Hok.
Qed.

Lemma add_to_last_names acc s :
  map fst (Outline.add_to_last acc s) = map fst acc.
Proof.
  induction acc as [|[n ss] acc IH]; [reflexivity|].
  cbn [Outline.add_to_last]. destruct acc as [|y acc]; [reflexivity|].
  cbn [map fst] in *. rewrite IH. reflexivity.
Qed.

Lemma add_to_last_sheets acc s :
  acc <> [] ->
  List.concat (map snd (Outline.add_to_last acc s)) = List.concat (map snd acc) ++ [s].
Proof.
  intros Hne. destruct (exists_last Hne) as [l [[n ss] ->]].
  rewrite add_to_last_snoc, !map_app, !List.concat_app. cbn.
  rewrite !app_nil_r, app_assoc. reflexivity.
Qed.

Lemma seen_In name (names : list string) :
  existsb (String.eqb name) names = true <-> In name names.
Proof.
  rewrite existsb_exists. split.
  - intros [x [Hin He]]. apply String.eqb_eq in He. subst x. exact Hin.
  - intros Hin. exists name. split; [exact Hin|apply String.eqb_refl].
Qed.

Lemma grouped_names dfs : forall acc,
  NoDup (map fst acc) ->
  NoDup (map fst (Outline.grouped acc dfs))
  /\ (forall n, In n (map fst (Outline.grouped acc dfs))
                <-> In n (map fst acc) \/ In n (map OFK.formName dfs)).
Proof.
  induction dfs as [|d rest IH]; intros acc Hnd; cbn [Outline.grouped map].
  - split; [exact Hnd|]. intros n. split; [left; assumption|].
    intros [H|[]]. exact H.
  - destruct (existsb (String.eqb (OFK.formName d)) (map fst acc)) eqn:E.
    + apply seen_In in E.
      destruct (IH (Outline.add_to_last acc (OFK.sheet d))) as [H1 H2].
      { rewrite add_to_last_names. exact Hnd. }
      split; [exact H1|]. intros n. rewrite H2, add_to_last_names.
      cbn [In]. split; [tauto|]. intros [H|[H|H]]; [tauto| |tauto].
      subst n. left. exact E.
    + assert (Hnot : ~ In (OFK.formName d) (map fst acc)).
      { intros H. apply seen_In in H. rewrite H in E. discriminate E. }
      destruct (IH (acc ++ [(OFK.formName d, [OFK.sheet d])])) as [H1 H2].
      { rewrite map_app. cbn [map fst]. apply NoDup_app.
        - exact Hnd.
        - constructor; [intros []|constructor].
        - intros x Hx [Hx'|[]]. subst x. contradiction. }
      split; [exact H1|]. intros n. rewrite H2, map_app, in_app_iff.
      cbn [map fst In]. tauto.
Qed.

Lemma grouped_sheets dfs : forall acc,
  List.concat (map snd (Outline.grouped acc dfs))
  = List.concat (map snd acc) ++ map OFK.sheet dfs.
Proof.
  induction dfs as [|d rest IH]; intros acc; cbn [Outline.grouped map].
  - rewrite app_nil_r. reflexivity.
  - rewrite IH.
    destruct (existsb (String.eqb (OFK.formName d)) (map fst acc)) eqn:E.
    + rewrite add_to_last_sheets, <- app_assoc; [reflexivity|].
      intros ->. discriminate E.
    + rewrite map_app, List.concat_app, <- app_assoc. reflexivity.
Qed.

(** X25: forms and sheets in an OFK document (lines 773-794 of
    OFKReport.py).  When the sheets of a workbook are all emitted, the
    children of the root that they add and the children of those are as
    follows:
    - there is one form element for each form name, in the order in which
      the names first appear, and every sheet has one element, in the order
      of the workbook;
    - the element of a sheet is put under the form created last, not under
      the form of its own name: a sheet whose form name was seen before,
      with a sheet of another form in between, ends under that other form. *)
Theorem OFK_forms_and_sheets
  (root : nat) (dataframes : list OFK.Sheet) (st : locals) :
  root < next_id st ->
  result (OFK.emit_forms root dataframes [] None st) = inr tt ->
  let forms :=
    Outline.outline root (next_id st)
      (calls (OFK.emit_forms root dataframes [] None st)) in
  forms = Outline.grouped [] dataframes
  /\ NoDup (map fst forms)
  /\ (forall n, In n (map fst forms) <-> In n (map OFK.formName dataframes))
  /\ List.concat (map snd forms) = map OFK.sheet dataframes
  /\ (forall a b c,
        dataframes = [a; b; c] ->
        OFK.formName c = OFK.formName a ->
        OFK.formName b <> OFK.formName a ->
        forms = [(OFK.formName a, [OFK.sheet a]);
                 (OFK.formName b, [OFK.sheet b; OFK.sheet c])]).
Proof.
  intros Hroot Hok forms.
  assert (Hforms : forms = Outline.grouped [] dataframes).
  { unfold forms, Outline.outline.
    apply (emit_forms_outline root dataframes [] st Hroot);
      [constructor|constructor|exact Hok]. }
  split; [exact Hforms|]. rewrite Hforms.
  destruct (grouped_names dataframes [] (NoDup_nil _)) as [H1 H2].
  split; [exact H1|]. split.
  - intros n. rewrite H2. cbn [map In]. tauto.
  - split; [apply grouped_sheets|].
    intros a b c -> Hca Hba. cbn. rewrite Hca.
    destruct (String.eqb (OFK.formName b) (OFK.formName a)) eqn:E;
      [apply String.eqb_eq in E; contradiction|].
    cbn. rewrite String.eqb_refl. reflexivity.
Qed.

(* ================================================================= *)
(** ** Instances *)



Lemma OFK_skips_invalid_workbooks_witness :
  written_paths (fst (OFK.generateXML [Samples.ofk_bad; Samples.ofk_ok] Samples.noon))
  = map OFK_output (filter passes [Samples.ofk_bad; Samples.ofk_ok])
  /\ List.length (filter is_log_line
                    (fst (OFK.generateXML [Samples.ofk_bad; Samples.ofk_ok]
                            Samples.noon)))
     = (2 * List.length (filter (fun f => negb (passes f))
                           [Samples.ofk_bad; Samples.ofk_ok]))%nat.
Proof.
  apply (OFK_skips_invalid_workbooks [Samples.ofk_bad; Samples.ofk_ok]
           Samples.noon).
  vm_compute. reflexivity.
Defined.


Lemma OFK_unknown_sheet_stops_the_batch_witness :
  OFK.generateXML (ofk_unknown :: [Samples.ofk_ok]) Samples.noon
  = ([Debug ("Generating xml for --> " ++ OFK.path ofk_unknown ++ nl)],
     Some (KeyError "ZZ-NEW")).
Proof.
  apply (OFK_unknown_sheet_stops_the_batch ofk_unknown [Samples.ofk_ok]
           Samples.noon [] []
           (OFK.mkSheet "ZZ" "ZZ-NEW" ["Regel"; "Naam"; "Waarde"]
              [[("Regel", VInt 1); ("Naam", VStr "x"); ("Waarde", VInt 3)]])
           0 init_locals []).
  - reflexivity.
  - reflexivity.
  - reflexivity.
  - reflexivity.
  - discriminate.
Defined.

Lemma OFK_validation_is_exact_witness :
  cell_ok Samples.ad_c_rule
    (OFK.columns_to_validate [Samples.ofk_sheet (VStr "Dochter")] "AD-C")
    "Waarde" (VInt 4).
Proof.
  apply (proj1 (OFK_validation_is_exact [Samples.ofk_sheet (VStr "Dochter")])
           eq_refl
           (Samples.ofk_sheet (VStr "Dochter")) Samples.ad_c_rule
           [("Regel", VInt 1); ("Naam", VStr "Dochter"); ("Land", VStr "NL");
            ("Dlnperc", VInt 100); ("Waarde", VInt 4); ("Aankoop", VInt 3);
            ("Verkoop", VInt 2); ("Dividend", VInt 4)]
           "Waarde" (VInt 4)).
  - left. reflexivity.
  - reflexivity.
  - left. reflexivity.
  - cbn. tauto.
Defined.

Lemma output_path_replaces_extension_witness :
  AIFM_output (AIFM.mkFile ("in/" ++ String "r" "eport" ++ "." ++ "xlsx")
                 Samples.aifm_ok)
  = ("in/" ++ String "r" "eport" ++ ".xml")%string
  /\ AIFM_output (AIFM.mkFile ("in/" ++ String "r" "eport" ++ "." ++ "xlsx")
                    Samples.aifm_ok)
     = AIFM_output (AIFM.mkFile ("in/" ++ String "r" "eport" ++ "." ++ "xls")
                      Samples.aifm_bad)
  /\ AIFM_output (AIFM.mkFile "report" Samples.aifm_ok) = ("report" ++ ".xml")%string.
Proof.
  apply (output_path_replaces_extension "in/" "eport" "xlsx" "xls" "r"
           Samples.aifm_ok Samples.aifm_bad "report").
  - discriminate.
  - reflexivity.
  - reflexivity.
  - reflexivity.
  - reflexivity.
  - reflexivity.
  - reflexivity.
Defined.

Lemma OFK_stamp_by_month_witness :
  OFK.file_date (Samples.january 0%nat) (Samples.january 1%nat)
  = (pad 4 (year (Samples.january 0%nat)) ++ "-"
     ++ pad 2 (month (Samples.january 1%nat) - 1))%string.
Proof.
  apply (proj1 (OFK_stamp_by_month (Samples.january 0%nat) (Samples.january 1%nat)
                  ltac:(cbn; lia))).
  cbn. lia.
Defined.

Lemma AIFM_market_code_rule_witness :
  result (AIFM.market_row 9 (VStr "MIC", VStr "XAMS ", VInt 1) 0 init_locals)
  = inl (LengthValueRequiredError
           "Maximum length of 4 is required for MarketCode!").
Proof.
  apply (proj1 (proj2 (proj1
           (AIFM_market_code_rule 9 (VStr "MIC") (VStr "XAMS ") (VInt 1) 0
              init_locals eq_refl ltac:(lia)) eq_refl)) "XAMS " eq_refl).
  cbn. lia.
Defined.

Lemma AIFM_at_most_five_markets_witness :
  result (AIFM.markets_loop 9
            (AIFM.market_cells Samples.five_markets
               ++ (VStr "XXX", VStr "", VInt 1) :: []) 0 init_locals)
  = inl IndexError.
Proof.
  apply (proj1 AIFM_at_most_five_markets 9
           (AIFM.market_cells Samples.five_markets)
           (VStr "XXX") (VStr "") (VInt 1) [] init_locals);
    reflexivity.
Defined.

Lemma obligation_change_rule_witness :
  quarter_rule
    (AIFM.obligation_change 1
       [("AIFMReportingObligationChangeFrequencyCode", VStr "Q");
        ("AIFMReportingObligationChangeContentsCode", VStr "");
        ("AIFMReportingObligationChangeQuarter", VStr "");
        ("LastReportingFlag", VStr "FALSE")] init_locals)
    1 "AIFMReportingObligationChangeQuarter" (VStr "Q") (VStr "") (VStr "")
    (VStr "FALSE").
Proof.
  apply (proj1 (obligation_change_rule 1
           [("AIFMReportingObligationChangeFrequencyCode", VStr "Q");
            ("AIFMReportingObligationChangeContentsCode", VStr "");
            ("AIFMReportingObligationChangeQuarter", VStr "");
            ("LastReportingFlag", VStr "FALSE")]
           (VStr "Q") (VStr "") (VStr "") (VStr "FALSE") init_locals));
    reflexivity.
Defined.

Lemma AIFM_identifier_rule_witness :
  creates "AIFMNationalCode"
    (calls (AIFM.identifiers 1
              [("AIFMIdentifierLEI", VStr "L"); ("AIFMIdentifierBIC", VStr "");
               ("ReportingMemberState", VStr "");
               ("AIFMNationalCode", VStr "12345")] init_locals))
  = false.
Proof.
  apply (proj2 (AIFM_identifier_rule 1
           [("AIFMIdentifierLEI", VStr "L"); ("AIFMIdentifierBIC", VStr "");
            ("ReportingMemberState", VStr "");
            ("AIFMNationalCode", VStr "12345")]
           (VStr "L") (VStr "") (VStr "") (VStr "12345") init_locals)
         ltac:(discriminate) eq_refl eq_refl eq_refl eq_refl).
Defined.

Lemma AIF_identifier_blocks_witness :
  AIF.identification 7
    [("AIFIdentifierLEI", VStr ""); ("AIFIdentifierISIN", VStr "NL0000000001");
     ("ReportingMemberState", VStr ""); ("AIFNationalCode", VStr "")]
    init_locals
  = (inl (UnboundLocalError "AIFIdentification"), init_locals, []).
Proof.
  apply (proj1 (proj2 (AIF_identifier_blocks 7 8 "AIFIdentifierLEI" (VStr "")
                          [("AIFIdentifierISIN", VStr "NL0000000001");
                           ("ReportingMemberState", VStr "");
                           ("AIFNationalCode", VStr "")] [] init_locals
                          ltac:(exists (VStr ""), (VStr "");
                                split; [reflexivity|split; [reflexivity|tauto]]))
                  eq_refl)
           [] "AIFIdentifierISIN" (VStr "NL0000000001")
           [("ReportingMemberState", VStr ""); ("AIFNationalCode", VStr "")]
           eq_refl (Forall_nil _) ltac:(discriminate) eq_refl).
Defined.

Lemma AIF_build_needs_witness :
  (lookup (AIF.section 54 58 Samples.aif_ok) "PredominantAIFType"
   = Some (VStr "HFND")
   \/ lookup (AIF.section 54 58 Samples.aif_ok) "PredominantAIFType"
      = Some (VStr "PEQF"))
  /\ (exists r, In r Samples.aif_ok /\ AIF.Id r = VStr "113")
  /\ List.length (AIF.rows_with_tag (AIF.tags "m" 1 6) Samples.aif_ok) <> 1%nat.
Proof.
  apply (AIF_build_needs Samples.aif_ok (Samples.noon 0%nat) init_locals 0%nat).
  vm_compute. reflexivity.
Defined.


Lemma header_needs_two_rows_witness :
  result (AIFM.build [Samples.m "ReportingMemberState" "1" (VStr "NL")]
            (Samples.noon 0%nat) init_locals)
  = inl IndexError.
Proof.
  apply (proj1 (header_needs_two_rows (Samples.noon 0%nat) init_locals)
           [Samples.m "ReportingMemberState" "1" (VStr "NL")]).
  cbn. lia.
Defined.

Lemma reporting_period_wants_date_cells_witness :
  result (AIF.record_info_fields 1
            ([("FilingType", VStr "INIT")]
               ++ ("ReportingPeriodStartDate", VStr "2020-01-01") :: [])
            init_locals)
  = inl AttributeError.
Proof.
  apply (proj1 (proj2 (reporting_period_wants_date_cells 1
           [("FilingType", VStr "INIT")] [] "ReportingPeriodStartDate"
           (VStr "2020-01-01") init_locals
           ltac:(constructor; [split; [discriminate|intros H; discriminate H]
                              |constructor])
           eq_refl)
         ltac:(discriminate) ltac:(intros d; discriminate))).
Defined.

Lemma AIF_base_currency_rule_witness :
  AIF_currency_rule
    (AIF.base_currency 3
       [("BaseCurrency", VStr "usd"); ("AIFNetAssetValue", VInt 1000);
        ("AUMAmountInBaseCurrency", VInt 1200); ("FXEURRate", VStr "");
        ("FXEURReferenceRateType", VStr "ECB");
        ("FXEUROtherReferenceRateDescription", VStr "")] init_locals)
    3 init_locals "usd" (VInt 1000) (VInt 1200) (VStr "") "ECB" (VStr "").
Proof.
  apply (AIF_base_currency_rule 3
           [("BaseCurrency", VStr "usd"); ("AIFNetAssetValue", VInt 1000);
            ("AUMAmountInBaseCurrency", VInt 1200); ("FXEURRate", VStr "");
            ("FXEURReferenceRateType", VStr "ECB");
            ("FXEUROtherReferenceRateDescription", VStr "")]
           "usd" "ECB" (VInt 1000) (VInt 1200) (VStr "") (VStr "") init_locals);
    reflexivity.
Defined.

Lemma AIF_master_feeder_rule_witness :
  AIF_master_rule
    (AIF.master_feeder 3
       [("AIFMasterFeederStatus", VStr "feeder"); ("AIFName", VStr "Fund A");
        ("ReportingMemberState", VStr "NL"); ("AIFNationalCode", VStr "")]
       init_locals)
    3 init_locals (VStr "feeder") (VStr "Fund A") (VStr "NL") (VStr "").
Proof.
  apply (AIF_master_feeder_rule 3
           [("AIFMasterFeederStatus", VStr "feeder"); ("AIFName", VStr "Fund A");
            ("ReportingMemberState", VStr "NL"); ("AIFNationalCode", VStr "")]
           (VStr "feeder") (VStr "Fund A") (VStr "NL") (VStr "") init_locals);
    reflexivity.
Defined.

Lemma OFK_forms_and_sheets_witness :
  Outline.outline 0 1
    (calls (OFK.emit_forms 0
              [OFK.mkSheet "AD" "AD-A" ["Naam"] [[("Naam", VStr "Fonds")]];
               OFK.mkSheet "PD" "PD-A" ["Naam"] [[("Naam", VStr "Fonds")]];
               OFK.mkSheet "AD" "AD-C" ["Land"] [[("Land", VStr "NL")]]]
              [] None (mkLocals 1 [])))
  = [("AD", ["AD-A"]); ("PD", ["PD-A"; "AD-C"])].
Proof.
  apply (proj2 (proj2 (proj2 (proj2
           (OFK_forms_and_sheets 0
              [OFK.mkSheet "AD" "AD-A" ["Naam"] [[("Naam", VStr "Fonds")]];
               OFK.mkSheet "PD" "PD-A" ["Naam"] [[("Naam", VStr "Fonds")]];
               OFK.mkSheet "AD" "AD-C" ["Land"] [[("Land", VStr "NL")]]]
              (mkLocals 1 []) ltac:(cbn; lia) eq_refl))))
         _ _ _ eq_refl eq_refl ltac:(discriminate)).
Defined.

